(** * Attribute handlers of the Fastly Terraform provider

    A shallow embedding of the three attribute handlers
    (ACL, Logentries, Package) and of the parts of the Terraform plugin
    SDK and of the Fastly client they are written against, followed by
    the properties of the reconciliation write path ([Process]) and of
    the read path ([Read]). *)

From Stdlib Require Import ZArith.
From stdpp Require Import gmap strings list fin_maps sorting.

Local Open Scope string_scope.
Local Open Scope Z_scope.
Local Open Scope list_scope.

(** ** Dynamic values

    A declared block is a Go [map[string]interface{}]; the values the
    handlers store in it, or read from it with a type assertion, are
    strings, ints, uints and bools. *)

Inductive Value : Type :=
  | VString (s : string)
  | VInt (n : Z)
  | VUint (n : Z)
  | VBool (b : bool).

Global Instance Value_eq_dec : EqDecision Value.
Proof. solve_decision. Defined.

Abbreviation Block := (gmap string Value).

(** [v.(string)], [v.(int)], [v.(bool)] on the result of a map index:
    [None] stands for the run-time panic of a failed assertion (a missing
    key indexes to the nil interface, on which every assertion fails). *)

Definition assertString (v : option Value) : option string :=
  match v with Some (VString s) => Some s | _ => None end.

Definition assertInt (v : option Value) : option Z :=
  match v with Some (VInt n) => Some n | _ => None end.

Definition assertBool (v : option Value) : option bool :=
  match v with Some (VBool b) => Some b | _ => None end.

(** The comparison of an interface value [v] with the empty string
    literal: true only for a value of dynamic type string that is the
    empty string. *)

Definition isEmptyString (v : Value) : bool :=
  match v with VString s => bool_decide (s = EmptyString) | _ => false end.

(** ** [schema.Set]

    The set type belongs to the Terraform plugin SDK, which the handlers
    import.  The SDK keeps a set as a Go map from the hash code of an
    item to the item.  [Difference] and [List] only look at the codes;
    the hash function of a set, which the SDK derives from the schema of
    the attribute, is used by [Add] alone and is a parameter here. *)

Abbreviation SchemaSet := (gmap string Block).

Module schema.

Definition code_le (a b : string * Block) : Prop :=
  String.leb a.1 b.1 = true.

Global Instance code_le_dec a b : Decision (code_le a b).
Proof. unfold code_le. apply _. Defined.

(** [s.Difference(o)]: the entries of [s] whose code is not a key of
    [o]. *)
Definition Difference (s o : SchemaSet) : SchemaSet :=
  filter (λ kv, o !! kv.1 = None) s.

(** [s.List()]: the items in ascending order of their codes. *)
Definition List (s : SchemaSet) : list Block :=
  (merge_sort code_le (map_to_list s)).*2.

Section Hashed.
Variable hash : Block → string.

(** [s.Add(item)]: the first item with a given code is kept. *)
Definition Add (s : SchemaSet) (item : Block) : SchemaSet :=
  let code := hash item in
  match s !! code with
  | Some _ => s
  | None => <[code := item]> s
  end.

(** [NewSet(f, items)]. *)
Definition NewSet (items : list Block) : SchemaSet :=
  foldl Add ∅ items.
End Hashed.

End schema.

(** ** The Fastly client: request and response types

    Only the fields the handlers read or write are kept.  Go's [int] and
    [uint] are 64 bits wide. *)

Definition uint (n : Z) : Z := n mod 2 ^ 64.

Module gofastly.

Module DeleteACLInput.
Record t := mk { ServiceID : string; ServiceVersion : Z; Name : string }.
End DeleteACLInput.

Module CreateACLInput.
Record t := mk { ServiceID : string; ServiceVersion : Z; Name : string }.
End CreateACLInput.

Module ListACLsInput.
Record t := mk { ServiceID : string; ServiceVersion : Z }.
End ListACLsInput.

Module DeleteLogentriesInput.
Record t := mk { ServiceID : string; ServiceVersion : Z; Name : string }.
End DeleteLogentriesInput.

Module CreateLogentriesInput.
Record t := mk {
  ServiceID : string;
  ServiceVersion : Z;
  Name : string;
  Port : Z;
  UseTLS : bool;
  Token : string;
  Format : string;
  FormatVersion : Z;
  Placement : string;
  ResponseCondition : string }.
End CreateLogentriesInput.

Module ListLogentriesInput.
Record t := mk { ServiceID : string; ServiceVersion : Z }.
End ListLogentriesInput.

Module GetPackageInput.
Record t := mk { ServiceID : string; ServiceVersion : Z }.
End GetPackageInput.

Module UpdatePackageInput.
Record t := mk { ServiceID : string; ServiceVersion : Z; PackagePath : string }.
End UpdatePackageInput.

Module ACL.
Record t := mk { ID : string; Name : string }.
End ACL.

Module Logentries.
Record t := mk {
  Name : string;
  Port : Z;
  UseTLS : bool;
  Token : string;
  Format : string;
  FormatVersion : Z;
  ResponseCondition : string;
  Placement : string }.
End Logentries.

Module PackageMetadata.
Record t := mk { HashSum : string }.
End PackageMetadata.

Module Package.
Record t := mk { Metadata : PackageMetadata.t }.
End Package.

Module Version.
Record t := mk { Number : Z }.
End Version.

Module ServiceDetail.
Record t := mk { ActiveVersion : Version.t }.
End ServiceDetail.

(** The request of a remote call. *)
Inductive Request : Type :=
  | ReqDeleteACL (i : DeleteACLInput.t)
  | ReqCreateACL (i : CreateACLInput.t)
  | ReqListACLs (i : ListACLsInput.t)
  | ReqDeleteLogentries (i : DeleteLogentriesInput.t)
  | ReqCreateLogentries (i : CreateLogentriesInput.t)
  | ReqListLogentries (i : ListLogentriesInput.t)
  | ReqGetPackage (i : GetPackageInput.t)
  | ReqUpdatePackage (i : UpdatePackageInput.t).

End gofastly.

(** ** Errors and formatted output

    A Go [error] value is [*gofastly.HTTPError], of which the handlers
    inspect the status code, or some other error, or the result of
    [fmt.Errorf], kept as its format and arguments.  The nil error is
    [None : option error]. *)

Inductive error : Type :=
  | HTTPError (StatusCode : Z)
  | OtherError (msg : string)
  | Errorf (format : string) (args : list fmtArg)
with fmtArg : Type :=
  | ArgString (s : string)
  | ArgInt (n : Z)
  | ArgError (e : error)
  | ArgRequest (r : gofastly.Request).

(** A response of the client that carries data: the handlers look at
    the error first and use the data only when it is nil. *)
Inductive response (A : Type) : Type :=
  | Ok (a : A)
  | Err (e : error).
Arguments Ok {A} a.
Arguments Err {A} e.

Definition response_err {A} (r : response A) : option error :=
  match r with Ok _ => None | Err e => Some e end.

(** What is observed of one run: the remote calls with the error each
    returned, the lines given to [log.Printf], and the writes to the
    state sink ([d.Set]) with their results. *)

Record Call := mkCall { call_req : gofastly.Request; call_err : option error }.

Record LogLine := mkLog { log_format : string; log_args : list fmtArg }.

Record Store := mkStore
  { store_key : string; store_value : list Block; store_err : option error }.

(** The client, over the state [R] of everything outside the handler. *)
Record Client (R : Type) := mkClient {
  client_DeleteACL : gofastly.DeleteACLInput.t → R → option error * R;
  client_CreateACL : gofastly.CreateACLInput.t → R → response gofastly.ACL.t * R;
  client_ListACLs : gofastly.ListACLsInput.t → R → response (list gofastly.ACL.t) * R;
  client_DeleteLogentries :
    gofastly.DeleteLogentriesInput.t → R → option error * R;
  client_CreateLogentries :
    gofastly.CreateLogentriesInput.t → R → response gofastly.Logentries.t * R;
  client_ListLogentries :
    gofastly.ListLogentriesInput.t → R → response (list gofastly.Logentries.t) * R;
  client_GetPackage : gofastly.GetPackageInput.t → R → response gofastly.Package.t * R;
  client_UpdatePackage :
    gofastly.UpdatePackageInput.t → R → response gofastly.Package.t * R;
}.
Arguments client_DeleteACL {R} _ _ _.
Arguments client_CreateACL {R} _ _ _.
Arguments client_ListACLs {R} _ _ _.
Arguments client_DeleteLogentries {R} _ _ _.
Arguments client_CreateLogentries {R} _ _ _.
Arguments client_ListLogentries {R} _ _ _.
Arguments client_GetPackage {R} _ _ _.
Arguments client_UpdatePackage {R} _ _ _.

(** ** [schema.ResourceData]

    What a handler reads from [d]: the resource id, the old and new
    value of a set attribute (each possibly nil), a list attribute with
    its "is set" flag, and a single field; and the state sink [d.Set],
    which acts on the state [R] outside the handler and may fail. *)

Record ResourceData (R : Type) := mkResourceData {
  d_Id : string;
  d_GetChange : string → option SchemaSet * option SchemaSet;
  d_GetOk : string → list Block * bool;
  d_Get : string → option Value;
  d_Set : string → list Block → R → option error * R;
}.
Arguments mkResourceData {R} _ _ _ _ _.
Arguments d_Id {R} _.
Arguments d_GetChange {R} _ _.
Arguments d_GetOk {R} _ _.
Arguments d_Get {R} _ _.
Arguments d_Set {R} _ _ _ _.

(** ** The handler base *)

Record ServiceMetadata := mkServiceMetadata { serviceType : string }.

Record DefaultServiceAttributeHandler := mkHandler {
  key : string;
  serviceMetadata : ServiceMetadata;
}.

(** Modelled from the spec: the method [GetKey] of the base handler,
    which is not among the sources; the key name identifies the slot of
    the handler in the declared configuration. *)
Definition GetKey (h : DefaultServiceAttributeHandler) : string := key h.

Record VCLLoggingAttributes (FV : Type) := mkVLA {
  format : string;
  formatVersion : FV;
  placement : string;
  responseCondition : string;
}.
Arguments format {FV} _.
Arguments formatVersion {FV} _.
Arguments placement {FV} _.
Arguments responseCondition {FV} _.

(** ** The monad of a handler run

    A computation threads the outside state and the observations, and
    either returns or panics. *)

Inductive Outcome (A : Type) : Type :=
  | Ret (a : A)
  | Panic.
Arguments Ret {A} a.
Arguments Panic {A}.

Record World (R : Type) := mkWorld {
  remote : R;
  calls : list Call;
  logs : list LogLine;
  stores : list Store;
}.
Arguments mkWorld {R} _ _ _ _.
Arguments remote {R} _.
Arguments calls {R} _.
Arguments logs {R} _.
Arguments stores {R} _.

Definition M (R A : Type) : Type := World R → Outcome A * World R.

Definition ret {R A} (a : A) : M R A := λ w, (Ret a, w).

Definition bind {R A B} (m : M R A) (k : A → M R B) : M R B :=
  λ w, match m w with
       | (Ret a, w') => k a w'
       | (Panic, w') => (Panic, w')
       end.

Global Instance M_ret {R} : MRet (M R) := λ A, ret.
Global Instance M_bind {R} : MBind (M R) := λ A B k m, bind m k.

(** A failed type assertion or map index. *)
Definition assert {R A} (o : option A) : M R A :=
  λ w, match o with Some a => (Ret a, w) | None => (Panic, w) end.

(** [log.Printf(format, args...)]. *)
Definition log_Printf {R} (fmt : string) (args : list fmtArg) : M R unit :=
  λ w, (Ret tt, mkWorld (remote w) (calls w) (logs w ++ [mkLog fmt args]) (stores w)).

(** A remote call: performed on the outside state and recorded. *)
Definition remoteCall {R A} (req : gofastly.Request) (get_err : A → option error)
    (f : R → A * R) : M R A :=
  λ w, let '(a, r) := f (remote w) in
       (Ret a, mkWorld r (calls w ++ [mkCall req (get_err a)]) (logs w) (stores w)).

(** The control flow of a loop body: go on with the next item, or
    return from the enclosing function with an error value. *)
Inductive Flow : Type :=
  | Continue
  | Return (err : option error).

(** [for _, x := range l { body }]. *)
Fixpoint forRange {R A} (l : list A) (body : A → M R Flow) : M R Flow :=
  match l with
  | [] => ret Continue
  | x :: l' =>
      fl ← body x;
      match fl with
      | Continue => forRange l' body
      | Return err => ret (Return err)
      end
  end.

(** [new(schema.Set)]: the zero set has no entries. *)
Definition new_Set : SchemaSet := ∅.

(** The pruning loop shared by the list normalizers:
    for each entry of [m] whose value compares equal to the empty string
    literal, [delete(m, k)]. *)
Definition pruneEmpty (m : Block) : Block :=
  map_fold (λ k v acc, if isEmptyString v then delete k acc else acc) m m.

(** ** The client and the state sink, as computations *)

Section Effects.
Context {R : Type}.

Definition conn_DeleteACL (conn : Client R) (i : gofastly.DeleteACLInput.t)
    : M R (option error) :=
  remoteCall (gofastly.ReqDeleteACL i) id (client_DeleteACL conn i).

Definition conn_CreateACL (conn : Client R) (i : gofastly.CreateACLInput.t)
    : M R (response gofastly.ACL.t) :=
  remoteCall (gofastly.ReqCreateACL i) response_err (client_CreateACL conn i).

Definition conn_ListACLs (conn : Client R) (i : gofastly.ListACLsInput.t)
    : M R (response (list gofastly.ACL.t)) :=
  remoteCall (gofastly.ReqListACLs i) response_err (client_ListACLs conn i).

Definition conn_DeleteLogentries (conn : Client R)
    (i : gofastly.DeleteLogentriesInput.t) : M R (option error) :=
  remoteCall (gofastly.ReqDeleteLogentries i) id (client_DeleteLogentries conn i).

Definition conn_CreateLogentries (conn : Client R)
    (i : gofastly.CreateLogentriesInput.t) : M R (response gofastly.Logentries.t) :=
  remoteCall (gofastly.ReqCreateLogentries i) response_err
             (client_CreateLogentries conn i).

Definition conn_ListLogentries (conn : Client R)
    (i : gofastly.ListLogentriesInput.t)
    : M R (response (list gofastly.Logentries.t)) :=
  remoteCall (gofastly.ReqListLogentries i) response_err
             (client_ListLogentries conn i).

Definition conn_GetPackage (conn : Client R) (i : gofastly.GetPackageInput.t)
    : M R (response gofastly.Package.t) :=
  remoteCall (gofastly.ReqGetPackage i) response_err (client_GetPackage conn i).

Definition conn_UpdatePackage (conn : Client R)
    (i : gofastly.UpdatePackageInput.t) : M R (response gofastly.Package.t) :=
  remoteCall (gofastly.ReqUpdatePackage i) response_err
             (client_UpdatePackage conn i).

(** [d.Set(key, value)]: performed on the outside state and recorded. *)
Definition ResourceData_Set (d : ResourceData R) (k : string)
    (value : list Block) : M R (option error) :=
  λ w, let '(e, r) := d_Set d k value (remote w) in
       (Ret e, mkWorld r (calls w) (logs w) (stores w ++ [mkStore k value e])).

End Effects.

(** ** The ACL handler *)

(** The map literal built for one remote ACL. *)
Definition ACL_fields (acl : gofastly.ACL.t) : Block :=
  {[ "acl_id" := VString (gofastly.ACL.ID acl);
     "name" := VString (gofastly.ACL.Name acl) ]}.

Definition flattenACLs (aclList : list gofastly.ACL.t) : list Block :=
  foldl (λ al acl,
           let vclMap := ACL_fields acl in
           let vclMap := pruneEmpty vclMap in
           al ++ [vclMap])
        [] aclList.

Module ACLServiceAttributeHandler.
Section Handler.
Context {R : Type}.

Definition NewServiceACL (sa : ServiceMetadata) : DefaultServiceAttributeHandler :=
  {| key := "acl"; serviceMetadata := sa |}.

(** The body of the loop over [remove]. *)
Definition Process_remove (d : ResourceData R) (latestVersion : Z)
    (conn : Client R) (val : Block) : M R Flow :=
  name ← assert (assertString (val !! "name"));
  let opts := gofastly.DeleteACLInput.mk (d_Id d) latestVersion name in
  log_Printf "[DEBUG] Fastly ACL removal opts: %#v"
             [ArgRequest (gofastly.ReqDeleteACL opts)];;
  err ← conn_DeleteACL conn opts;
  match err with
  | Some (HTTPError StatusCode) =>
      if decide (StatusCode ≠ 404) then mret (Return err) else mret Continue
  | Some _ => mret (Return err)
  | None => mret Continue
  end.

(** The body of the loop over [add]. *)
Definition Process_add (d : ResourceData R) (latestVersion : Z)
    (conn : Client R) (val : Block) : M R Flow :=
  name ← assert (assertString (val !! "name"));
  let opts := gofastly.CreateACLInput.mk (d_Id d) latestVersion name in
  log_Printf "[DEBUG] Fastly ACL creation opts: %#v"
             [ArgRequest (gofastly.ReqCreateACL opts)];;
  r ← conn_CreateACL conn opts;
  match response_err r with
  | Some err => mret (Return (Some err))
  | None => mret Continue
  end.

Definition Process (h : DefaultServiceAttributeHandler) (d : ResourceData R)
    (latestVersion : Z) (conn : Client R) : M R (option error) :=
  let '(oldACLVal, newACLVal) := d_GetChange d (GetKey h) in
  let oldACLSet := match oldACLVal with None => new_Set | Some s => s end in
  let newACLSet := match newACLVal with None => new_Set | Some s => s end in
  let remove := schema.List (schema.Difference oldACLSet newACLSet) in
  let add := schema.List (schema.Difference newACLSet oldACLSet) in
  fl ← forRange remove (Process_remove d latestVersion conn);
  match fl with
  | Return err => mret err
  | Continue =>
      fl ← forRange add (Process_add d latestVersion conn);
      match fl with
      | Return err => mret err
      | Continue => mret None
      end
  end.

Definition Read (h : DefaultServiceAttributeHandler) (d : ResourceData R)
    (s : gofastly.ServiceDetail.t) (conn : Client R) : M R (option error) :=
  let number := gofastly.Version.Number (gofastly.ServiceDetail.ActiveVersion s) in
  log_Printf "[DEBUG] Refreshing ACLs for (%s)" [ArgString (d_Id d)];;
  r ← conn_ListACLs conn (gofastly.ListACLsInput.mk (d_Id d) number);
  match r with
  | Err err =>
      mret (Some (Errorf "[ERR] Error looking up ACLs for (%s), version (%v): %s"
                         [ArgString (d_Id d); ArgInt number; ArgError err]))
  | Ok aclList =>
      let al := flattenACLs aclList in
      err ← ResourceData_Set d (GetKey h) al;
      match err with
      | Some err => log_Printf "[WARN] Error setting ACLs for (%s): %s"
                               [ArgString (d_Id d); ArgError err]
      | None => mret tt
      end;;
      mret None
  end.

End Handler.
End ACLServiceAttributeHandler.

(** ** The Logentries handler *)

(** The map literal built for one remote Logentries endpoint. *)
Definition Logentries_fields (currentLE : gofastly.Logentries.t) : Block :=
  {[ "name" := VString (gofastly.Logentries.Name currentLE);
     "port" := VUint (gofastly.Logentries.Port currentLE);
     "use_tls" := VBool (gofastly.Logentries.UseTLS currentLE);
     "token" := VString (gofastly.Logentries.Token currentLE);
     "format" := VString (gofastly.Logentries.Format currentLE);
     "format_version" := VUint (gofastly.Logentries.FormatVersion currentLE);
     "response_condition" :=
       VString (gofastly.Logentries.ResponseCondition currentLE);
     "placement" := VString (gofastly.Logentries.Placement currentLE) ]}.

Definition flattenLogentries (logentriesList : list gofastly.Logentries.t)
    : list Block :=
  foldl (λ LEList currentLE,
           let LEMapString := Logentries_fields currentLE in
           let LEMapString := pruneEmpty LEMapString in
           LEList ++ [LEMapString])
        [] logentriesList.

Module LogentriesServiceAttributeHandler.
Section Handler.
Context {R : Type}.

(** The two helpers of the base handler that build the VCL logging
    attributes of a block are not among the sources; they are taken as
    they come.  [h.getVCLLoggingAttributes] reads the logging fields of
    the block with type assertions of its own, so it may panic: it
    returns [None] then. *)
Context {FV : Type}.
Variable getVCLLoggingAttributes :
  DefaultServiceAttributeHandler → Block → option (VCLLoggingAttributes FV).
Variable uintOrDefault : FV → Z.

Definition NewServiceLogentries (sa : ServiceMetadata)
    : DefaultServiceAttributeHandler :=
  {| key := "logentries"; serviceMetadata := sa |}.

(** The body of the loop over [removeLogentries]. *)
Definition Process_remove (d : ResourceData R) (latestVersion : Z)
    (conn : Client R) (slf : Block) : M R Flow :=
  name ← assert (assertString (slf !! "name"));
  let opts := gofastly.DeleteLogentriesInput.mk (d_Id d) latestVersion name in
  log_Printf "[DEBUG] Fastly Logentries removal opts: %#v"
             [ArgRequest (gofastly.ReqDeleteLogentries opts)];;
  err ← conn_DeleteLogentries conn opts;
  match err with
  | Some (HTTPError StatusCode) =>
      if decide (StatusCode ≠ 404) then mret (Return err) else mret Continue
  | Some _ => mret (Return err)
  | None => mret Continue
  end.

(** The request built from a block in the loop over [addLogentries];
    [None] when the helper panics or one of the type assertions
    fails. *)
Definition Process_add_opts (h : DefaultServiceAttributeHandler)
    (d : ResourceData R) (latestVersion : Z) (slf : Block)
    : option gofastly.CreateLogentriesInput.t :=
  vla ← getVCLLoggingAttributes h slf;
  name ← assertString (slf !! "name");
  port ← assertInt (slf !! "port");
  use_tls ← assertBool (slf !! "use_tls");
  token ← assertString (slf !! "token");
  Some {| gofastly.CreateLogentriesInput.ServiceID := d_Id d;
          gofastly.CreateLogentriesInput.ServiceVersion := latestVersion;
          gofastly.CreateLogentriesInput.Name := name;
          gofastly.CreateLogentriesInput.Port := uint port;
          gofastly.CreateLogentriesInput.UseTLS := use_tls;
          gofastly.CreateLogentriesInput.Token := token;
          gofastly.CreateLogentriesInput.Format := format vla;
          gofastly.CreateLogentriesInput.FormatVersion :=
            uintOrDefault (formatVersion vla);
          gofastly.CreateLogentriesInput.Placement := placement vla;
          gofastly.CreateLogentriesInput.ResponseCondition :=
            responseCondition vla |}.

(** The body of the loop over [addLogentries]. *)
Definition Process_add (h : DefaultServiceAttributeHandler)
    (d : ResourceData R) (latestVersion : Z) (conn : Client R) (slf : Block)
    : M R Flow :=
  opts ← assert (Process_add_opts h d latestVersion slf);
  log_Printf "[DEBUG] Create Logentries Opts: %#v"
             [ArgRequest (gofastly.ReqCreateLogentries opts)];;
  r ← conn_CreateLogentries conn opts;
  match response_err r with
  | Some err => mret (Return (Some err))
  | None => mret Continue
  end.

Definition Process (h : DefaultServiceAttributeHandler) (d : ResourceData R)
    (latestVersion : Z) (conn : Client R) : M R (option error) :=
  let '(os, ns) := d_GetChange d (GetKey h) in
  let oss := match os with None => new_Set | Some s => s end in
  let nss := match ns with None => new_Set | Some s => s end in
  let removeLogentries := schema.List (schema.Difference oss nss) in
  let addLogentries := schema.List (schema.Difference nss oss) in
  fl ← forRange removeLogentries (Process_remove d latestVersion conn);
  match fl with
  | Return err => mret err
  | Continue =>
      fl ← forRange addLogentries (Process_add h d latestVersion conn);
      match fl with
      | Return err => mret err
      | Continue => mret None
      end
  end.

Definition Read (h : DefaultServiceAttributeHandler) (d : ResourceData R)
    (s : gofastly.ServiceDetail.t) (conn : Client R) : M R (option error) :=
  let number := gofastly.Version.Number (gofastly.ServiceDetail.ActiveVersion s) in
  log_Printf "[DEBUG] Refreshing Logentries for (%s)" [ArgString (d_Id d)];;
  r ← conn_ListLogentries conn (gofastly.ListLogentriesInput.mk (d_Id d) number);
  match r with
  | Err err =>
      mret (Some (Errorf
                    "[ERR] Error looking up Logentries for (%s), version (%d): %s"
                    [ArgString (d_Id d); ArgInt number; ArgError err]))
  | Ok logentriesList =>
      let lel := flattenLogentries logentriesList in
      err ← ResourceData_Set d (GetKey h) lel;
      match err with
      | Some err => log_Printf "[WARN] Error setting Logentries for (%s): %s"
                               [ArgString (d_Id d); ArgError err]
      | None => mret tt
      end;;
      mret None
  end.

End Handler.
End LogentriesServiceAttributeHandler.

(** ** The Package handler *)

Definition flattenPackage (Package : gofastly.Package.t) (filename : string)
    : list Block :=
  let pa : list Block := [] in
  let p : Block :=
    {[ "source_code_hash" :=
         VString (gofastly.PackageMetadata.HashSum (gofastly.Package.Metadata Package));
       "filename" := VString filename ]} in
  pa ++ [p].

Definition updatePackage {R} (conn : Client R)
    (i : gofastly.UpdatePackageInput.t) : M R (option error) :=
  r ← conn_UpdatePackage conn i;
  mret (response_err r).

Module PackageServiceAttributeHandler.
Section Handler.
Context {R : Type}.

Definition NewServicePackage (sa : ServiceMetadata)
    : DefaultServiceAttributeHandler :=
  {| key := "package"; serviceMetadata := sa |}.

Definition Process (h : DefaultServiceAttributeHandler) (d : ResourceData R)
    (latestVersion : Z) (conn : Client R) : M R (option error) :=
  let '(v, ok) := d_GetOk d (GetKey h) in
  if ok then
    Package ← assert (head v);
    packageFilename ← assert (assertString (Package !! "filename"));
    err ← updatePackage conn
            (gofastly.UpdatePackageInput.mk (d_Id d) latestVersion packageFilename);
    match err with
    | Some err =>
        mret (Some (Errorf "Error modifying package %s: %s"
                           [ArgString (d_Id d); ArgError err]))
    | None => mret None
    end
  else mret None.

Definition Read (h : DefaultServiceAttributeHandler) (d : ResourceData R)
    (s : gofastly.ServiceDetail.t) (conn : Client R) : M R (option error) :=
  let number := gofastly.Version.Number (gofastly.ServiceDetail.ActiveVersion s) in
  log_Printf "[DEBUG] Refreshing package for (%s)" [ArgString (d_Id d)];;
  r ← conn_GetPackage conn (gofastly.GetPackageInput.mk (d_Id d) number);
  match r with
  | Err err =>
      mret (Some (Errorf
                    "[ERR] Error looking up Package for (%s), version (%v): %v"
                    [ArgString (d_Id d); ArgInt number; ArgError err]))
  | Ok Package =>
      filename ← assert (assertString (d_Get d "package.0.filename"));
      let wp := flattenPackage Package filename in
      err ← ResourceData_Set d (GetKey h) wp;
      match err with
      | Some err => log_Printf "[WARN] Error setting Package for (%s): %s"
                               [ArgString (d_Id d); ArgError err]
      | None => mret tt
      end;;
      mret None
  end.

End Handler.
End PackageServiceAttributeHandler.

(** ** The plan of a reconciliation and its runs

    The write path of the ACL and Logentries handlers works through the
    removal list and then the addition list.  An [Item] is one entry of
    that plan; [PlanRun] relates a plan to the remote calls issued for
    it and to the outcome of [Process]. *)

Inductive Item : Type :=
  | Remove (b : Block)
  | Add (b : Block).

Definition plan (remove add : list Block) : list Item :=
  (Remove <$> remove) ++ (Add <$> add).

Definition is_delete (c : Call) : bool :=
  match call_req c with
  | gofastly.ReqDeleteACL _ | gofastly.ReqDeleteLogentries _ => true
  | _ => false
  end.

Definition is_create (c : Call) : bool :=
  match call_req c with
  | gofastly.ReqCreateACL _ | gofastly.ReqCreateLogentries _ => true
  | _ => false
  end.

Definition is_update (c : Call) : bool :=
  match call_req c with
  | gofastly.ReqUpdatePackage _ => true
  | _ => false
  end.

(** The not-found class: an HTTP error with status code 404. *)
Definition notFound (e : error) : bool :=
  match e with
  | HTTPError StatusCode => bool_decide (StatusCode = 404)
  | _ => false
  end.

(** The error of a call when it is one the write path does not absorb:
    any error of a create, any error of a delete but not-found. *)
Definition fatal (c : Call) : option error :=
  match call_err c with
  | Some e => if is_delete c && notFound e then None else Some e
  | None => None
  end.

Inductive PlanRun (issued : Item → Call → Prop)
    : list Item → list Call → Outcome (option error) → Prop :=
  | run_done : PlanRun issued [] [] (Ret None)
  | run_panic x l : PlanRun issued (x :: l) [] Panic
  | run_fatal x l c e :
      issued x c → fatal c = Some e →
      PlanRun issued (x :: l) [c] (Ret (Some e))
  | run_next x l c cs o :
      issued x c → fatal c = None → PlanRun issued l cs o →
      PlanRun issued (x :: l) (c :: cs) o.

(** What one turn of a loop body does to the list of calls. *)
Definition BodyOk {R} (issued : Item → Call → Prop) (mk : Block → Item)
    (body : Block → M R Flow) : Prop :=
  ∀ x w,
    match body x w with
    | (Panic, w') => calls w' = calls w
    | (Ret Continue, w') =>
        ∃ c, calls w' = calls w ++ [c] ∧ issued (mk x) c ∧ fatal c = None
    | (Ret (Return err), w') =>
        ∃ c e, calls w' = calls w ++ [c] ∧ issued (mk x) c
               ∧ fatal c = Some e ∧ err = Some e
    end.

(** The remote calls a computation adds to those already recorded. *)
Definition issuedCalls {R A} (m : M R A) (w : World R) : list Call :=
  drop (length (calls w)) (calls (m w).2).

(** A delete that succeeded or was answered with not-found. *)
Definition delete_done (c : Call) : Prop :=
  call_err c = None ∨ call_err c = Some (HTTPError 404).

(** The old and the new declared collection as [Process] takes them
    from [d.GetChange], a nil value replaced by the zero set, and the
    two lists it works through. *)
Definition oldSet {R} (d : ResourceData R) (k : string) : SchemaSet :=
  match (d_GetChange d k).1 with None => new_Set | Some s => s end.

Definition newSet {R} (d : ResourceData R) (k : string) : SchemaSet :=
  match (d_GetChange d k).2 with None => new_Set | Some s => s end.

Definition removeList {R} (d : ResourceData R) (k : string) : list Block :=
  schema.List (schema.Difference (oldSet d k) (newSet d k)).

Definition addList {R} (d : ResourceData R) (k : string) : list Block :=
  schema.List (schema.Difference (newSet d k) (oldSet d k)).

(** The call a handler issues for an item of its plan. *)
Definition ACL_issued {R} (d : ResourceData R) (latestVersion : Z)
    (it : Item) (c : Call) : Prop :=
  match it with
  | Remove b =>
      ∃ name, b !! "name" = Some (VString name)
        ∧ call_req c = gofastly.ReqDeleteACL
                         (gofastly.DeleteACLInput.mk (d_Id d) latestVersion name)
  | Add b =>
      ∃ name, b !! "name" = Some (VString name)
        ∧ call_req c = gofastly.ReqCreateACL
                         (gofastly.CreateACLInput.mk (d_Id d) latestVersion name)
  end.

Definition Logentries_issued {R FV}
    (getVCLLoggingAttributes :
       DefaultServiceAttributeHandler → Block → option (VCLLoggingAttributes FV))
    (uintOrDefault : FV → Z)
    (h : DefaultServiceAttributeHandler) (d : ResourceData R)
    (latestVersion : Z) (it : Item) (c : Call) : Prop :=
  match it with
  | Remove b =>
      ∃ name, b !! "name" = Some (VString name)
        ∧ call_req c = gofastly.ReqDeleteLogentries
                         (gofastly.DeleteLogentriesInput.mk (d_Id d) latestVersion name)
  | Add b =>
      ∃ opts,
        LogentriesServiceAttributeHandler.Process_add_opts
          getVCLLoggingAttributes uintOrDefault h d latestVersion b = Some opts
        ∧ call_req c = gofastly.ReqCreateLogentries opts
  end.

(** The writes to the state sink and the log lines a computation adds. *)
Definition newStores {R A} (m : M R A) (w : World R) : list Store :=
  drop (length (stores w)) (stores (m w).2).

Definition newLogs {R A} (m : M R A) (w : World R) : list LogLine :=
  drop (length (logs w)) (logs (m w).2).

(** [d] with the old and new value of every set attribute replaced. *)
Definition withChange {R} (d : ResourceData R)
    (change : option SchemaSet * option SchemaSet) : ResourceData R :=
  mkResourceData (d_Id d) (λ _, change) (d_GetOk d) (d_Get d) (d_Set d).

(** The number of the active version, which the read path queries. *)
Definition activeNumber (s : gofastly.ServiceDetail.t) : Z :=
  gofastly.Version.Number (gofastly.ServiceDetail.ActiveVersion s).

(** The log lines of a read whose write to the state sink returned
    [err]. *)
Definition readLogs {R} (debug warn : string) (d : ResourceData R)
    (err : option error) : list LogLine :=
  mkLog debug [ArgString (d_Id d)]
  :: match err with
     | Some e => [mkLog warn [ArgString (d_Id d); ArgError e]]
     | None => []
     end.

(** ** The handlers side by side

    The ACL and Logentries attributes are sets reconciled by
    delete and create; the package attribute is a single block. *)

Inductive SetAttribute : Type :=
  | AttrACL
  | AttrLogentries.

Inductive Attribute : Type :=
  | AttrSet (a : SetAttribute)
  | AttrPackage.

Section Attributes.
Context {R FV : Type}.
Variable getVCLLoggingAttributes :
  DefaultServiceAttributeHandler → Block → option (VCLLoggingAttributes FV).
Variable uintOrDefault : FV → Z.

Definition Process_set (a : SetAttribute)
    : DefaultServiceAttributeHandler → ResourceData R → Z → Client R
      → M R (option error) :=
  match a with
  | AttrACL => ACLServiceAttributeHandler.Process
  | AttrLogentries =>
      LogentriesServiceAttributeHandler.Process
        getVCLLoggingAttributes uintOrDefault
  end.

Definition issued_set (a : SetAttribute) (h : DefaultServiceAttributeHandler)
    (d : ResourceData R) (latestVersion : Z) : Item → Call → Prop :=
  match a with
  | AttrACL => ACL_issued d latestVersion
  | AttrLogentries =>
      Logentries_issued getVCLLoggingAttributes uintOrDefault h d latestVersion
  end.

Definition Process_of (a : Attribute)
    : DefaultServiceAttributeHandler → ResourceData R → Z → Client R
      → M R (option error) :=
  match a with
  | AttrSet s => Process_set s
  | AttrPackage => PackageServiceAttributeHandler.Process
  end.

Definition Read_of (a : Attribute)
    : DefaultServiceAttributeHandler → ResourceData R → gofastly.ServiceDetail.t
      → Client R → M R (option error) :=
  match a with
  | AttrSet AttrACL => ACLServiceAttributeHandler.Read
  | AttrSet AttrLogentries => LogentriesServiceAttributeHandler.Read
  | AttrPackage => PackageServiceAttributeHandler.Read
  end.

End Attributes.

(** ** A small remote service to run the handlers against

    The remote state is the list of the names that exist; a delete of
    an absent name is answered with 404, a create of a present name
    with 409.  The state sink refuses every write. *)

Module Demo.

Definition drop_name (n : string) (r : list string) : list string :=
  filter (λ m, m ≠ n) r.

Definition package : gofastly.Package.t :=
  gofastly.Package.mk (gofastly.PackageMetadata.mk "0a1b2c").

Definition endpoint (n : string) : gofastly.Logentries.t :=
  gofastly.Logentries.mk n 20000 true "tok" EmptyString 1 EmptyString "none".

Definition client : Client (list string) := {|
  client_DeleteACL i r :=
    let n := gofastly.DeleteACLInput.Name i in
    if decide (n ∈ r) then (None, drop_name n r) else (Some (HTTPError 404), r);
  client_CreateACL i r :=
    let n := gofastly.CreateACLInput.Name i in
    if decide (n ∈ r) then (Err (HTTPError 409), r)
    else (Ok (gofastly.ACL.mk "id0" n), n :: r);
  client_ListACLs i r := (Ok (gofastly.ACL.mk EmptyString <$> r), r);
  client_DeleteLogentries i r :=
    let n := gofastly.DeleteLogentriesInput.Name i in
    if decide (n ∈ r) then (None, drop_name n r) else (Some (HTTPError 404), r);
  client_CreateLogentries i r :=
    let n := gofastly.CreateLogentriesInput.Name i in
    if decide (n ∈ r) then (Err (HTTPError 409), r)
    else (Ok (endpoint n), n :: r);
  client_ListLogentries i r := (Ok (endpoint <$> r), r);
  client_GetPackage i r := (Ok package, r);
  client_UpdatePackage i r := (Ok package, r);
|}.

(** A hash that reads the name of a block only. *)
Definition nameHash (b : Block) : string :=
  default EmptyString (assertString (b !! "name")).

Definition acl (n : string) : Block := {[ "name" := VString n ]}.

Definition logentries (n : string) : Block :=
  {[ "name" := VString n; "port" := VInt 20000;
     "use_tls" := VBool true; "token" := VString "tok" ]}.

Definition oldACLs : list Block := [acl "a"; acl "b"; acl "zz"].
Definition newACLs : list Block := [acl "b"; acl "c"; acl "d"].

Definition data : ResourceData (list string) := {|
  d_Id := "svc";
  d_GetChange k :=
    if decide (k = "acl")
    then (Some (schema.NewSet nameHash oldACLs),
          Some (schema.NewSet nameHash newACLs))
    else (None, Some (schema.NewSet nameHash [logentries "x"]));
  d_GetOk k := ([ {[ "filename" := VString "pkg.tar.gz" ]} ], true);
  d_Get k := Some (VString "pkg.tar.gz");
  d_Set k v r := (Some (OtherError "read-only state"), r);
|}.

Definition world : World (list string) := mkWorld ["a"; "c"] [] [] [].

(** A helper that takes the format of the block when it is a string,
    a default when the block has none, and panics on any other
    value. *)
Definition getVCLLoggingAttributes (h : DefaultServiceAttributeHandler)
    (b : Block) : option (VCLLoggingAttributes (option Z)) :=
  match b !! "format" with
  | Some (VString f) => Some (mkVLA (option Z) f (Some 2) "none" EmptyString)
  | Some _ => None
  | None => Some (mkVLA (option Z) "%h %l %u" (Some 2) "none" EmptyString)
  end.

Definition uintOrDefault (o : option Z) : Z := default 0 o.

Definition aclHandler : DefaultServiceAttributeHandler :=
  ACLServiceAttributeHandler.NewServiceACL (mkServiceMetadata "vcl").

Definition logentriesHandler : DefaultServiceAttributeHandler :=
  LogentriesServiceAttributeHandler.NewServiceLogentries (mkServiceMetadata "vcl").

Definition packageHandler : DefaultServiceAttributeHandler :=
  PackageServiceAttributeHandler.NewServicePackage (mkServiceMetadata "wasm").

Definition detail : gofastly.ServiceDetail.t :=
  gofastly.ServiceDetail.mk (gofastly.Version.mk 2).

(** The calls of the run of the ACL handler on the demo service: the
    delete of "zz" is answered with 404, the create of "c" with 409. *)
Definition deleteA : Call :=
  mkCall (gofastly.ReqDeleteACL (gofastly.DeleteACLInput.mk "svc" 3 "a")) None.

Definition deleteZZ : Call :=
  mkCall (gofastly.ReqDeleteACL (gofastly.DeleteACLInput.mk "svc" 3 "zz"))
         (Some (HTTPError 404)).

Definition createC : Call :=
  mkCall (gofastly.ReqCreateACL (gofastly.CreateACLInput.mk "svc" 3 "c"))
         (Some (HTTPError 409)).

Definition runACL : M (list string) (option error) :=
  Process_set getVCLLoggingAttributes uintOrDefault AttrACL aclHandler data 3
              client.

(** The run of the package handler on the demo service and its call. *)
Definition runPackage : M (list string) (option error) :=
  Process_of getVCLLoggingAttributes uintOrDefault AttrPackage packageHandler
             data 3 client.

Definition updateCall : Call :=
  mkCall (gofastly.ReqUpdatePackage
            (gofastly.UpdatePackageInput.mk "svc" 3 "pkg.tar.gz")) None.

(** The reads of the Logentries and package handlers on the demo
    service, with their remote call and their refused write. *)
Definition readLogentries : M (list string) (option error) :=
  Read_of (AttrSet AttrLogentries) logentriesHandler data detail client.

Definition listCall : Call :=
  mkCall (gofastly.ReqListLogentries (gofastly.ListLogentriesInput.mk "svc" 2))
         None.

Definition refusedStore : Store :=
  mkStore "logentries" (flattenLogentries (endpoint <$> ["a"; "c"]))
          (Some (OtherError "read-only state")).

Definition readPackage : M (list string) (option error) :=
  PackageServiceAttributeHandler.Read packageHandler data detail client.

(** An ACL block with its generated id, and data whose old block has
    the id the remote service gave and whose new block has none. *)
Definition idACL (id : string) : Block :=
  {[ "acl_id" := VString id; "name" := VString "a" ]}.

Definition driftData : ResourceData (list string) :=
  withChange data (Some (schema.NewSet nameHash [idACL "id0"]),
                   Some (schema.NewSet nameHash [idACL EmptyString])).

Definition runDrift : M (list string) (option error) :=
  Process_set getVCLLoggingAttributes uintOrDefault AttrACL aclHandler
              driftData 3 client.

(** A Logentries block with a format that is not a string. *)
Definition badFormat : Block :=
  {[ "name" := VString "x"; "port" := VInt 20000; "use_tls" := VBool true;
     "token" := VString "tok"; "format" := VInt 7 ]}.

End Demo.

(** A list of calls made of deletes and creates only. *)
Definition only_deletes_and_creates (tr : list Call) : Prop :=
  Forall (λ c, is_delete c || is_create c = true) tr.

(** ** Schema registration

    The part of the SDK's [schema.Schema] the [Register] methods fill
    in.  Fields left out of a Go literal have their zero value.  The
    element schema of a set or list attribute ([Elem], a
    [schema.Resource]) is kept beside the schema of the attribute. *)

Inductive ValueType : Type :=
  | TypeBool
  | TypeInt
  | TypeString
  | TypeList
  | TypeSet.

Global Instance ValueType_eq_dec : EqDecision ValueType.
Proof. solve_decision. Defined.

Record Schema (VF : Type) := mkSchema {
  s_Type : ValueType;
  s_Optional : bool;
  s_Required : bool;
  s_Computed : bool;
  s_Default : option Value;
  s_Description : string;
  s_ValidateFunc : option VF;
  s_MaxItems : Z;
  s_MinItems : Z;
}.
Arguments mkSchema {VF} _ _ _ _ _ _ _ _ _.
Arguments s_Type {VF} _.
Arguments s_Optional {VF} _.
Arguments s_Required {VF} _.
Arguments s_Computed {VF} _.
Arguments s_Default {VF} _.
Arguments s_Description {VF} _.
Arguments s_ValidateFunc {VF} _.
Arguments s_MaxItems {VF} _.
Arguments s_MinItems {VF} _.

Record BlockSchema (VF : Type) := mkBlockSchema {
  b_Schema : Schema VF;
  b_Elem : gmap string (Schema VF);
}.
Arguments mkBlockSchema {VF} _ _.
Arguments b_Schema {VF} _.
Arguments b_Elem {VF} _.

(** [schema.Resource]: its [Schema] map, which may be nil. *)
Record Resource (VF : Type) := mkResource {
  r_Schema : option (gmap string (BlockSchema VF));
}.
Arguments mkResource {VF} _.
Arguments r_Schema {VF} _.

(** [s.Schema[key] = value]: an assignment to an entry of a nil map
    panics. *)
Definition setSchema {VF} (s : Resource VF) (k : string)
    (value : BlockSchema VF) : Outcome (Resource VF) :=
  match r_Schema s with
  | Some m => Ret (mkResource (Some (<[k := value]> m)))
  | None => Panic
  end.

(** Modelled from the spec: the method [GetServiceMetadata] of the base
    handler, which is not among the sources; it hands out the service
    metadata (the service-kind flag) the handler was built with. *)
Definition GetServiceMetadata (h : DefaultServiceAttributeHandler)
    : ServiceMetadata := serviceMetadata h.

Definition ACL_elem {VF} : gmap string (Schema VF) :=
  {[ "name" :=
       {| s_Type := TypeString; s_Optional := false; s_Required := true;
          s_Computed := false; s_Default := None;
          s_Description := "Unique name to refer to this ACL";
          s_ValidateFunc := None; s_MaxItems := 0; s_MinItems := 0 |};
     "acl_id" :=
       {| s_Type := TypeString; s_Optional := false; s_Required := false;
          s_Computed := true; s_Default := None;
          s_Description := "Generated acl id";
          s_ValidateFunc := None; s_MaxItems := 0; s_MinItems := 0 |} ]}.

Definition ACL_Register {VF} (h : DefaultServiceAttributeHandler)
    (s : Resource VF) : Outcome (Resource VF * option error) :=
  match setSchema s (GetKey h)
          {| b_Schema :=
               {| s_Type := TypeSet; s_Optional := true; s_Required := false;
                  s_Computed := false; s_Default := None;
                  s_Description := EmptyString; s_ValidateFunc := None;
                  s_MaxItems := 0; s_MinItems := 0 |};
             b_Elem := ACL_elem |} with
  | Ret s' => Ret (s', None)
  | Panic => Panic
  end.

Section LogentriesRegister.
Context {VF : Type}.
(** The constant [ServiceTypeVCL] and the two validators are not among
    the sources. *)
Variable ServiceTypeVCL : string.
Variable validateLoggingFormatVersion : VF.
Variable validateLoggingPlacement : VF.

(** The local [blockAttributes] of [Register] as first built. *)
Definition Logentries_required : gmap string (Schema VF) :=
  {[ "name" :=
       {| s_Type := TypeString; s_Optional := false; s_Required := true;
          s_Computed := false; s_Default := None;
          s_Description := "Unique name to refer to this logging setup";
          s_ValidateFunc := None; s_MaxItems := 0; s_MinItems := 0 |};
     "token" :=
       {| s_Type := TypeString; s_Optional := false; s_Required := true;
          s_Computed := false; s_Default := None;
          s_Description :=
            "Use token based authentication (https://logentries.com/doc/input-token/)";
          s_ValidateFunc := None; s_MaxItems := 0; s_MinItems := 0 |};
     "port" :=
       {| s_Type := TypeInt; s_Optional := true; s_Required := false;
          s_Computed := false; s_Default := Some (VInt 20000);
          s_Description := "The port number configured in Logentries";
          s_ValidateFunc := None; s_MaxItems := 0; s_MinItems := 0 |};
     "use_tls" :=
       {| s_Type := TypeBool; s_Optional := true; s_Required := false;
          s_Computed := false; s_Default := Some (VBool true);
          s_Description := "Whether to use TLS for secure logging";
          s_ValidateFunc := None; s_MaxItems := 0; s_MinItems := 0 |} ]}.

(** [blockAttributes] after the branch on the service type. *)
Definition Logentries_blockAttributes (h : DefaultServiceAttributeHandler)
    : gmap string (Schema VF) :=
  let blockAttributes := Logentries_required in
  if decide (serviceType (GetServiceMetadata h) = ServiceTypeVCL) then
    let blockAttributes :=
      <["format" :=
          {| s_Type := TypeString; s_Optional := true; s_Required := false;
             s_Computed := false; s_Default := Some (VString "%h %l %u %t %r %>s");
             s_Description :=
               "Apache-style string or VCL variables to use for log formatting";
             s_ValidateFunc := None; s_MaxItems := 0; s_MinItems := 0 |}]>
        blockAttributes in
    let blockAttributes :=
      <["format_version" :=
          {| s_Type := TypeInt; s_Optional := true; s_Required := false;
             s_Computed := false; s_Default := Some (VInt 1);
             s_Description :=
               "The version of the custom logging format used for the configured endpoint. Can be either 1 or 2. (Default: 1)";
             s_ValidateFunc := Some validateLoggingFormatVersion;
             s_MaxItems := 0; s_MinItems := 0 |}]>
        blockAttributes in
    let blockAttributes :=
      <["response_condition" :=
          {| s_Type := TypeString; s_Optional := true; s_Required := false;
             s_Computed := false; s_Default := Some (VString EmptyString);
             s_Description :=
               "Name of blockAttributes condition to apply this logging.";
             s_ValidateFunc := None; s_MaxItems := 0; s_MinItems := 0 |}]>
        blockAttributes in
    <["placement" :=
        {| s_Type := TypeString; s_Optional := true; s_Required := false;
           s_Computed := false; s_Default := None;
           s_Description :=
             "Where in the generated VCL the logging call should be placed.";
           s_ValidateFunc := Some validateLoggingPlacement;
           s_MaxItems := 0; s_MinItems := 0 |}]>
      blockAttributes
  else blockAttributes.

Definition Logentries_Register (h : DefaultServiceAttributeHandler)
    (s : Resource VF) : Outcome (Resource VF * option error) :=
  let blockAttributes := Logentries_blockAttributes h in
  match setSchema s (GetKey h)
          {| b_Schema :=
               {| s_Type := TypeSet; s_Optional := true; s_Required := false;
                  s_Computed := false; s_Default := None;
                  s_Description := EmptyString; s_ValidateFunc := None;
                  s_MaxItems := 0; s_MinItems := 0 |};
             b_Elem := blockAttributes |} with
  | Ret s' => Ret (s', None)
  | Panic => Panic
  end.

End LogentriesRegister.

Definition Package_elem {VF} : gmap string (Schema VF) :=
  {[ "filename" :=
       {| s_Type := TypeString; s_Optional := false; s_Required := true;
          s_Computed := false; s_Default := None;
          s_Description := EmptyString;
          s_ValidateFunc := None; s_MaxItems := 0; s_MinItems := 0 |};
     "source_code_hash" :=
       {| s_Type := TypeString; s_Optional := true; s_Required := false;
          s_Computed := true; s_Default := None;
          s_Description := EmptyString;
          s_ValidateFunc := None; s_MaxItems := 0; s_MinItems := 0 |} ]}.

Definition Package_Register {VF} (h : DefaultServiceAttributeHandler)
    (s : Resource VF) : Outcome (Resource VF * option error) :=
  match setSchema s (GetKey h)
          {| b_Schema :=
               {| s_Type := TypeList; s_Optional := false; s_Required := true;
                  s_Computed := false; s_Default := None;
                  s_Description := EmptyString; s_ValidateFunc := None;
                  s_MaxItems := 1; s_MinItems := 1 |};
             b_Elem := Package_elem |} with
  | Ret s' => Ret (s', None)
  | Panic => Panic
  end.

(** [Register] of each handler. *)
Definition Register_of {VF} (ServiceTypeVCL : string)
    (validateLoggingFormatVersion validateLoggingPlacement : VF)
    (a : Attribute)
    : DefaultServiceAttributeHandler → Resource VF
      → Outcome (Resource VF * option error) :=
  match a with
  | AttrSet AttrACL => ACL_Register
  | AttrSet AttrLogentries =>
      Logentries_Register ServiceTypeVCL validateLoggingFormatVersion
                          validateLoggingPlacement
  | AttrPackage => Package_Register
  end.

(** The element schema [Register] of a handler stores. *)
Definition registered_elem {VF} (ServiceTypeVCL : string)
    (validateLoggingFormatVersion validateLoggingPlacement : VF)
    (a : Attribute) (h : DefaultServiceAttributeHandler)
    : gmap string (Schema VF) :=
  match a with
  | AttrSet AttrACL => ACL_elem
  | AttrSet AttrLogentries =>
      Logentries_blockAttributes ServiceTypeVCL validateLoggingFormatVersion
                                 validateLoggingPlacement h
  | AttrPackage => Package_elem
  end.

(** The constructor of each handler. *)
Definition New_of (a : Attribute) (sa : ServiceMetadata)
    : DefaultServiceAttributeHandler :=
  match a with
  | AttrSet AttrACL => ACLServiceAttributeHandler.NewServiceACL sa
  | AttrSet AttrLogentries =>
      LogentriesServiceAttributeHandler.NewServiceLogentries sa
  | AttrPackage => PackageServiceAttributeHandler.NewServicePackage sa
  end.

(** ** Blocks that fit an element schema

    A value fits a type of the schema when its dynamic type is the Go
    type the SDK uses for it.  A block fits an element schema when it
    holds a fitting value for every field that is required or has a
    default. *)

Definition hasType (v : Value) (t : ValueType) : bool :=
  match v, t with
  | VString _, TypeString | VInt _, TypeInt | VBool _, TypeBool => true
  | _, _ => false
  end.

Definition demanded {VF} (f : Schema VF) : bool :=
  s_Required f || match s_Default f with Some _ => true | None => false end.

Definition fits {VF} (fields : gmap string (Schema VF)) (b : Block) : bool :=
  forallb (λ kf : string * Schema VF,
             if demanded kf.2 then
               match b !! kf.1 with
               | Some v => hasType v (s_Type kf.2)
               | None => false
               end
             else true)
          (map_to_list fields).

(** ** More to state the properties with *)

(** The service and version a request is scoped to. *)
Definition req_scope (r : gofastly.Request) : string * Z :=
  match r with
  | gofastly.ReqDeleteACL i =>
      (gofastly.DeleteACLInput.ServiceID i, gofastly.DeleteACLInput.ServiceVersion i)
  | gofastly.ReqCreateACL i =>
      (gofastly.CreateACLInput.ServiceID i, gofastly.CreateACLInput.ServiceVersion i)
  | gofastly.ReqListACLs i =>
      (gofastly.ListACLsInput.ServiceID i, gofastly.ListACLsInput.ServiceVersion i)
  | gofastly.ReqDeleteLogentries i =>
      (gofastly.DeleteLogentriesInput.ServiceID i,
       gofastly.DeleteLogentriesInput.ServiceVersion i)
  | gofastly.ReqCreateLogentries i =>
      (gofastly.CreateLogentriesInput.ServiceID i,
       gofastly.CreateLogentriesInput.ServiceVersion i)
  | gofastly.ReqListLogentries i =>
      (gofastly.ListLogentriesInput.ServiceID i,
       gofastly.ListLogentriesInput.ServiceVersion i)
  | gofastly.ReqGetPackage i =>
      (gofastly.GetPackageInput.ServiceID i, gofastly.GetPackageInput.ServiceVersion i)
  | gofastly.ReqUpdatePackage i =>
      (gofastly.UpdatePackageInput.ServiceID i,
       gofastly.UpdatePackageInput.ServiceVersion i)
  end.

(** The request with which the read path of a handler fetches. *)
Definition readRequest {R} (a : Attribute) (d : ResourceData R)
    (s : gofastly.ServiceDetail.t) : gofastly.Request :=
  match a with
  | AttrSet AttrACL =>
      gofastly.ReqListACLs (gofastly.ListACLsInput.mk (d_Id d) (activeNumber s))
  | AttrSet AttrLogentries =>
      gofastly.ReqListLogentries
        (gofastly.ListLogentriesInput.mk (d_Id d) (activeNumber s))
  | AttrPackage =>
      gofastly.ReqGetPackage (gofastly.GetPackageInput.mk (d_Id d) (activeNumber s))
  end.

(** A log line written for a remote call: a debug line that carries
    the request. *)
Definition logs_call (l : LogLine) (c : Call) : Prop :=
  String.prefix "[DEBUG]" (log_format l) = true
  ∧ log_args l = [ArgRequest (call_req c)].

(** An entry of the plan from which the handler can build its request:
    the type assertions on the fields it reads succeed and, for a
    Logentries block to add, the helper [h.getVCLLoggingAttributes]
    returns. *)
Definition item_ready {R FV}
    (getVCLLoggingAttributes :
       DefaultServiceAttributeHandler → Block → option (VCLLoggingAttributes FV))
    (uintOrDefault : FV → Z) (a : SetAttribute)
    (h : DefaultServiceAttributeHandler) (d : ResourceData R)
    (latestVersion : Z) (it : Item) : Prop :=
  match a, it with
  | AttrLogentries, Add b =>
      is_Some (LogentriesServiceAttributeHandler.Process_add_opts
                 getVCLLoggingAttributes uintOrDefault h d latestVersion b)
  | _, Remove b | AttrACL, Add b => is_Some (assertString (b !! "name"))
  end.

(** A recorded call carries the error the client returned for its
    request in some state. *)
Definition answered {R} (conn : Client R) (c : Call) : Prop :=
  ∃ r : R,
    call_err c
    = match call_req c with
      | gofastly.ReqDeleteACL i => (client_DeleteACL conn i r).1
      | gofastly.ReqCreateACL i => response_err (client_CreateACL conn i r).1
      | gofastly.ReqListACLs i => response_err (client_ListACLs conn i r).1
      | gofastly.ReqDeleteLogentries i => (client_DeleteLogentries conn i r).1
      | gofastly.ReqCreateLogentries i =>
          response_err (client_CreateLogentries conn i r).1
      | gofastly.ReqListLogentries i =>
          response_err (client_ListLogentries conn i r).1
      | gofastly.ReqGetPackage i => response_err (client_GetPackage conn i r).1
      | gofastly.ReqUpdatePackage i =>
          response_err (client_UpdatePackage conn i r).1
      end.

(** From [w] to [w'] calls were issued, each logged by one debug line
    and answered by the client, nothing was written to the state sink,
    and the outside state changed only if a call was issued. *)
Definition traced {R} (conn : Client R) (w w' : World R) : Prop :=
  ∃ ls cs,
    logs w' = logs w ++ ls
    ∧ calls w' = calls w ++ cs
    ∧ stores w' = stores w
    ∧ Forall2 logs_call ls cs
    ∧ Forall (answered conn) cs
    ∧ (cs = [] → remote w' = remote w).

(** A client that refuses nothing the write path of a set attribute
    asks for: a delete is answered with nil or not-found, a create with
    nil. *)
Definition delete_ok (err : option error) : Prop :=
  match err with
  | None => True
  | Some e => notFound e = true
  end.

Definition accepts_all {R} (conn : Client R) : Prop :=
  (∀ i r, delete_ok (client_DeleteACL conn i r).1)
  ∧ (∀ i r, delete_ok (client_DeleteLogentries conn i r).1)
  ∧ (∀ i r, response_err (client_CreateACL conn i r).1 = None)
  ∧ (∀ i r, response_err (client_CreateLogentries conn i r).1 = None).

(** ** A remote service that is down, and a state sink that accepts *)

Module Outage.

Definition unavailable : error := HTTPError 503.

Definition client : Client (list string) := {|
  client_DeleteACL i r := (Some unavailable, r);
  client_CreateACL i r := (Err unavailable, r);
  client_ListACLs i r := (Err unavailable, r);
  client_DeleteLogentries i r := (Some unavailable, r);
  client_CreateLogentries i r := (Err unavailable, r);
  client_ListLogentries i r := (Err unavailable, r);
  client_GetPackage i r := (Err unavailable, r);
  client_UpdatePackage i r := (Err unavailable, r);
|}.

Definition readACLs : M (list string) (option error) :=
  Read_of (AttrSet AttrACL) Demo.aclHandler Demo.data Demo.detail client.

Definition listCall : Call :=
  mkCall (gofastly.ReqListACLs (gofastly.ListACLsInput.mk "svc" 2))
         (Some unavailable).

Definition updatePackage : M (list string) (option error) :=
  PackageServiceAttributeHandler.Process Demo.packageHandler Demo.data 3 client.

Definition updateCall : Call :=
  mkCall (gofastly.ReqUpdatePackage
            (gofastly.UpdatePackageInput.mk "svc" 3 "pkg.tar.gz"))
         (Some unavailable).

End Outage.

Module Accepting.

(** The demo data with a state sink that takes every write. *)
Definition data : ResourceData (list string) :=
  mkResourceData (d_Id Demo.data) (d_GetChange Demo.data) (d_GetOk Demo.data)
                 (d_Get Demo.data) (λ k v r, (None, r)).

Definition readACLs : M (list string) (option error) :=
  Read_of (AttrSet AttrACL) Demo.aclHandler data Demo.detail Demo.client.

Definition acceptedStore : Store :=
  mkStore "acl" (flattenACLs (gofastly.ACL.mk EmptyString <$> ["a"; "c"])) None.

(** A Logentries block of a VCL service with every defaulted field. *)
Definition vclLogentries : Block :=
  {[ "name" := VString "x"; "port" := VInt 20000; "use_tls" := VBool true;
     "token" := VString "tok"; "format" := VString "%h %l %u %t %r %>s";
     "format_version" := VInt 1;
     "response_condition" := VString EmptyString ]}.

(** A resource with an empty schema map, and the validators of the
    logging fields as mere marks. *)
Definition resource : Resource string := mkResource (Some ∅).

(** A remote service that takes every create and knows no name to
    delete. *)
Definition client : Client (list string) := {|
  client_DeleteACL i r := (Some (HTTPError 404), r);
  client_CreateACL i r :=
    (Ok (gofastly.ACL.mk "id0" (gofastly.CreateACLInput.Name i)),
     gofastly.CreateACLInput.Name i :: r);
  client_ListACLs i r := (Ok (gofastly.ACL.mk EmptyString <$> r), r);
  client_DeleteLogentries i r := (Some (HTTPError 404), r);
  client_CreateLogentries i r :=
    (Ok (Demo.endpoint (gofastly.CreateLogentriesInput.Name i)),
     gofastly.CreateLogentriesInput.Name i :: r);
  client_ListLogentries i r := (Ok (Demo.endpoint <$> r), r);
  client_GetPackage i r := (Ok Demo.package, r);
  client_UpdatePackage i r := (Ok Demo.package, r);
|}.

Definition runACL : M (list string) (option error) :=
  Process_set Demo.getVCLLoggingAttributes Demo.uintOrDefault AttrACL
              Demo.aclHandler Demo.data 3 client.

End Accepting.

(** ** Facts about [schema.Set] *)

Section SetFacts.

Lemma elem_of_List (s : SchemaSet) (x : Block) :
  x ∈ schema.List s ↔ ∃ k, s !! k = Some x.
Proof.
  unfold schema.List. rewrite list_elem_of_fmap. split.
  - intros [[k y] [-> Hin]]. exists k.
    rewrite merge_sort_Permutation in Hin.
    by apply elem_of_map_to_list in Hin.
  - intros [k Hk]. exists (k, x). split; [done|].
    rewrite merge_sort_Permutation. by apply elem_of_map_to_list.
Qed.

Lemma List_empty : schema.List ∅ = [].
Proof. unfold schema.List. by rewrite map_to_list_empty. Qed.

Lemma lookup_Difference (s o : SchemaSet) k :
  schema.Difference s o !! k
  = match o !! k with None => s !! k | Some _ => None end.
Proof.
  unfold schema.Difference. apply option_eq. intros x.
  rewrite map_lookup_filter_Some. simpl.
  destruct (o !! k); naive_solver.
Qed.

Lemma Difference_diag (s : SchemaSet) : schema.Difference s s = ∅.
Proof.
  apply map_eq. intros k. rewrite lookup_Difference, lookup_empty.
  by destruct (s !! k).
Qed.

Lemma Difference_empty_l (o : SchemaSet) : schema.Difference ∅ o = ∅.
Proof.
  apply map_eq. intros k. rewrite lookup_Difference, lookup_empty.
  by destruct (o !! k).
Qed.

Lemma Difference_empty_r (s : SchemaSet) : schema.Difference s ∅ = s.
Proof.
  apply map_eq. intros k. by rewrite lookup_Difference, lookup_empty.
Qed.

Variable hash : Block → string.

Lemma lookup_Add s item k :
  schema.Add hash s item !! k
  = match s !! k with
    | Some y => Some y
    | None => if decide (hash item = k) then Some item else None
    end.
Proof.
  unfold schema.Add.
  destruct (s !! hash item) as [z|] eqn:Hz.
  - destruct (s !! k) eqn:Hk; [done|].
    case_decide; [congruence|done].
  - rewrite lookup_insert. case_decide; subst.
    + by rewrite Hz.
    + by destruct (s !! k).
Qed.

Lemma lookup_foldl_Add items : ∀ s k x,
  foldl (schema.Add hash) s items !! k = Some x →
  s !! k = Some x ∨ (x ∈ items ∧ hash x = k).
Proof.
  induction items as [|a items IH]; intros s k x; simpl.
  - auto.
  - intros H. apply IH in H as [H|[H1 H2]].
    + rewrite lookup_Add in H. destruct (s !! k); [by left|].
      case_decide; [|done]. right. split; [|congruence].
      injection H as <-. apply list_elem_of_here.
    + right. split; [by apply list_elem_of_further|done].
Qed.

Lemma foldl_Add_mono items : ∀ s k,
  is_Some (s !! k) → is_Some (foldl (schema.Add hash) s items !! k).
Proof.
  induction items as [|a items IH]; intros s k Hs; simpl; [done|].
  apply IH. rewrite lookup_Add. destruct Hs as [y ->]. eauto.
Qed.

Lemma foldl_Add_stored items : ∀ s x,
  x ∈ items → is_Some (foldl (schema.Add hash) s items !! hash x).
Proof.
  induction items as [|a items IH]; intros s x Hx; simpl.
  - by apply elem_of_nil in Hx.
  - apply elem_of_cons in Hx as [->|Hx]; [|by apply IH].
    apply foldl_Add_mono. rewrite lookup_Add.
    destruct (s !! hash a); [eauto|]. rewrite decide_True; eauto.
Qed.

Lemma lookup_NewSet items k x :
  schema.NewSet hash items !! k = Some x → x ∈ items ∧ hash x = k.
Proof.
  intros H. apply lookup_foldl_Add in H as [H|H]; [|done].
  by rewrite lookup_empty in H.
Qed.

Lemma NewSet_stored items x :
  x ∈ items → is_Some (schema.NewSet hash items !! hash x).
Proof. apply foldl_Add_stored. Qed.

(** The items listed by a difference, in terms of codes. *)
Lemma elem_of_List_Difference_codes (la lb : list Block) x :
  x ∈ schema.List (schema.Difference (schema.NewSet hash la)
                                     (schema.NewSet hash lb))
  ↔ schema.NewSet hash la !! hash x = Some x
    ∧ ∀ y, y ∈ lb → hash y ≠ hash x.
Proof.
  rewrite elem_of_List. split.
  - intros [k Hk]. rewrite lookup_Difference in Hk.
    destruct (schema.NewSet hash lb !! k) eqn:Hb; [done|].
    pose proof (lookup_NewSet _ _ _ Hk) as [_ <-]. split; [done|].
    intros y Hy Heq. apply NewSet_stored in Hy.
    rewrite Heq, Hb in Hy. by destruct Hy.
  - intros [Ha Hb]. exists (hash x). rewrite lookup_Difference.
    destruct (schema.NewSet hash lb !! hash x) eqn:Hl; [|done].
    apply lookup_NewSet in Hl as [Hl1 Hl2]. by apply Hb in Hl1.
Qed.

(** The items listed by a difference, in terms of the two sets. *)
Lemma elem_of_List_Difference_by_code (la lb : list Block) x :
  x ∈ schema.List (schema.Difference (schema.NewSet hash la)
                                     (schema.NewSet hash lb))
  ↔ x ∈ schema.List (schema.NewSet hash la)
    ∧ ∀ y, y ∈ schema.List (schema.NewSet hash lb) → hash y ≠ hash x.
Proof.
  rewrite !elem_of_List. split.
  - intros [k Hk]. rewrite lookup_Difference in Hk.
    destruct (schema.NewSet hash lb !! k) eqn:Hb; [done|].
    pose proof (lookup_NewSet _ _ _ Hk) as [_ <-]. split; [eauto|].
    intros y [k' Hy]%elem_of_List Heq.
    pose proof (lookup_NewSet _ _ _ Hy) as [_ <-].
    rewrite Heq, Hb in Hy. discriminate Hy.
  - intros [[k Hk] Hnone]. exists k. rewrite lookup_Difference.
    destruct (schema.NewSet hash lb !! k) as [z|] eqn:Hb; [|done].
    exfalso. apply (Hnone z).
    + apply elem_of_List. eauto.
    + apply lookup_NewSet in Hb as [_ ->].
      by apply lookup_NewSet in Hk as [_ ->].
Qed.

(** When the hash separates the blocks at hand, the difference of the
    sets is the difference of the collections under equality of
    blocks. *)
Lemma elem_of_List_Difference (la lb : list Block) x :
  (∀ y z, y ∈ la ++ lb → z ∈ la ++ lb → hash y = hash z → y = z) →
  x ∈ schema.List (schema.Difference (schema.NewSet hash la)
                                     (schema.NewSet hash lb))
  ↔ x ∈ la ∧ x ∉ lb.
Proof.
  intros Hinj. rewrite elem_of_List_Difference_codes. split.
  - intros [Ha Hb]. apply lookup_NewSet in Ha as [Ha _].
    split; [done|]. intros Hx. by apply (Hb x).
  - intros [Ha Hb]. split.
    + destruct (NewSet_stored la x Ha) as [y Hy]. rewrite Hy. f_equal.
      pose proof (lookup_NewSet _ _ _ Hy) as [Hy1 Hy2].
      apply Hinj; [set_solver..|done].
    + intros y Hy Heq. apply Hb.
      assert (y = x) as <-; [|done].
      apply Hinj; [set_solver..|done].
Qed.

Lemma NoDup_List (s : SchemaSet) :
  (∀ k1 k2 x, s !! k1 = Some x → s !! k2 = Some x → k1 = k2) →
  NoDup (schema.List s).
Proof.
  intros Hs. unfold schema.List.
  rewrite merge_sort_Permutation.
  apply NoDup_fmap_2_strong; [|apply NoDup_map_to_list].
  intros [k1 x1] [k2 x2] H1 H2 Heq; simpl in *; subst.
  apply elem_of_map_to_list in H1, H2. f_equal. eauto.
Qed.

End SetFacts.

(** ** Runs of the loops *)

Ltac unfold_M :=
  unfold updatePackage, conn_DeleteACL, conn_CreateACL, conn_ListACLs,
    conn_DeleteLogentries, conn_CreateLogentries, conn_ListLogentries,
    conn_GetPackage, conn_UpdatePackage in *;
  unfold mbind, M_bind, bind, mret, M_ret, ret, assert, log_Printf,
    ResourceData_Set, remoteCall in *.

Section Loops.
Context {R : Type}.
Variable issued : Item → Call → Prop.

Lemma forRange_run mk (body : Block → M R Flow) :
  BodyOk issued mk body →
  ∀ l w rest,
    ∃ cs, calls (forRange l body w).2 = calls w ++ cs ∧
      match (forRange l body w).1 with
      | Ret Continue =>
          ∀ cs2 o2, PlanRun issued rest cs2 o2 →
                    PlanRun issued ((mk <$> l) ++ rest) (cs ++ cs2) o2
      | Ret (Return err) => PlanRun issued ((mk <$> l) ++ rest) cs (Ret err)
      | Panic => PlanRun issued ((mk <$> l) ++ rest) cs Panic
      end.
Proof.
  intros Hbody l. induction l as [|x l IH]; intros w rest.
  - exists []. simpl. split; [by rewrite app_nil_r|]. auto.
  - simpl. unfold mbind, M_bind, bind. specialize (Hbody x w).
    destruct (body x w) as [[[|err]|] w1]; simpl.
    + destruct Hbody as (c & Hc & Hi & Hf).
      destruct (IH w1 rest) as (cs & Hcs & Hrun).
      exists (c :: cs). split.
      { rewrite Hcs, Hc, <- app_assoc. done. }
      destruct (forRange l body w1) as [[[|err]|] w2]; simpl in *.
      * intros cs2 o2 H2. apply run_next; auto.
      * by apply run_next.
      * by apply run_next.
    + destruct Hbody as (c & e & Hc & Hi & Hf & ->).
      exists [c]. split; [done|]. by apply run_fatal.
    + exists []. split; [by rewrite app_nil_r|]. apply run_panic.
Qed.

(** Two loops in a row, as in [Process]. *)
Lemma two_loops_run (rm ad : list Block) (body1 body2 : Block → M R Flow) w :
  BodyOk issued Remove body1 → BodyOk issued Add body2 →
  let run : M R (option error) :=
    fl ← forRange rm body1;
    match fl with
    | Return err => mret err
    | Continue =>
        fl ← forRange ad body2;
        match fl with
        | Return err => mret err
        | Continue => mret None
        end
    end in
  ∃ tr, calls (run w).2 = calls w ++ tr ∧ PlanRun issued (plan rm ad) tr (run w).1.
Proof.
  intros H1 H2 run. subst run. unfold mbind, M_bind, bind, plan.
  destruct (forRange_run Remove body1 H1 rm w (Add <$> ad)) as (ds & Hds & Hrun).
  destruct (forRange rm body1 w) as [[[|err]|] w1]; simpl in *.
  - destruct (forRange_run Add body2 H2 ad w1 []) as (cs & Hcs & Hrun2).
    rewrite app_nil_r in Hrun2.
    destruct (forRange ad body2 w1) as [[[|err]|] w2]; simpl in *.
    + exists (ds ++ cs ++ []). split.
      { rewrite Hcs, Hds, app_nil_r, <- app_assoc. done. }
      apply Hrun. apply Hrun2. apply run_done.
    + exists (ds ++ cs). split.
      { rewrite Hcs, Hds, <- app_assoc. done. }
      by apply Hrun.
    + exists (ds ++ cs). split.
      { rewrite Hcs, Hds, <- app_assoc. done. }
      by apply Hrun.
  - exists ds. done.
  - exists ds. done.
Qed.

End Loops.

Section ACLRuns.
Context {R : Type}.
Implicit Types (d : ResourceData R) (conn : Client R) (w : World R).

Lemma ACL_remove_ok d v conn :
  BodyOk (ACL_issued d v) Remove
         (ACLServiceAttributeHandler.Process_remove d v conn).
Proof.
  intros x w. unfold ACLServiceAttributeHandler.Process_remove. unfold_M.
  destruct (x !! "name") as [[name| | |]|] eqn:Hn; simpl; try done.
  destruct (client_DeleteACL conn _ (remote w)) as [[e|] r] eqn:Hc; simpl.
  - destruct e as [sc| |]; [case_decide|..]; simpl.
    + eexists _, _. split; [done|]. split; [by exists name|].
      split; [|done]. unfold fatal. simpl. by rewrite bool_decide_false.
    + eexists. split; [done|]. split; [by exists name|].
      unfold fatal. simpl. rewrite bool_decide_true; [done|].
      destruct (decide (sc = 404)); [done|]. tauto.
    + eexists _, _. split; [done|]. split; [by exists name|]. done.
    + eexists _, _. split; [done|]. split; [by exists name|]. done.
  - eexists. split; [done|]. split; [by exists name|]. done.
Qed.

Lemma ACL_add_ok d v conn :
  BodyOk (ACL_issued d v) Add (ACLServiceAttributeHandler.Process_add d v conn).
Proof.
  intros x w. unfold ACLServiceAttributeHandler.Process_add. unfold_M.
  destruct (x !! "name") as [[name| | |]|] eqn:Hn; simpl; try done.
  destruct (client_CreateACL conn _ (remote w)) as [[a|e] r] eqn:Hc; simpl.
  - eexists. split; [done|]. split; [by exists name|]. done.
  - eexists _, _. split; [done|]. split; [by exists name|]. done.
Qed.

Lemma ACL_Process_unfold h d v conn :
  ACLServiceAttributeHandler.Process h d v conn
  = (fl ← forRange (removeList d (GetKey h))
                   (ACLServiceAttributeHandler.Process_remove d v conn);
     match fl with
     | Return err => mret err
     | Continue =>
         fl ← forRange (addList d (GetKey h))
                       (ACLServiceAttributeHandler.Process_add d v conn);
         match fl with
         | Return err => mret err
         | Continue => mret None
         end
     end).
Proof.
  unfold ACLServiceAttributeHandler.Process, removeList, addList, oldSet, newSet.
  by destruct (d_GetChange d (GetKey h)) as [o n].
Qed.

Lemma ACL_Process_run h d v conn w :
  ∃ tr,
    calls (ACLServiceAttributeHandler.Process h d v conn w).2 = calls w ++ tr
    ∧ PlanRun (ACL_issued d v)
              (plan (removeList d (GetKey h)) (addList d (GetKey h))) tr
              (ACLServiceAttributeHandler.Process h d v conn w).1.
Proof.
  rewrite ACL_Process_unfold.
  apply two_loops_run; [apply ACL_remove_ok|apply ACL_add_ok].
Qed.

End ACLRuns.

Section LogentriesRuns.
Context {R FV : Type}.
Variable getVCLLoggingAttributes :
  DefaultServiceAttributeHandler → Block → option (VCLLoggingAttributes FV).
Variable uintOrDefault : FV → Z.
Implicit Types (d : ResourceData R) (conn : Client R) (w : World R).

Local Abbreviation LE_issued := (Logentries_issued getVCLLoggingAttributes uintOrDefault).
Local Abbreviation LE_Process :=
  (LogentriesServiceAttributeHandler.Process getVCLLoggingAttributes uintOrDefault).

Lemma Logentries_remove_ok h d v conn :
  BodyOk (LE_issued h d v) Remove
         (LogentriesServiceAttributeHandler.Process_remove d v conn).
Proof.
  intros x w. unfold LogentriesServiceAttributeHandler.Process_remove. unfold_M.
  destruct (x !! "name") as [[name| | |]|] eqn:Hn; simpl; try done.
  destruct (client_DeleteLogentries conn _ (remote w)) as [[e|] r] eqn:Hc; simpl.
  - destruct e as [sc| |]; [case_decide|..]; simpl.
    + eexists _, _. split; [done|]. split; [by exists name|].
      split; [|done]. unfold fatal. simpl. by rewrite bool_decide_false.
    + eexists. split; [done|]. split; [by exists name|].
      unfold fatal. simpl. rewrite bool_decide_true; [done|].
      destruct (decide (sc = 404)); [done|]. tauto.
    + eexists _, _. split; [done|]. split; [by exists name|]. done.
    + eexists _, _. split; [done|]. split; [by exists name|]. done.
  - eexists. split; [done|]. split; [by exists name|]. done.
Qed.

Lemma Logentries_add_ok h d v conn :
  BodyOk (LE_issued h d v) Add
         (LogentriesServiceAttributeHandler.Process_add
            getVCLLoggingAttributes uintOrDefault h d v conn).
Proof.
  intros x w. unfold LogentriesServiceAttributeHandler.Process_add. unfold_M.
  destruct (LogentriesServiceAttributeHandler.Process_add_opts _ _ h d v x)
    as [opts|] eqn:Hopts; simpl; [|done].
  destruct (client_CreateLogentries conn _ (remote w)) as [[a|e] r] eqn:Hc; simpl.
  - eexists. split; [done|]. split; [by exists opts|]. done.
  - eexists _, _. split; [done|]. split; [by exists opts|]. done.
Qed.

Lemma Logentries_Process_unfold h d v conn :
  LE_Process h d v conn
  = (fl ← forRange (removeList d (GetKey h))
                   (LogentriesServiceAttributeHandler.Process_remove d v conn);
     match fl with
     | Return err => mret err
     | Continue =>
         fl ← forRange (addList d (GetKey h))
                       (LogentriesServiceAttributeHandler.Process_add
                          getVCLLoggingAttributes uintOrDefault h d v conn);
         match fl with
         | Return err => mret err
         | Continue => mret None
         end
     end).
Proof.
  unfold LogentriesServiceAttributeHandler.Process, removeList, addList,
    oldSet, newSet.
  by destruct (d_GetChange d (GetKey h)) as [o n].
Qed.

Lemma Logentries_Process_run h d v conn w :
  ∃ tr,
    calls (LE_Process h d v conn w).2 = calls w ++ tr
    ∧ PlanRun (LE_issued h d v)
              (plan (removeList d (GetKey h)) (addList d (GetKey h))) tr
              (LE_Process h d v conn w).1.
Proof.
  rewrite Logentries_Process_unfold.
  apply two_loops_run; [apply Logentries_remove_ok|apply Logentries_add_ok].
Qed.

End LogentriesRuns.

(** ** What a run of a plan tells *)

Section PlanRunFacts.
Variable issued : Item → Call → Prop.

(** The calls follow the plan, one call per item, in order. *)
Lemma PlanRun_follows l tr out :
  PlanRun issued l tr out → Forall2 issued (take (length tr) l) tr.
Proof.
  induction 1; simpl; try constructor; auto.
Qed.

Lemma PlanRun_length l tr out :
  PlanRun issued l tr out → (length tr ≤ length l)%nat.
Proof. induction 1; simpl; lia. Qed.

(** A call with a fatal error is the last one, and its error is the
    result. *)
Lemma PlanRun_fatal_last l tr out :
  PlanRun issued l tr out →
  ∀ tr1 c tr2 e, tr = tr1 ++ c :: tr2 → fatal c = Some e →
                 tr2 = [] ∧ out = Ret (Some e).
Proof.
  induction 1 as [|x l|x l c0 e0 Hi Hf|x l c0 cs o Hi Hf Hrun IH];
    intros tr1 c tr2 e Heq Hfatal.
  - by destruct tr1.
  - by destruct tr1.
  - destruct tr1 as [|c1 tr1]; simpl in Heq.
    + injection Heq as <- <-. split; [done|]. congruence.
    + injection Heq as _ Heq. by destruct tr1.
  - destruct tr1 as [|c1 tr1]; simpl in Heq.
    + injection Heq as <- <-. congruence.
    + injection Heq as _ Heq. eauto.
Qed.

(** A returned error is the fatal error of the last call. *)
Lemma PlanRun_error l tr e :
  PlanRun issued l tr (Ret (Some e)) →
  ∃ tr' c, tr = tr' ++ [c] ∧ fatal c = Some e
           ∧ Forall (λ c', fatal c' = None) tr'.
Proof.
  remember (Ret (Some e)) as out eqn:Hout.
  induction 1 as [|x l|x l c0 e0 Hi Hf|x l c0 cs o Hi Hf Hrun IH];
    try discriminate.
  - injection Hout as ->. exists [], c0. auto.
  - destruct (IH Hout) as (tr' & c & -> & Hc & Hall).
    exists (c0 :: tr'), c. auto.
Qed.

(** A run that returns nil has worked through the whole plan. *)
Lemma PlanRun_success l tr :
  PlanRun issued l tr (Ret None) →
  Forall2 issued l tr ∧ Forall (λ c, fatal c = None) tr.
Proof.
  remember (Ret None) as out eqn:Hout.
  induction 1 as [|x l|x l c0 e0 Hi Hf|x l c0 cs o Hi Hf Hrun IH];
    try discriminate.
  - auto.
  - destruct (IH Hout). auto.
Qed.

(** After a call that is not fatal the next item is taken up. *)
Lemma PlanRun_continue l tr out :
  PlanRun issued l tr out →
  ∀ i c, tr !! i = Some c → fatal c = None →
    match l !! S i with
    | Some next =>
        (∃ c', tr !! S i = Some c' ∧ issued next c')
        ∨ (out = Panic ∧ length tr = S i)
    | None => out = Ret None ∧ length tr = S i
    end.
Proof.
  induction 1 as [|x l|x l c0 e0 Hi Hf|x l c0 cs o Hi Hf Hrun IH];
    intros i c Hlook Hnf; try done.
  - destruct i; simpl in Hlook; [|done]. congruence.
  - destruct i as [|i]; simpl in *.
    + inversion Hrun; subst; simpl; eauto.
    + specialize (IH i c Hlook Hnf).
      destruct (l !! S i); [destruct IH as [?|[? ?]]|destruct IH]; auto.
Qed.

(** The two phases of a plan made of removals and additions. *)
Lemma PlanRun_phases ad : ∀ rm tr out,
  PlanRun issued (plan rm ad) tr out →
  ∃ ds cs, tr = ds ++ cs
    ∧ Forall2 (λ b c, issued (Remove b) c) (take (length ds) rm) ds
    ∧ Forall2 (λ b c, issued (Add b) c) (take (length cs) ad) cs
    ∧ (cs ≠ [] → length ds = length rm ∧ Forall (λ c, fatal c = None) ds).
Proof.
  induction rm as [|b rm IH]; intros tr out Hrun.
  - exists [], tr. split; [done|]. split; [simpl; constructor|].
    split; [|done].
    apply PlanRun_follows in Hrun. unfold plan in Hrun. simpl in Hrun.
    rewrite <- fmap_take, Forall2_fmap_l in Hrun.
    eapply Forall2_impl; [exact Hrun|]. auto.
  - unfold plan in Hrun. simpl in Hrun.
    inversion Hrun as [|x l|x l c e Hi Hf|x l c cs o Hi Hf Hrun']; subst.
    + exists [], []. repeat split; try constructor; done.
    + exists [c], []. repeat split; try done.
      simpl. constructor; [done|]. rewrite take_0. constructor.
    + destruct (IH cs out) as (ds & cs' & -> & Hds & Hcs & Hfull); [done|].
      exists (c :: ds), cs'. split; [done|]. split; [by constructor|].
      split; [done|]. intros Hne. destruct (Hfull Hne) as [Hlen Hall].
      simpl. split; [by rewrite Hlen|by constructor].
Qed.

End PlanRunFacts.

Lemma issuedCalls_app {R A} (m : M R A) (w : World R) tr :
  calls (m w).2 = calls w ++ tr → issuedCalls m w = tr.
Proof. unfold issuedCalls. intros ->. by rewrite drop_app_length. Qed.

(** ** The normalizers *)

Lemma isEmptyString_spec v : isEmptyString v = true ↔ v = VString EmptyString.
Proof.
  destruct v as [s| | |]; simpl; try (split; [done|discriminate]).
  rewrite bool_decide_eq_true. split; [by intros ->|by intros [= ->]].
Qed.

Lemma lookup_pruneEmpty (m : Block) k :
  pruneEmpty m !! k
  = match m !! k with
    | Some v => if isEmptyString v then None else Some v
    | None => None
    end.
Proof.
  unfold pruneEmpty.
  cut (∀ m0 : Block,
         map_fold (λ k v acc, if isEmptyString v then delete k acc else acc) m0 m !! k
         = match m !! k with
           | Some v => if isEmptyString v then None else m0 !! k
           | None => m0 !! k
           end).
  { intros H. rewrite H. by destruct (m !! k) as [v|]. }
  intros m0.
  apply (map_fold_weak_ind
           (λ (r : Block) (m' : Block),
              r !! k = match m' !! k with
                       | Some v => if isEmptyString v then None else m0 !! k
                       | None => m0 !! k
                       end)).
  - by rewrite lookup_empty.
  - intros i x m' r Hi IH. rewrite lookup_insert. case_decide as Hik.
    + subst i. rewrite Hi in IH. destruct (isEmptyString x).
      * apply lookup_delete_eq.
      * done.
    + destruct (isEmptyString x); [|done].
      by rewrite lookup_delete_ne.
Qed.

Lemma pruneEmpty_filter (m : Block) :
  pruneEmpty m = filter (λ kv, kv.2 ≠ VString EmptyString) m.
Proof.
  apply map_eq. intros k. rewrite lookup_pruneEmpty. apply eq_sym.
  destruct (m !! k) as [v|] eqn:Hk.
  - destruct (isEmptyString v) eqn:Hv.
    + apply isEmptyString_spec in Hv. subst v.
      apply map_lookup_filter_None. right. intros x Hx. simpl.
      rewrite Hk in Hx. injection Hx as <-. tauto.
    + apply map_lookup_filter_Some. split; [done|]. simpl.
      intros ->. by simpl in Hv.
  - apply map_lookup_filter_None. by left.
Qed.

Lemma foldl_snoc_fmap {A B} (f : A → B) (l : list A) : ∀ acc,
  foldl (λ acc x, acc ++ [f x]) acc l = acc ++ (f <$> l).
Proof.
  induction l as [|x l IH]; intros acc; simpl.
  - by rewrite app_nil_r.
  - rewrite IH, <- app_assoc. done.
Qed.

Lemma flattenACLs_fmap aclList :
  flattenACLs aclList = (λ acl, pruneEmpty (ACL_fields acl)) <$> aclList.
Proof. unfold flattenACLs. by rewrite foldl_snoc_fmap. Qed.

Lemma flattenLogentries_fmap l :
  flattenLogentries l = (λ le, pruneEmpty (Logentries_fields le)) <$> l.
Proof. unfold flattenLogentries. by rewrite foldl_snoc_fmap. Qed.

(** ** The write path of the set attributes *)

Section WritePath.
Context {R FV : Type}.
Variable getVCLLoggingAttributes :
  DefaultServiceAttributeHandler → Block → option (VCLLoggingAttributes FV).
Variable uintOrDefault : FV → Z.
Implicit Types (a : SetAttribute) (h : DefaultServiceAttributeHandler)
  (d : ResourceData R) (conn : Client R) (w : World R).

Local Abbreviation Process := (Process_set getVCLLoggingAttributes uintOrDefault).
Local Abbreviation issued := (issued_set getVCLLoggingAttributes uintOrDefault).

Lemma Process_set_run a h d v conn w :
  ∃ tr,
    calls (Process a h d v conn w).2 = calls w ++ tr
    ∧ PlanRun (issued a h d v)
              (plan (removeList d (GetKey h)) (addList d (GetKey h))) tr
              (Process a h d v conn w).1.
Proof.
  destruct a; simpl.
  - apply ACL_Process_run.
  - apply Logentries_Process_run.
Qed.

Lemma Process_set_plan a h d v conn w :
  calls (Process a h d v conn w).2
  = calls w ++ issuedCalls (Process a h d v conn) w
  ∧ PlanRun (issued a h d v)
            (plan (removeList d (GetKey h)) (addList d (GetKey h)))
            (issuedCalls (Process a h d v conn) w)
            (Process a h d v conn w).1.
Proof.
  destruct (Process_set_run a h d v conn w) as (tr & Htr & Hrun).
  by rewrite (issuedCalls_app _ _ _ Htr).
Qed.

Lemma issued_Remove_delete a h d v b c :
  issued a h d v (Remove b) c → is_delete c = true ∧ is_create c = false.
Proof.
  unfold is_delete, is_create.
  destruct a; simpl; intros (name & _ & ->); done.
Qed.

Lemma issued_Add_create a h d v b c :
  issued a h d v (Add b) c → is_create c = true ∧ is_delete c = false.
Proof.
  unfold is_delete, is_create.
  destruct a; simpl; intros (x & _ & ->); done.
Qed.

(** Nothing to remove and nothing to add: [Process] returns nil and
    leaves the world as it is. *)
Lemma Process_set_nothing a h d v conn w :
  removeList d (GetKey h) = [] → addList d (GetKey h) = [] →
  Process a h d v conn w = (Ret None, w).
Proof.
  intros Hrm Had. destruct a; simpl.
  - rewrite ACL_Process_unfold, Hrm, Had. done.
  - rewrite Logentries_Process_unfold, Hrm, Had. done.
Qed.

End WritePath.

Lemma fatal_None_delete c :
  is_delete c = true → fatal c = None → delete_done c.
Proof.
  unfold fatal, delete_done. intros ->. simpl.
  destruct (call_err c) as [e|]; [|by left].
  destruct e as [sc| |]; simpl; try done.
  case_bool_decide; [|done]. subst sc. by right.
Qed.

Lemma fatal_of_failure c e :
  call_err c = Some e →
  is_create c = true ∨ (is_delete c = true ∧ notFound e = false) →
  fatal c = Some e.
Proof.
  unfold fatal. intros -> [Hc|[Hd Hnf]].
  - assert (is_delete c = false) as ->; [|done].
    unfold is_create, is_delete in *. by destruct (call_req c).
  - by rewrite Hd, Hnf.
Qed.

Lemma NoDup_List_NewSet hash (l : list Block) (o : SchemaSet) :
  NoDup (schema.List (schema.Difference (schema.NewSet hash l) o)).
Proof.
  apply NoDup_List. intros k1 k2 x H1 H2.
  rewrite lookup_Difference in H1, H2.
  destruct (o !! k1); [done|]. destruct (o !! k2); [done|].
  apply lookup_NewSet in H1 as [_ <-]. by apply lookup_NewSet in H2 as [_ <-].
Qed.

(** On the demo service the Logentries handler, given a nil old
    collection and one new block, issues one create and returns nil. *)
Example Demo_logentries_created :
  let run :=
    Process_set Demo.getVCLLoggingAttributes Demo.uintOrDefault AttrLogentries
                Demo.logentriesHandler Demo.data 3 Demo.client in
  (run Demo.world).1 = Ret None
  ∧ is_create <$> issuedCalls run Demo.world = [true]
  ∧ remote (run Demo.world).2 = ["x"; "a"; "c"].
Proof. vm_compute. done. Qed.

(** The calls of a run, split into its deletes and its creates. *)
Lemma calls_split_deletes_creates {R FV} getVCLLoggingAttributes
    (uintOrDefault : FV → Z) (a : SetAttribute) h (d : ResourceData R) v conn w :
  ∃ ds cs,
    issuedCalls (Process_set getVCLLoggingAttributes uintOrDefault a h d v conn) w
    = ds ++ cs
    ∧ Forall (λ c, is_delete c = true) ds
    ∧ Forall (λ c, is_create c = true) cs.
Proof.
  destruct (Process_set_plan getVCLLoggingAttributes uintOrDefault a h d v conn w)
    as [_ Hrun].
  apply PlanRun_phases in Hrun as (ds & cs & Htr & Hds & Hcs & _).
  exists ds, cs. split; [done|]. split.
  - eapply Forall2_Forall_r; [exact Hds|].
    apply Forall_true. intros b c Hi.
    by apply issued_Remove_delete in Hi as [? _].
  - eapply Forall2_Forall_r; [exact Hcs|].
    apply Forall_true. intros b c Hi.
    by apply issued_Add_create in Hi as [? _].
Qed.

(** ** The claims *)

(** C1, as it holds.  The old and the new collection are held as sets
    keyed by the hash code of their blocks, and the difference goes by
    these codes: the removal list of [Process] holds exactly the blocks
    of the old set whose code no block of the new set has, and the
    addition list exactly the blocks of the new set whose code no block
    of the old set has, each once.  Where blocks with equal codes are
    equal this is the difference of the two collections under equality
    of whole blocks.  [Process] works through exactly these two lists,
    and a run that returns nil has issued one call for every entry of
    them.  When the old and the new collection are the same, both lists
    are empty, no remote call is made and [Process] returns nil. *)
Theorem C1_diff_by_hash_code :
  ∀ (hash : Block → string) (la lb : list Block),
    let A := schema.NewSet hash la in
    let B := schema.NewSet hash lb in
    (∀ x, x ∈ schema.List (schema.Difference A B)
          ↔ x ∈ schema.List A ∧ (∀ y, y ∈ schema.List B → hash y ≠ hash x))
    ∧ (∀ x, x ∈ schema.List (schema.Difference B A)
            ↔ x ∈ schema.List B ∧ (∀ y, y ∈ schema.List A → hash y ≠ hash x))
    ∧ (∀ x, x ∈ schema.List A → x ∈ la)
    ∧ (∀ x, x ∈ la → ∃ y, y ∈ schema.List A ∧ hash y = hash x)
    ∧ NoDup (schema.List (schema.Difference A B))
    ∧ NoDup (schema.List (schema.Difference B A))
    ∧ ((∀ y z, y ∈ la ++ lb → z ∈ la ++ lb → hash y = hash z → y = z) →
       (∀ x, x ∈ schema.List (schema.Difference A B) ↔ x ∈ la ∧ x ∉ lb)
       ∧ (∀ x, x ∈ schema.List (schema.Difference B A) ↔ x ∈ lb ∧ x ∉ la))
    ∧ schema.List (schema.Difference A A) = []
    ∧ ∀ (R FV : Type) getVCLLoggingAttributes (uintOrDefault : FV → Z)
        (a : SetAttribute) h (d : ResourceData R) v conn w,
        let Process :=
          Process_set getVCLLoggingAttributes uintOrDefault a h d v conn in
        let issued :=
          issued_set getVCLLoggingAttributes uintOrDefault a h d v in
        (d_GetChange d (GetKey h) = (Some A, Some B) →
           removeList d (GetKey h) = schema.List (schema.Difference A B)
           ∧ addList d (GetKey h) = schema.List (schema.Difference B A)
           ∧ PlanRun issued
               (plan (schema.List (schema.Difference A B))
                     (schema.List (schema.Difference B A)))
               (issuedCalls Process w) (Process w).1
           ∧ ((Process w).1 = Ret None →
              Forall2 issued
                (plan (schema.List (schema.Difference A B))
                      (schema.List (schema.Difference B A)))
                (issuedCalls Process w)))
        ∧ (d_GetChange d (GetKey h) = (Some A, Some A) →
           Process w = (Ret None, w) ∧ issuedCalls Process w = []).
Proof.
  intros hash la lb A B.
  split; [intros x; apply elem_of_List_Difference_by_code|].
  split; [intros x; apply elem_of_List_Difference_by_code|].
  split.
  { intros x [k Hk]%elem_of_List. by apply lookup_NewSet in Hk as [? _]. }
  split.
  { intros x Hx. destruct (NewSet_stored hash la x Hx) as [y Hy].
    exists y. split; [apply elem_of_List; eauto|].
    by apply lookup_NewSet in Hy as [_ ?]. }
  split; [apply NoDup_List_NewSet|].
  split; [apply NoDup_List_NewSet|].
  split.
  { intros Hinj. split; intros x.
    - by apply elem_of_List_Difference.
    - apply elem_of_List_Difference.
      intros y z Hy Hz. apply Hinj.
      + apply elem_of_app. apply elem_of_app in Hy. tauto.
      + apply elem_of_app. apply elem_of_app in Hz. tauto. }
  split; [by rewrite Difference_diag, List_empty|].
  intros R FV getVCL uod a h d v conn w Process issued. split.
  - intros Hch.
    assert (removeList d (GetKey h) = schema.List (schema.Difference A B)) as Hrm.
    { unfold removeList, oldSet, newSet. by rewrite Hch. }
    assert (addList d (GetKey h) = schema.List (schema.Difference B A)) as Had.
    { unfold addList, oldSet, newSet. by rewrite Hch. }
    split; [exact Hrm|]. split; [exact Had|].
    destruct (Process_set_plan getVCL uod a h d v conn w) as [_ Hrun].
    rewrite Hrm, Had in Hrun. split; [exact Hrun|].
    intros Hout. subst Process. rewrite Hout in Hrun.
    by apply PlanRun_success in Hrun as [? _].
  - intros Hch.
    assert (Process w = (Ret None, w)) as Hp.
    { apply Process_set_nothing.
      - unfold removeList, oldSet, newSet. rewrite Hch. simpl.
        by rewrite Difference_diag, List_empty.
      - unfold addList, oldSet, newSet. rewrite Hch. simpl.
        by rewrite Difference_diag, List_empty. }
    split; [exact Hp|]. unfold issuedCalls. rewrite Hp. simpl.
    by rewrite drop_all.
Qed.

(** C1, as stated, fails.  The hash of a set of ACL blocks reads the
    name only ([acl_id] is computed and not set by the user).  An old
    block and a new block with the same name and different ids differ,
    so the old one is in the old collection and not in the new one; yet
    both lists of [Process] are empty and no remote call is made. *)
Lemma C1_counterexample :
  Demo.idACL "id0" ∈ [Demo.idACL "id0"]
  ∧ (Demo.idACL "id0" ∉ [Demo.idACL EmptyString])
  ∧ removeList Demo.driftData (GetKey Demo.aclHandler) = []
  ∧ addList Demo.driftData (GetKey Demo.aclHandler) = []
  ∧ issuedCalls Demo.runDrift Demo.world = []
  ∧ ¬ (∀ x, x ∈ schema.List
                  (schema.Difference
                     (schema.NewSet Demo.nameHash [Demo.idACL "id0"])
                     (schema.NewSet Demo.nameHash [Demo.idACL EmptyString]))
            ↔ x ∈ [Demo.idACL "id0"] ∧ x ∉ [Demo.idACL EmptyString]).
Proof.
  assert (Demo.idACL "id0" ≠ Demo.idACL EmptyString) as Hne.
  { intros H. apply (f_equal (λ m : Block, m !! "acl_id")) in H.
    vm_compute in H. discriminate H. }
  assert (Demo.idACL "id0" ∉ [Demo.idACL EmptyString]) as Hnot.
  { intros [H|H]%elem_of_cons; [by apply Hne|by apply elem_of_nil in H]. }
  assert (schema.List
            (schema.Difference
               (schema.NewSet Demo.nameHash [Demo.idACL "id0"])
               (schema.NewSet Demo.nameHash [Demo.idACL EmptyString])) = [])
    as Hempty by (vm_compute; reflexivity).
  split; [apply list_elem_of_here|]. split; [exact Hnot|].
  split; [vm_compute; reflexivity|]. split; [vm_compute; reflexivity|].
  split; [vm_compute; reflexivity|].
  intros H. specialize (H (Demo.idACL "id0")). rewrite Hempty in H.
  destruct H as [_ H].
  assert (Demo.idACL "id0" ∈ @nil Block) as Hin.
  { apply H. split; [apply list_elem_of_here|exact Hnot]. }
  by apply elem_of_nil in Hin.
Qed.

(** C2. In every run of [Process] of a set attribute the remote calls
    are delete calls followed by create calls; the deletes are those of
    the removal list, one per entry and in its order, the creates those
    of the addition list likewise; and when a create has been issued,
    every entry of the removal list has had its delete, each of which
    succeeded or was answered with not-found. *)
Theorem C2_deletes_before_creates :
  ∀ (R FV : Type) getVCLLoggingAttributes (uintOrDefault : FV → Z)
    (a : SetAttribute) h (d : ResourceData R) v conn w,
    let Process := Process_set getVCLLoggingAttributes uintOrDefault a h d v conn in
    let issued := issued_set getVCLLoggingAttributes uintOrDefault a h d v in
    ∃ ds cs,
      issuedCalls Process w = ds ++ cs
      ∧ calls (Process w).2 = calls w ++ ds ++ cs
      ∧ Forall (λ c, is_delete c = true) ds
      ∧ Forall (λ c, is_create c = true) cs
      ∧ Forall2 (λ b c, issued (Remove b) c)
                (take (length ds) (removeList d (GetKey h))) ds
      ∧ Forall2 (λ b c, issued (Add b) c)
                (take (length cs) (addList d (GetKey h))) cs
      ∧ (cs ≠ [] →
         length ds = length (removeList d (GetKey h)) ∧ Forall delete_done ds).
Proof.
  intros R FV getVCL uod a h d v conn w Process issued.
  destruct (Process_set_plan getVCL uod a h d v conn w) as [Hcalls Hrun].
  apply PlanRun_phases in Hrun as (ds & cs & Htr & Hds & Hcs & Hfull).
  assert (Forall (λ c, is_delete c = true) ds) as Hdel.
  { eapply Forall2_Forall_r; [exact Hds|].
    apply Forall_true. intros b c Hi.
    by apply issued_Remove_delete in Hi as [? _]. }
  exists ds, cs. subst Process. rewrite Hcalls, Htr.
  split; [done|]. split; [done|]. split; [done|]. split.
  { eapply Forall2_Forall_r; [exact Hcs|].
    apply Forall_true. intros b c Hi.
    by apply issued_Add_create in Hi as [? _]. }
  split; [done|]. split; [done|].
  intros Hne. destruct (Hfull Hne) as [Hlen Hall]. split; [done|].
  apply Forall_forall. intros c Hc.
  apply fatal_None_delete.
  - by apply (proj1 (Forall_forall _ _) Hdel).
  - by apply (proj1 (Forall_forall _ _) Hall).
Qed.

(** C3. When a delete of the removal list is answered with a not-found
    error (an HTTP error with status 404), [Process] goes on: an error
    it returns is the error of a later call, never this one; the next
    entry of the plan (the remaining removals, then the additions) is
    taken up, and when there is none left [Process] returns nil. *)
Theorem C3_not_found_is_absorbed :
  ∀ (R FV : Type) getVCLLoggingAttributes (uintOrDefault : FV → Z)
    (a : SetAttribute) h (d : ResourceData R) v conn w (i : nat) (c : Call),
    let Process := Process_set getVCLLoggingAttributes uintOrDefault a h d v conn in
    let issued := issued_set getVCLLoggingAttributes uintOrDefault a h d v in
    issuedCalls Process w !! i = Some c →
    is_delete c = true →
    call_err c = Some (HTTPError 404) →
    (∀ e, (Process w).1 = Ret (Some e) →
          ∃ j c', (i < j)%nat ∧ issuedCalls Process w !! j = Some c'
                  ∧ fatal c' = Some e)
    ∧ match plan (removeList d (GetKey h)) (addList d (GetKey h)) !! S i with
      | Some next =>
          (∃ c', issuedCalls Process w !! S i = Some c' ∧ issued next c')
          ∨ ((Process w).1 = Panic ∧ length (issuedCalls Process w) = S i)
      | None =>
          (Process w).1 = Ret None ∧ length (issuedCalls Process w) = S i
      end.
Proof.
  intros R FV getVCL uod a h d v conn w i c Process issued Hi Hdel Herr.
  destruct (Process_set_plan getVCL uod a h d v conn w) as [_ Hrun].
  fold Process in Hrun.
  assert (fatal c = None) as Hnf.
  { unfold fatal. by rewrite Herr, Hdel. }
  split.
  - intros e He. rewrite He in Hrun.
    apply PlanRun_error in Hrun as (tr' & c' & Htr & Hc' & _).
    rewrite Htr in Hi |- *. exists (length tr'), c'.
    split; [|split; [|done]].
    + pose proof (lookup_lt_Some _ _ _ Hi) as Hlt.
      rewrite length_app in Hlt. simpl in Hlt.
      destruct (decide (i = length tr')) as [->|Hne]; [|lia].
      rewrite lookup_app_r, Nat.sub_diag in Hi by lia.
      simpl in Hi. congruence.
    + rewrite lookup_app_r, Nat.sub_diag by lia. done.
  - exact (PlanRun_continue _ _ _ _ Hrun i c Hi Hnf).
Qed.

Lemma C3_not_found_is_absorbed_witness :
  issuedCalls Demo.runACL Demo.world !! 1%nat = Some Demo.deleteZZ
  ∧ is_delete Demo.deleteZZ = true
  ∧ call_err Demo.deleteZZ = Some (HTTPError 404)
  ∧ ∀ e, (Demo.runACL Demo.world).1 = Ret (Some e) →
         ∃ j c', (1 < j)%nat ∧ issuedCalls Demo.runACL Demo.world !! j = Some c'
                 ∧ fatal c' = Some e.
Proof.
  assert (issuedCalls Demo.runACL Demo.world !! 1%nat = Some Demo.deleteZZ) as H1
    by (vm_compute; reflexivity).
  split; [exact H1|]. split; [reflexivity|]. split; [reflexivity|].
  exact (proj1 (C3_not_found_is_absorbed _ _ Demo.getVCLLoggingAttributes
                  Demo.uintOrDefault AttrACL Demo.aclHandler Demo.data 3
                  Demo.client Demo.world 1%nat Demo.deleteZZ
                  H1 eq_refl eq_refl)).
Defined.

(** C4. When a delete fails with an error that is not not-found, or a
    create fails with any error, that call is the last remote call of
    the run and [Process] returns that very error; the calls issued are
    those of the entries of the plan up to the failing one, so that no
    call is made for a later entry and none to undo an earlier one. *)
Theorem C4_fatal_error_stops :
  ∀ (R FV : Type) getVCLLoggingAttributes (uintOrDefault : FV → Z)
    (a : SetAttribute) h (d : ResourceData R) v conn w
    (tr1 : list Call) (c : Call) (tr2 : list Call) (e : error),
    let Process := Process_set getVCLLoggingAttributes uintOrDefault a h d v conn in
    let issued := issued_set getVCLLoggingAttributes uintOrDefault a h d v in
    issuedCalls Process w = tr1 ++ c :: tr2 →
    call_err c = Some e →
    is_create c = true ∨ (is_delete c = true ∧ notFound e = false) →
    tr2 = []
    ∧ (Process w).1 = Ret (Some e)
    ∧ calls (Process w).2 = calls w ++ tr1 ++ [c]
    ∧ Forall2 issued
        (take (S (length tr1))
              (plan (removeList d (GetKey h)) (addList d (GetKey h))))
        (tr1 ++ [c]).
Proof.
  intros R FV getVCL uod a h d v conn w tr1 c tr2 e Process issued Htr Herr Hkind.
  destruct (Process_set_plan getVCL uod a h d v conn w) as [Hcalls Hrun].
  fold Process in Hrun, Hcalls.
  pose proof (fatal_of_failure c e Herr Hkind) as Hfatal.
  destruct (PlanRun_fatal_last _ _ _ _ Hrun tr1 c tr2 e Htr Hfatal) as [-> Hout].
  split; [done|]. split; [done|]. split; [by rewrite Hcalls, Htr|].
  apply PlanRun_follows in Hrun. rewrite Htr in Hrun.
  rewrite length_app in Hrun. simpl in Hrun.
  by rewrite Nat.add_1_r in Hrun.
Qed.

Lemma C4_fatal_error_stops_witness :
  issuedCalls Demo.runACL Demo.world
  = [Demo.deleteA; Demo.deleteZZ] ++ Demo.createC :: []
  ∧ call_err Demo.createC = Some (HTTPError 409)
  ∧ (is_create Demo.createC = true
     ∨ (is_delete Demo.createC = true ∧ notFound (HTTPError 409) = false))
  ∧ (Demo.runACL Demo.world).1 = Ret (Some (HTTPError 409)).
Proof.
  assert (issuedCalls Demo.runACL Demo.world
          = [Demo.deleteA; Demo.deleteZZ] ++ Demo.createC :: []) as H1
    by (vm_compute; reflexivity).
  split; [exact H1|]. split; [reflexivity|]. split; [by left|].
  exact (proj1 (proj2 (C4_fatal_error_stops _ _ Demo.getVCLLoggingAttributes
                         Demo.uintOrDefault AttrACL Demo.aclHandler Demo.data 3
                         Demo.client Demo.world _ _ _ _
                         H1 eq_refl (or_introl eq_refl)))).
Defined.

(** ** The package handler *)

Lemma issuedCalls_same {R A} (m : M R A) (w : World R) :
  calls (m w).2 = calls w → issuedCalls m w = [].
Proof. unfold issuedCalls. intros ->. by rewrite drop_all. Qed.

Lemma Package_Process_calls {R} h (d : ResourceData R) v conn w :
  let tr := issuedCalls (PackageServiceAttributeHandler.Process h d v conn) w in
  tr = []
  ∨ ∃ Package filename err,
      head (d_GetOk d (GetKey h)).1 = Some Package
      ∧ Package !! "filename" = Some (VString filename)
      ∧ tr = [mkCall (gofastly.ReqUpdatePackage
                        (gofastly.UpdatePackageInput.mk (d_Id d) v filename))
                     err].
Proof.
  simpl. unfold issuedCalls, PackageServiceAttributeHandler.Process.
  destruct (d_GetOk d (GetKey h)) as [l ok]. simpl.
  destruct ok; [|left; by rewrite drop_all].
  unfold_M.
  destruct (head l) as [Package|] eqn:Hhead; simpl;
    [|left; by rewrite drop_all].
  destruct (Package !! "filename") as [[filename| | |]|] eqn:Hf; simpl;
    try (left; by rewrite drop_all).
  right. exists Package, filename.
  destruct (client_UpdatePackage conn _ (remote w)) as [r r'] eqn:Hc. simpl.
  exists (response_err r). split; [done|]. split; [done|].
  destruct r; simpl; by rewrite drop_app_length.
Qed.

(** C5, as it holds.  The write paths of the ACL and Logentries
    handlers issue delete and create calls only.  The write path of the
    package handler issues neither.  When no package block is set it
    makes no remote call and returns nil; when one is set and its first
    block has a string file name it makes exactly one remote call, an
    [UpdatePackage] for that file name; when one is set and the list is
    empty or its first block has no string file name it panics without
    a call. *)
Theorem C5_calls_of_the_write_paths :
  ∀ (R FV : Type) getVCLLoggingAttributes (uintOrDefault : FV → Z)
    (a : Attribute) h (d : ResourceData R) v conn w,
    let Process := Process_of getVCLLoggingAttributes uintOrDefault a h d v conn in
    let tr := issuedCalls Process w in
    match a with
    | AttrSet _ => only_deletes_and_creates tr
    | AttrPackage =>
        match d_GetOk d (GetKey h) with
        | (_, false) => tr = [] ∧ (Process w).1 = Ret None
        | (l, true) =>
            match head l ≫= λ P, assertString (P !! "filename") with
            | Some filename =>
                ∃ err,
                  tr = [mkCall (gofastly.ReqUpdatePackage
                                  (gofastly.UpdatePackageInput.mk
                                     (d_Id d) v filename))
                               err]
            | None => tr = [] ∧ (Process w).1 = Panic
            end
        end
    end.
Proof.
  intros R FV getVCL uod a h d v conn w. destruct a as [s|]; simpl.
  - destruct (calls_split_deletes_creates getVCL uod s h d v conn w)
      as (ds & cs & -> & Hds & Hcs).
    apply Forall_app. split.
    + eapply Forall_impl; [exact Hds|]. by intros c ->.
    + eapply Forall_impl; [exact Hcs|]. intros c ->. apply orb_true_r.
  - unfold issuedCalls, PackageServiceAttributeHandler.Process.
    destruct (d_GetOk d (GetKey h)) as [l ok]. simpl.
    destruct ok; simpl; [|by rewrite drop_all].
    unfold_M.
    destruct (head l) as [P|]; simpl; [|by rewrite drop_all].
    destruct (P !! "filename") as [[filename| | |]|]; simpl;
      try (by rewrite drop_all).
    destruct (client_UpdatePackage conn _ (remote w)) as [[p|e] r']; simpl;
      rewrite drop_app_length; eexists; reflexivity.
Qed.

(** C5, as stated, fails: on the demo service the write path of the
    package handler issues an [UpdatePackage] call, which is neither a
    delete nor a create. *)
Lemma C5_counterexample :
  issuedCalls Demo.runPackage Demo.world = [Demo.updateCall]
  ∧ is_update Demo.updateCall = true
  ∧ ¬ (∀ (a : Attribute) (h : DefaultServiceAttributeHandler),
         only_deletes_and_creates
           (issuedCalls
              (Process_of Demo.getVCLLoggingAttributes Demo.uintOrDefault a h
                          Demo.data 3 Demo.client)
              Demo.world)).
Proof.
  assert (issuedCalls Demo.runPackage Demo.world = [Demo.updateCall]) as H1
    by (vm_compute; reflexivity).
  split; [exact H1|]. split; [reflexivity|].
  intros H. specialize (H AttrPackage Demo.packageHandler).
  fold Demo.runPackage in H. rewrite H1 in H.
  apply Forall_cons in H as [H _]. discriminate H.
Qed.

(** C6. The normalizers of the remote lists turn each entity into its
    field mapping with exactly the fields removed whose value is the
    empty string; every other field, and so every field that is not a
    string (the port, the TLS flag, the format version), stays.  A
    Logentries endpoint named "a" with an empty format is normalized to
    a mapping with the name "a" and without the format key. *)
Theorem C6_empty_strings_are_pruned :
  (∀ (m : Block) (k : string),
     pruneEmpty m !! k
     = match m !! k with
       | Some (VString EmptyString) => None
       | o => o
       end)
  ∧ (∀ l, flattenLogentries l = (λ le, pruneEmpty (Logentries_fields le)) <$> l)
  ∧ (∀ l, flattenACLs l = (λ acl, pruneEmpty (ACL_fields acl)) <$> l)
  ∧ (∀ le,
       pruneEmpty (Logentries_fields le) !! "port"
       = Some (VUint (gofastly.Logentries.Port le))
       ∧ pruneEmpty (Logentries_fields le) !! "use_tls"
         = Some (VBool (gofastly.Logentries.UseTLS le))
       ∧ pruneEmpty (Logentries_fields le) !! "format_version"
         = Some (VUint (gofastly.Logentries.FormatVersion le)))
  ∧ (∀ port use_tls token format_version response_condition placement,
       ∃ m,
         flattenLogentries
           [gofastly.Logentries.mk "a" port use_tls token EmptyString
              format_version response_condition placement] = [m]
         ∧ m !! "name" = Some (VString "a")
         ∧ m !! "format" = None).
Proof.
  split.
  { intros m k. rewrite lookup_pruneEmpty.
    destruct (m !! k) as [[[|]| | |]|]; done. }
  split; [apply flattenLogentries_fmap|].
  split; [apply flattenACLs_fmap|].
  split.
  { intros le. rewrite !lookup_pruneEmpty. done. }
  intros port use_tls token fv rc pl. eexists.
  rewrite flattenLogentries_fmap. simpl. split; [reflexivity|].
  rewrite !lookup_pruneEmpty. done.
Qed.

(** ** [Process] and nil collections *)

Lemma Process_set_withChange {R FV} getVCLLoggingAttributes
    (uintOrDefault : FV → Z) a h (d : ResourceData R) v conn change :
  oldSet d (GetKey h) = default new_Set change.1 →
  newSet d (GetKey h) = default new_Set change.2 →
  Process_set getVCLLoggingAttributes uintOrDefault a h d v conn
  = Process_set getVCLLoggingAttributes uintOrDefault a h (withChange d change)
                v conn.
Proof.
  intros Ho Hn.
  assert (removeList (withChange d change) (GetKey h) = removeList d (GetKey h))
    as Hrm.
  { unfold removeList. rewrite Ho, Hn. by destruct change as [[?|] [?|]]. }
  assert (addList (withChange d change) (GetKey h) = addList d (GetKey h))
    as Had.
  { unfold addList. rewrite Ho, Hn. by destruct change as [[?|] [?|]]. }
  destruct a; simpl.
  - rewrite !ACL_Process_unfold, Hrm, Had. reflexivity.
  - rewrite !Logentries_Process_unfold, Hrm, Had. reflexivity.
Qed.

(** C7. A nil old or new collection is taken as the empty one:
    [Process] runs as it does on the data in which every nil collection
    is replaced by the empty set.  With a nil old collection nothing is
    removed and the whole new collection is added; with a nil new
    collection nothing is added and the whole old collection is
    removed; with both nil, [Process] returns nil and changes
    nothing. *)
Theorem C7_nil_is_empty :
  ∀ (R FV : Type) getVCLLoggingAttributes (uintOrDefault : FV → Z)
    (a : SetAttribute) h (d : ResourceData R) v conn w
    (old new : option SchemaSet),
    let Process := Process_set getVCLLoggingAttributes uintOrDefault a h in
    d_GetChange d (GetKey h) = (old, new) →
    Process d v conn w
    = Process (withChange d (Some (default ∅ old), Some (default ∅ new)))
              v conn w
    ∧ (old = None →
       removeList d (GetKey h) = []
       ∧ addList d (GetKey h) = schema.List (default ∅ new))
    ∧ (new = None →
       addList d (GetKey h) = []
       ∧ removeList d (GetKey h) = schema.List (default ∅ old))
    ∧ (old = None → new = None → Process d v conn w = (Ret None, w)).
Proof.
  intros R FV getVCL uod a h d v conn w old new Process Hch.
  assert (oldSet d (GetKey h) = default ∅ old) as Ho.
  { unfold oldSet. rewrite Hch. by destruct old. }
  assert (newSet d (GetKey h) = default ∅ new) as Hn.
  { unfold newSet. rewrite Hch. by destruct new. }
  split.
  { subst Process.
    by rewrite (Process_set_withChange getVCL uod a h d v conn
                  (Some (default ∅ old), Some (default ∅ new))). }
  split.
  { intros ->. unfold removeList, addList. rewrite Ho, Hn. simpl.
    by rewrite Difference_empty_l, Difference_empty_r, List_empty. }
  split.
  { intros ->. unfold removeList, addList. rewrite Ho, Hn. simpl.
    by rewrite Difference_empty_l, Difference_empty_r, List_empty. }
  intros -> ->. apply Process_set_nothing.
  - unfold removeList. rewrite Ho, Hn. simpl.
    by rewrite Difference_empty_l, List_empty.
  - unfold addList. rewrite Ho, Hn. simpl.
    by rewrite Difference_empty_l, List_empty.
Qed.

Lemma C7_nil_is_empty_witness :
  d_GetChange Demo.data (GetKey Demo.logentriesHandler)
  = (None, Some (schema.NewSet Demo.nameHash [Demo.logentries "x"]))
  ∧ removeList Demo.data (GetKey Demo.logentriesHandler) = []
  ∧ addList Demo.data (GetKey Demo.logentriesHandler)
    = schema.List (schema.NewSet Demo.nameHash [Demo.logentries "x"]).
Proof.
  split; [reflexivity|].
  exact (proj1 (proj2 (C7_nil_is_empty _ _ Demo.getVCLLoggingAttributes
                         Demo.uintOrDefault AttrLogentries Demo.logentriesHandler
                         Demo.data 3 Demo.client Demo.world None
                         (Some (schema.NewSet Demo.nameHash [Demo.logentries "x"]))
                         eq_refl))
               eq_refl).
Defined.

(** ** The read path *)

Section ReadPath.
Context {R : Type}.
Implicit Types (h : DefaultServiceAttributeHandler) (d : ResourceData R)
  (conn : Client R) (w : World R) (s : gofastly.ServiceDetail.t).

Lemma ACL_Read_stored h d s conn w l r1 err r2 :
  client_ListACLs conn (gofastly.ListACLsInput.mk (d_Id d) (activeNumber s))
                  (remote w) = (Ok l, r1) →
  d_Set d (GetKey h) (flattenACLs l) r1 = (err, r2) →
  ACLServiceAttributeHandler.Read h d s conn w
  = (Ret None,
     mkWorld r2
       (calls w ++ [mkCall (gofastly.ReqListACLs
                              (gofastly.ListACLsInput.mk (d_Id d) (activeNumber s)))
                           None])
       (logs w ++ readLogs "[DEBUG] Refreshing ACLs for (%s)"
                           "[WARN] Error setting ACLs for (%s): %s" d err)
       (stores w ++ [mkStore (GetKey h) (flattenACLs l) err])).
Proof.
  intros Hl Hs. unfold ACLServiceAttributeHandler.Read, activeNumber in *.
  unfold_M. simpl. rewrite Hl. simpl. rewrite Hs.
  destruct err; simpl; by rewrite <- ?app_assoc.
Qed.

Lemma ACL_Read_failed h d s conn w e r1 :
  client_ListACLs conn (gofastly.ListACLsInput.mk (d_Id d) (activeNumber s))
                  (remote w) = (Err e, r1) →
  stores (ACLServiceAttributeHandler.Read h d s conn w).2 = stores w.
Proof.
  intros Hl. unfold ACLServiceAttributeHandler.Read, activeNumber in *.
  unfold_M. simpl. by rewrite Hl.
Qed.

Lemma Logentries_Read_stored h d s conn w l r1 err r2 :
  client_ListLogentries conn
    (gofastly.ListLogentriesInput.mk (d_Id d) (activeNumber s)) (remote w)
  = (Ok l, r1) →
  d_Set d (GetKey h) (flattenLogentries l) r1 = (err, r2) →
  LogentriesServiceAttributeHandler.Read h d s conn w
  = (Ret None,
     mkWorld r2
       (calls w ++ [mkCall (gofastly.ReqListLogentries
                              (gofastly.ListLogentriesInput.mk
                                 (d_Id d) (activeNumber s)))
                           None])
       (logs w ++ readLogs "[DEBUG] Refreshing Logentries for (%s)"
                           "[WARN] Error setting Logentries for (%s): %s" d err)
       (stores w ++ [mkStore (GetKey h) (flattenLogentries l) err])).
Proof.
  intros Hl Hs. unfold LogentriesServiceAttributeHandler.Read, activeNumber in *.
  unfold_M. simpl. rewrite Hl. simpl. rewrite Hs.
  destruct err; simpl; by rewrite <- ?app_assoc.
Qed.

Lemma Logentries_Read_failed h d s conn w e r1 :
  client_ListLogentries conn
    (gofastly.ListLogentriesInput.mk (d_Id d) (activeNumber s)) (remote w)
  = (Err e, r1) →
  stores (LogentriesServiceAttributeHandler.Read h d s conn w).2 = stores w.
Proof.
  intros Hl. unfold LogentriesServiceAttributeHandler.Read, activeNumber in *.
  unfold_M. simpl. by rewrite Hl.
Qed.

Lemma Package_Read_stored h d s conn w P r1 filename err r2 :
  client_GetPackage conn (gofastly.GetPackageInput.mk (d_Id d) (activeNumber s))
                    (remote w) = (Ok P, r1) →
  d_Get d "package.0.filename" = Some (VString filename) →
  d_Set d (GetKey h) (flattenPackage P filename) r1 = (err, r2) →
  PackageServiceAttributeHandler.Read h d s conn w
  = (Ret None,
     mkWorld r2
       (calls w ++ [mkCall (gofastly.ReqGetPackage
                              (gofastly.GetPackageInput.mk (d_Id d) (activeNumber s)))
                           None])
       (logs w ++ readLogs "[DEBUG] Refreshing package for (%s)"
                           "[WARN] Error setting Package for (%s): %s" d err)
       (stores w ++ [mkStore (GetKey h) (flattenPackage P filename) err])).
Proof.
  intros Hl Hf Hs. unfold PackageServiceAttributeHandler.Read, activeNumber in *.
  unfold_M. simpl. rewrite Hl. simpl. rewrite Hf. simpl. rewrite Hs.
  destruct err; simpl; by rewrite <- ?app_assoc.
Qed.

Lemma Package_Read_not_stored h d s conn w :
  (∀ P r1, client_GetPackage conn
             (gofastly.GetPackageInput.mk (d_Id d) (activeNumber s)) (remote w)
           = (Ok P, r1) →
           assertString (d_Get d "package.0.filename") = None) →
  stores (PackageServiceAttributeHandler.Read h d s conn w).2 = stores w.
Proof.
  intros Hno. unfold PackageServiceAttributeHandler.Read, activeNumber in *.
  unfold_M. simpl.
  destruct (client_GetPackage conn _ (remote w)) as [[P|e] r1] eqn:Hl; simpl;
    [|done].
  by rewrite (Hno P r1 eq_refl).
Qed.

End ReadPath.

(** A read either writes nothing to the state sink, or it has fetched
    the remote data without error, written it once, logged a warning
    when the write failed, and returned nil. *)
Lemma Read_of_cases {R} (a : Attribute) h (d : ResourceData R) s conn w :
  newStores (Read_of a h d s conn) w = []
  ∨ ∃ r c debug warn blocks err,
      Read_of a h d s conn w
      = (Ret None,
         mkWorld r (calls w ++ [c])
                 (logs w ++ readLogs debug warn d err)
                 (stores w ++ [mkStore (GetKey h) blocks err]))
      ∧ call_err c = None
      ∧ String.prefix "[WARN]" warn = true.
Proof.
  destruct a as [[|]|]; simpl.
  - destruct (client_ListACLs conn
                (gofastly.ListACLsInput.mk (d_Id d) (activeNumber s)) (remote w))
      as [[l|e] r1] eqn:Hl.
    + destruct (d_Set d (GetKey h) (flattenACLs l) r1) as [err r2] eqn:Hs.
      right. do 6 eexists. rewrite (ACL_Read_stored _ _ _ _ _ _ _ _ _ Hl Hs).
      split; [reflexivity|]. split; reflexivity.
    + left. unfold newStores. rewrite (ACL_Read_failed _ _ _ _ _ _ _ Hl).
      by rewrite drop_all.
  - destruct (client_ListLogentries conn
                (gofastly.ListLogentriesInput.mk (d_Id d) (activeNumber s))
                (remote w))
      as [[l|e] r1] eqn:Hl.
    + destruct (d_Set d (GetKey h) (flattenLogentries l) r1) as [err r2] eqn:Hs.
      right. do 6 eexists.
      rewrite (Logentries_Read_stored _ _ _ _ _ _ _ _ _ Hl Hs).
      split; [reflexivity|]. split; reflexivity.
    + left. unfold newStores. rewrite (Logentries_Read_failed _ _ _ _ _ _ _ Hl).
      by rewrite drop_all.
  - destruct (assertString (d_Get d "package.0.filename")) as [filename|] eqn:Hf.
    + destruct (client_GetPackage conn
                  (gofastly.GetPackageInput.mk (d_Id d) (activeNumber s))
                  (remote w))
        as [[P|e] r1] eqn:Hl.
      * destruct (d_Set d (GetKey h) (flattenPackage P filename) r1)
          as [err r2] eqn:Hs.
        assert (d_Get d "package.0.filename" = Some (VString filename)) as Hg.
        { by destruct (d_Get d "package.0.filename") as [[]|]; simplify_eq/=. }
        right. do 6 eexists.
        rewrite (Package_Read_stored _ _ _ _ _ _ _ _ _ _ Hl Hg Hs).
        split; [reflexivity|]. split; reflexivity.
      * left. unfold newStores. rewrite Package_Read_not_stored.
        -- by rewrite drop_all.
        -- intros P r1'. rewrite Hl. discriminate.
    + left. unfold newStores. rewrite Package_Read_not_stored; [|done].
      by rewrite drop_all.
Qed.

(** C8. In a read whose remote list or get succeeded and whose write
    of the normalized result to the state sink failed with [e], the
    failure is logged as a warning that carries [e], and the read
    returns nil. *)
Theorem C8_store_failure_is_logged :
  ∀ (R : Type) (a : Attribute) h (d : ResourceData R) s conn w
    (c : Call) (st : Store) (e : error),
    let Read := Read_of a h d s conn in
    issuedCalls Read w = [c] → call_err c = None →
    newStores Read w = [st] → store_err st = Some e →
    (Read w).1 = Ret None
    ∧ store_key st = GetKey h
    ∧ ∃ debug warn,
        newLogs Read w = [debug; mkLog warn [ArgString (d_Id d); ArgError e]]
        ∧ String.prefix "[WARN]" warn = true.
Proof.
  (* a write to the sink is only made after the fetch has succeeded, so
     the first two premises follow from the third *)
  intros R a h d s conn w c st e Read _ _ Hst He.
  destruct (Read_of_cases a h d s conn w)
    as [Hnone|(r & c' & debug & warn & blocks & err & Hread & _ & Hwarn)].
  { fold Read in Hnone. congruence. }
  fold Read in Hread. unfold newStores, newLogs in *.
  rewrite Hread in *. simpl in *.
  rewrite drop_app_length in Hst. injection Hst as <-. simpl in He. subst err.
  split; [done|]. split; [done|].
  eexists _, warn. rewrite drop_app_length. simpl. done.
Qed.

Lemma C8_store_failure_is_logged_witness :
  issuedCalls Demo.readLogentries Demo.world = [Demo.listCall]
  ∧ call_err Demo.listCall = None
  ∧ newStores Demo.readLogentries Demo.world = [Demo.refusedStore]
  ∧ store_err Demo.refusedStore = Some (OtherError "read-only state")
  ∧ (Demo.readLogentries Demo.world).1 = Ret None.
Proof.
  assert (issuedCalls Demo.readLogentries Demo.world = [Demo.listCall]) as H1
    by (vm_compute; reflexivity).
  assert (newStores Demo.readLogentries Demo.world = [Demo.refusedStore]) as H2
    by (vm_compute; reflexivity).
  split; [exact H1|]. split; [reflexivity|]. split; [exact H2|].
  split; [reflexivity|].
  exact (proj1 (C8_store_failure_is_logged _ (AttrSet AttrLogentries)
                  Demo.logentriesHandler Demo.data Demo.detail Demo.client
                  Demo.world Demo.listCall Demo.refusedStore
                  (OtherError "read-only state") H1 eq_refl H2 eq_refl)).
Defined.

(** C9. In the read path of the package handler the block written to
    the state sink has its file name from the caller's own data
    ([d.Get] of the declared file name) whatever the remote package is,
    and from the remote package only the hash sum, as the source code
    hash; it has no other field. *)
Theorem C9_filename_from_declared_state :
  ∀ (R : Type) h (d : ResourceData R) s conn w
    (P : gofastly.Package.t) (r1 : R) (filename : string),
    let Read := PackageServiceAttributeHandler.Read h d s conn in
    client_GetPackage conn
      (gofastly.GetPackageInput.mk (d_Id d) (activeNumber s)) (remote w)
    = (Ok P, r1) →
    d_Get d "package.0.filename" = Some (VString filename) →
    (Read w).1 = Ret None
    ∧ ∃ m err,
        newStores Read w = [mkStore (GetKey h) [m] err]
        ∧ m !! "filename" = Some (VString filename)
        ∧ m !! "source_code_hash"
          = Some (VString (gofastly.PackageMetadata.HashSum
                             (gofastly.Package.Metadata P)))
        ∧ ∀ k, k ≠ "filename" → k ≠ "source_code_hash" → m !! k = None.
Proof.
  intros R h d s conn w P r1 filename Read Hget Hname.
  destruct (d_Set d (GetKey h) (flattenPackage P filename) r1) as [err r2] eqn:Hs.
  pose proof (Package_Read_stored h d s conn w P r1 filename err r2 Hget Hname Hs)
    as Hread.
  fold Read in Hread. unfold newStores. rewrite Hread. simpl.
  split; [done|]. eexists _, err. rewrite drop_app_length.
  split; [reflexivity|]. split; [done|]. split; [done|].
  intros k Hk1 Hk2. by rewrite lookup_insert_ne, lookup_singleton_ne.
Qed.

Lemma C9_filename_from_declared_state_witness :
  client_GetPackage Demo.client
    (gofastly.GetPackageInput.mk (d_Id Demo.data) (activeNumber Demo.detail))
    (remote Demo.world)
  = (Ok Demo.package, remote Demo.world)
  ∧ d_Get Demo.data "package.0.filename" = Some (VString "pkg.tar.gz")
  ∧ (Demo.readPackage Demo.world).1 = Ret None.
Proof.
  split; [reflexivity|]. split; [reflexivity|].
  exact (proj1 (C9_filename_from_declared_state _ Demo.packageHandler Demo.data
                  Demo.detail Demo.client Demo.world Demo.package
                  (remote Demo.world) "pkg.tar.gz" eq_refl eq_refl)).
Defined.

(** C10. For every remote package and every file name, the empty
    string included, [flattenPackage] returns one mapping, which holds
    both the file name and the source code hash and nothing else: an
    empty value is kept as an empty string.  The list normalizers drop
    it: an ACL with an empty id and an empty name is normalized to the
    empty mapping. *)
Theorem C10_flattenPackage_keeps_both_fields :
  (∀ (P : gofastly.Package.t) (filename : string),
     ∃ m,
       flattenPackage P filename = [m]
       ∧ m !! "filename" = Some (VString filename)
       ∧ m !! "source_code_hash"
         = Some (VString (gofastly.PackageMetadata.HashSum
                            (gofastly.Package.Metadata P)))
       ∧ ∀ k, k ≠ "filename" → k ≠ "source_code_hash" → m !! k = None)
  ∧ (∃ m,
       flattenPackage
         (gofastly.Package.mk (gofastly.PackageMetadata.mk EmptyString))
         EmptyString = [m]
       ∧ m !! "filename" = Some (VString EmptyString)
       ∧ m !! "source_code_hash" = Some (VString EmptyString))
  ∧ flattenACLs [gofastly.ACL.mk EmptyString EmptyString] = [∅].
Proof.
  split.
  { intros P filename. eexists. split; [reflexivity|].
    split; [done|]. split; [done|].
    intros k Hk1 Hk2. by rewrite lookup_insert_ne, lookup_singleton_ne. }
  split.
  { eexists. split; [reflexivity|]. done. }
  reflexivity.
Qed.

(** * Further properties of the handlers *)

(** ** Loops that keep a relation between worlds *)

Lemma traced_refl {R} (conn : Client R) w : traced conn w w.
Proof.
  exists [], []. rewrite !app_nil_r. repeat split; auto; constructor.
Qed.

Lemma traced_trans {R} (conn : Client R) w1 w2 w3 :
  traced conn w1 w2 → traced conn w2 w3 → traced conn w1 w3.
Proof.
  intros (ls1 & cs1 & Hl1 & Hc1 & Hs1 & Hf1 & Ha1 & Hr1)
         (ls2 & cs2 & Hl2 & Hc2 & Hs2 & Hf2 & Ha2 & Hr2).
  exists (ls1 ++ ls2), (cs1 ++ cs2).
  rewrite Hl2, Hl1, Hc2, Hc1, Hs2, Hs1, <- !app_assoc.
  repeat split; auto.
  - by apply Forall2_app.
  - by apply Forall_app.
  - intros [-> ->]%app_eq_nil. rewrite Hr2, Hr1; done.
Qed.

Lemma forRange_traced {R} (conn : Client R) (body : Block → M R Flow) :
  (∀ x w, traced conn w (body x w).2) →
  ∀ l w, traced conn w (forRange l body w).2.
Proof.
  intros Hbody l. induction l as [|x l IH]; intros w; simpl.
  - apply traced_refl.
  - unfold mbind, M_bind, bind. specialize (Hbody x w).
    destruct (body x w) as [[[|err]|] w1]; simpl in *; auto.
    eapply traced_trans; [exact Hbody|apply IH].
Qed.

Lemma forRange_no_panic {R} (body : Block → M R Flow) (l : list Block) :
  (∀ x, x ∈ l → ∀ w, (body x w).1 ≠ Panic) →
  ∀ w, (forRange l body w).1 ≠ Panic.
Proof.
  induction l as [|x l IH]; intros Hbody w; simpl; [done|].
  unfold mbind, M_bind, bind.
  pose proof (Hbody x (list_elem_of_here _ _) w) as Hx.
  destruct (body x w) as [[[|err]|] w1]; simpl in *; try done.
  apply IH. intros y Hy. apply Hbody. by apply list_elem_of_further.
Qed.

Section MoreWritePath.
Context {R FV : Type}.
Variable getVCLLoggingAttributes :
  DefaultServiceAttributeHandler → Block → option (VCLLoggingAttributes FV).
Variable uintOrDefault : FV → Z.
Implicit Types (a : SetAttribute) (h : DefaultServiceAttributeHandler)
  (d : ResourceData R) (conn : Client R) (w : World R).

Local Abbreviation Process := (Process_set getVCLLoggingAttributes uintOrDefault).
Local Abbreviation issued := (issued_set getVCLLoggingAttributes uintOrDefault).
Local Abbreviation ready := (item_ready getVCLLoggingAttributes uintOrDefault).

(** The two loop bodies of a set attribute. *)
Local Abbreviation body_remove a d v conn :=
  (match a with
   | AttrACL => ACLServiceAttributeHandler.Process_remove d v conn
   | AttrLogentries => LogentriesServiceAttributeHandler.Process_remove d v conn
   end).

Local Abbreviation body_add a h d v conn :=
  (match a with
   | AttrACL => ACLServiceAttributeHandler.Process_add d v conn
   | AttrLogentries =>
       LogentriesServiceAttributeHandler.Process_add
         getVCLLoggingAttributes uintOrDefault h d v conn
   end).

Lemma Process_set_unfold a h d v conn :
  Process a h d v conn
  = (fl ← forRange (removeList d (GetKey h)) (body_remove a d v conn);
     match fl with
     | Return err => mret err
     | Continue =>
         fl ← forRange (addList d (GetKey h)) (body_add a h d v conn);
         match fl with
         | Return err => mret err
         | Continue => mret None
         end
     end).
Proof.
  destruct a; simpl.
  - apply ACL_Process_unfold.
  - apply Logentries_Process_unfold.
Qed.

Ltac one_call name :=
  eexists [_], [_]; simpl; repeat split;
  [ repeat constructor
  | repeat constructor; eexists; simpl; by rewrite name
  | discriminate ].

Lemma body_remove_traced a d v conn x w :
  traced conn w (body_remove a d v conn x w).2.
Proof.
  destruct a.
  - unfold ACLServiceAttributeHandler.Process_remove. unfold_M.
    destruct (x !! "name") as [[name| | |]|] eqn:Hn; simpl;
      try apply traced_refl.
    destruct (client_DeleteACL conn _ (remote w)) as [[e|] r] eqn:Hc; simpl.
    + destruct e as [sc| |]; [case_decide|..]; simpl; one_call Hc.
    + one_call Hc.
  - unfold LogentriesServiceAttributeHandler.Process_remove. unfold_M.
    destruct (x !! "name") as [[name| | |]|] eqn:Hn; simpl;
      try apply traced_refl.
    destruct (client_DeleteLogentries conn _ (remote w)) as [[e|] r] eqn:Hc;
      simpl.
    + destruct e as [sc| |]; [case_decide|..]; simpl; one_call Hc.
    + one_call Hc.
Qed.

Lemma body_add_traced a h d v conn x w :
  traced conn w (body_add a h d v conn x w).2.
Proof.
  destruct a.
  - unfold ACLServiceAttributeHandler.Process_add. unfold_M.
    destruct (x !! "name") as [[name| | |]|] eqn:Hn; simpl;
      try apply traced_refl.
    destruct (client_CreateACL conn _ (remote w)) as [[o|e] r] eqn:Hc; simpl;
      one_call Hc.
  - unfold LogentriesServiceAttributeHandler.Process_add. unfold_M.
    destruct (LogentriesServiceAttributeHandler.Process_add_opts _ _ h d v x)
      as [opts|] eqn:Hopts; simpl; [|apply traced_refl].
    destruct (client_CreateLogentries conn _ (remote w)) as [[o|e] r] eqn:Hc;
      simpl; one_call Hc.
Qed.

Lemma Process_set_traced a h d v conn w :
  traced conn w (Process a h d v conn w).2.
Proof.
  rewrite Process_set_unfold. unfold mbind, M_bind, bind.
  pose proof (forRange_traced conn (body_remove a d v conn)
                (body_remove_traced a d v conn) (removeList d (GetKey h)) w) as H1.
  destruct (forRange (removeList d (GetKey h)) (body_remove a d v conn) w)
    as [[[|err]|] w1]; simpl in *; try done.
  pose proof (forRange_traced conn (body_add a h d v conn)
                (body_add_traced a h d v conn) (addList d (GetKey h)) w1) as H2.
  destruct (forRange (addList d (GetKey h)) (body_add a h d v conn) w1)
    as [[[|err]|] w2]; simpl in *; by eapply traced_trans.
Qed.

Lemma body_remove_ready a h d v conn x w :
  ready a h d v (Remove x) → (body_remove a d v conn x w).1 ≠ Panic.
Proof.
  destruct a; simpl; intros [name Hn].
  - unfold ACLServiceAttributeHandler.Process_remove. unfold_M.
    rewrite Hn. simpl.
    destruct (client_DeleteACL conn _ (remote w)) as [[[sc| |]|] r]; simpl;
      try case_decide; done.
  - unfold LogentriesServiceAttributeHandler.Process_remove. unfold_M.
    rewrite Hn. simpl.
    destruct (client_DeleteLogentries conn _ (remote w)) as [[[sc| |]|] r];
      simpl; try case_decide; done.
Qed.

Lemma body_add_ready a h d v conn x w :
  ready a h d v (Add x) → (body_add a h d v conn x w).1 ≠ Panic.
Proof.
  destruct a; simpl.
  - intros [name Hn].
    unfold ACLServiceAttributeHandler.Process_add. unfold_M.
    rewrite Hn. simpl.
    by destruct (client_CreateACL conn _ (remote w)) as [[o|e] r].
  - intros [opts Hopts].
    unfold LogentriesServiceAttributeHandler.Process_add. unfold_M.
    rewrite Hopts. simpl.
    by destruct (client_CreateLogentries conn _ (remote w)) as [[o|e] r].
Qed.

Lemma Process_set_no_panic a h d v conn w :
  Forall (ready a h d v)
         (plan (removeList d (GetKey h)) (addList d (GetKey h))) →
  (Process a h d v conn w).1 ≠ Panic.
Proof.
  unfold plan. rewrite Forall_app, !Forall_fmap, !Forall_forall.
  intros [Hrm Had]. rewrite Process_set_unfold. unfold mbind, M_bind, bind.
  pose proof (forRange_no_panic (body_remove a d v conn) (removeList d (GetKey h))
                (λ x Hx w, body_remove_ready a h d v conn x w (Hrm x Hx)) w) as H1.
  destruct (forRange (removeList d (GetKey h)) (body_remove a d v conn) w)
    as [[[|err]|] w1]; simpl in *; try done.
  pose proof (forRange_no_panic (body_add a h d v conn) (addList d (GetKey h))
                (λ x Hx w, body_add_ready a h d v conn x w (Had x Hx)) w1) as H2.
  by destruct (forRange (addList d (GetKey h)) (body_add a h d v conn) w1)
    as [[[|err]|] w2].
Qed.

End MoreWritePath.

Lemma issued_scope {R FV} getVCLLoggingAttributes (uintOrDefault : FV → Z)
    a h (d : ResourceData R) v it c :
  issued_set getVCLLoggingAttributes uintOrDefault a h d v it c →
  req_scope (call_req c) = (d_Id d, v).
Proof.
  destruct a, it as [b|b]; simpl; try (by intros (name & _ & ->)).
  intros (opts & Hopts & ->). simpl.
  unfold LogentriesServiceAttributeHandler.Process_add_opts in Hopts.
  destruct (getVCLLoggingAttributes h b); simpl in Hopts; [|done].
  destruct (assertString (b !! "name")); simpl in Hopts; [|done].
  destruct (assertInt (b !! "port")); simpl in Hopts; [|done].
  destruct (assertBool (b !! "use_tls")); simpl in Hopts; [|done].
  destruct (assertString (b !! "token")); simpl in Hopts; [|done].
  by injection Hopts as <-.
Qed.

Lemma accepted_not_fatal {R} (conn : Client R) c :
  accepts_all conn → answered conn c →
  is_delete c = true ∨ is_create c = true → fatal c = None.
Proof.
  intros (Hd1 & Hd2 & Hc1 & Hc2) [r Hans] Hkind.
  unfold fatal, is_delete, is_create in *.
  destruct c as [req err]. simpl in *.
  destruct req as [i|i|i|i|i|i|i|i]; simpl in *;
    try (destruct Hkind; discriminate).
  - specialize (Hd1 i r). rewrite <- Hans in Hd1.
    destruct err as [e|]; [|done]. simpl in Hd1. by rewrite Hd1.
  - rewrite Hans. by rewrite Hc1.
  - specialize (Hd2 i r). rewrite <- Hans in Hd2.
    destruct err as [e|]; [|done]. simpl in Hd2. by rewrite Hd2.
  - rewrite Hans. by rewrite Hc2.
Qed.

Lemma Demo_plan_ready :
  Forall (item_ready Demo.getVCLLoggingAttributes Demo.uintOrDefault AttrACL
                     Demo.aclHandler Demo.data 3)
         (plan (removeList Demo.data (GetKey Demo.aclHandler))
               (addList Demo.data (GetKey Demo.aclHandler))).
Proof.
  assert (plan (removeList Demo.data (GetKey Demo.aclHandler))
               (addList Demo.data (GetKey Demo.aclHandler))
          = [Remove (Demo.acl "a"); Remove (Demo.acl "zz");
             Add (Demo.acl "c"); Add (Demo.acl "d")]) as ->
    by (vm_compute; reflexivity).
  repeat constructor; simpl; eexists; reflexivity.
Qed.

(** ** Further properties of the write path *)

(** X1. When the handler can build its request from every entry of the
    plan, [Process] does not panic: either it returns nil, having
    issued one call for every entry of the plan, none of them with a
    fatal error; or it returns an error, which is the fatal error of
    the last call it issued. *)
Theorem Process_of_ready_plan :
  ∀ (R FV : Type) getVCLLoggingAttributes (uintOrDefault : FV → Z)
    (a : SetAttribute) h (d : ResourceData R) v conn w,
    let Process := Process_set getVCLLoggingAttributes uintOrDefault a h d v conn in
    let issued := issued_set getVCLLoggingAttributes uintOrDefault a h d v in
    let todo := plan (removeList d (GetKey h)) (addList d (GetKey h)) in
    Forall (item_ready getVCLLoggingAttributes uintOrDefault a h d v) todo →
    ((Process w).1 = Ret None
     ∧ Forall2 issued todo (issuedCalls Process w)
     ∧ Forall (λ c, fatal c = None) (issuedCalls Process w))
    ∨ (∃ e tr c,
         (Process w).1 = Ret (Some e)
         ∧ issuedCalls Process w = tr ++ [c]
         ∧ fatal c = Some e
         ∧ Forall (λ c', fatal c' = None) tr
         ∧ (length tr < length todo)%nat).
Proof.
  intros R FV getVCL uod a h d v conn w Process issued todo Hready.
  pose proof (Process_set_no_panic getVCL uod a h d v conn w Hready) as Hnp.
  destruct (Process_set_plan getVCL uod a h d v conn w) as [_ Hrun].
  fold Process todo in Hrun, Hnp.
  destruct (Process w).1 as [[e|]|] eqn:Hout; [| |done].
  - right. pose proof (PlanRun_length _ _ _ _ Hrun) as Hlen.
    apply PlanRun_error in Hrun as (tr & c & Htr & Hc & Hall).
    exists e, tr, c. rewrite Htr, length_app in Hlen. simpl in Hlen.
    repeat split; auto. lia.
  - left. apply PlanRun_success in Hrun as [H1 H2]. auto.
Qed.

Lemma Process_of_ready_plan_witness :
  Forall (item_ready Demo.getVCLLoggingAttributes Demo.uintOrDefault AttrACL
                     Demo.aclHandler Demo.data 3)
         (plan (removeList Demo.data (GetKey Demo.aclHandler))
               (addList Demo.data (GetKey Demo.aclHandler)))
  ∧ (((Demo.runACL Demo.world).1 = Ret None
      ∧ Forall2 (issued_set Demo.getVCLLoggingAttributes Demo.uintOrDefault
                            AttrACL Demo.aclHandler Demo.data 3)
                (plan (removeList Demo.data (GetKey Demo.aclHandler))
                      (addList Demo.data (GetKey Demo.aclHandler)))
                (issuedCalls Demo.runACL Demo.world)
      ∧ Forall (λ c, fatal c = None) (issuedCalls Demo.runACL Demo.world))
     ∨ (∃ e tr c,
          (Demo.runACL Demo.world).1 = Ret (Some e)
          ∧ issuedCalls Demo.runACL Demo.world = tr ++ [c]
          ∧ fatal c = Some e
          ∧ Forall (λ c', fatal c' = None) tr
          ∧ (length tr
             < length (plan (removeList Demo.data (GetKey Demo.aclHandler))
                            (addList Demo.data (GetKey Demo.aclHandler))))%nat)).
Proof.
  split; [exact Demo_plan_ready|].
  exact (Process_of_ready_plan _ _ Demo.getVCLLoggingAttributes
           Demo.uintOrDefault AttrACL Demo.aclHandler Demo.data 3 Demo.client
           Demo.world Demo_plan_ready).
Defined.

(** X3. [Process] of a set attribute writes one debug line for every
    remote call it issues, carrying the request of that call, and no
    other line; the error recorded for a call is the one the client
    returned; nothing is written to the state sink; and when no call is
    issued the outside state is left as it was. *)
Theorem Process_logs_every_call :
  ∀ (R FV : Type) getVCLLoggingAttributes (uintOrDefault : FV → Z)
    (a : SetAttribute) h (d : ResourceData R) v conn w,
    let Process := Process_set getVCLLoggingAttributes uintOrDefault a h d v conn in
    logs (Process w).2 = logs w ++ newLogs Process w
    ∧ Forall2 logs_call (newLogs Process w) (issuedCalls Process w)
    ∧ stores (Process w).2 = stores w
    ∧ Forall (answered conn) (issuedCalls Process w)
    ∧ (issuedCalls Process w = [] → remote (Process w).2 = remote w).
Proof.
  intros R FV getVCL uod a h d v conn w Process.
  destruct (Process_set_traced getVCL uod a h d v conn w)
    as (ls & cs & Hl & Hc & Hs & Hf & Ha & Hr).
  fold Process in Hl, Hc, Hs, Hr.
  unfold newLogs, issuedCalls. rewrite Hl, Hc, !drop_app_length. auto.
Qed.

(** X4. Every remote call of the write path of a handler, of a set
    attribute or of the package, is scoped to the id of the resource
    and to the version [Process] was given. *)
Theorem Process_calls_scoped :
  ∀ (R FV : Type) getVCLLoggingAttributes (uintOrDefault : FV → Z)
    (a : Attribute) h (d : ResourceData R) v conn w,
    Forall (λ c, req_scope (call_req c) = (d_Id d, v))
           (issuedCalls
              (Process_of getVCLLoggingAttributes uintOrDefault a h d v conn) w).
Proof.
  intros R FV getVCL uod a h d v conn w. destruct a as [s|]; simpl.
  - destruct (Process_set_plan getVCL uod s h d v conn w) as [_ Hrun].
    apply PlanRun_follows in Hrun.
    eapply Forall2_Forall_r; [exact Hrun|].
    apply Forall_true. intros it c. apply issued_scope.
  - destruct (Package_Process_calls h d v conn w)
      as [->|(P & fn & err & _ & _ & ->)]; repeat constructor.
Qed.

(** X14. Against a client that refuses nothing, and with a request to
    be built from every entry of the plan, [Process] returns nil and has
    issued exactly one call for every entry of the plan, in order. *)
Theorem Process_succeeds_when_accepted :
  ∀ (R FV : Type) getVCLLoggingAttributes (uintOrDefault : FV → Z)
    (a : SetAttribute) h (d : ResourceData R) v conn w,
    let Process := Process_set getVCLLoggingAttributes uintOrDefault a h d v conn in
    let todo := plan (removeList d (GetKey h)) (addList d (GetKey h)) in
    accepts_all conn →
    Forall (item_ready getVCLLoggingAttributes uintOrDefault a h d v) todo →
    (Process w).1 = Ret None
    ∧ Forall2 (issued_set getVCLLoggingAttributes uintOrDefault a h d v) todo
              (issuedCalls Process w).
Proof.
  intros R FV getVCL uod a h d v conn w Process todo Hacc Hready.
  pose proof (Process_set_no_panic getVCL uod a h d v conn w Hready) as Hnp.
  destruct (Process_set_plan getVCL uod a h d v conn w) as [_ Hrun].
  destruct (Process_set_traced getVCL uod a h d v conn w)
    as (ls & cs & _ & Hc & _ & _ & Hans & _).
  apply issuedCalls_app in Hc.
  destruct (calls_split_deletes_creates getVCL uod a h d v conn w)
    as (ds & cs' & Hsplit & Hds & Hcs).
  fold Process todo in Hrun, Hnp, Hc, Hsplit.
  destruct (Process w).1 as [[e|]|] eqn:Hout; [| |done].
  - exfalso. apply PlanRun_error in Hrun as (tr & c & Htr & Hfatal & _).
    assert (c ∈ issuedCalls Process w) as Hin by (rewrite Htr; set_solver).
    assert (fatal c = None) as Hnf; [|congruence].
    apply (accepted_not_fatal conn); [done|..].
    + rewrite Hc in Hin. by apply (proj1 (Forall_forall _ _) Hans).
    + rewrite Hsplit in Hin. apply elem_of_app in Hin as [Hin|Hin].
      * left. by apply (proj1 (Forall_forall _ _) Hds).
      * right. by apply (proj1 (Forall_forall _ _) Hcs).
  - split; [done|]. by apply PlanRun_success in Hrun as [? _].
Qed.

Lemma Accepting_client_accepts : accepts_all Accepting.client.
Proof. repeat split; intros i r; reflexivity. Qed.

Lemma Process_succeeds_when_accepted_witness :
  accepts_all Accepting.client
  ∧ Forall (item_ready Demo.getVCLLoggingAttributes Demo.uintOrDefault AttrACL
                       Demo.aclHandler Demo.data 3)
           (plan (removeList Demo.data (GetKey Demo.aclHandler))
                 (addList Demo.data (GetKey Demo.aclHandler)))
  ∧ (Accepting.runACL Demo.world).1 = Ret None.
Proof.
  split; [exact Accepting_client_accepts|]. split; [exact Demo_plan_ready|].
  exact (proj1 (Process_succeeds_when_accepted _ _ Demo.getVCLLoggingAttributes
                  Demo.uintOrDefault AttrACL Demo.aclHandler Demo.data 3
                  Accepting.client Demo.world Accepting_client_accepts
                  Demo_plan_ready)).
Defined.

(** ** Requests and schemas *)

Lemma uint_range n : 0 ≤ uint n < 2 ^ 64.
Proof. unfold uint. apply Z.mod_pos_bound. lia. Qed.

(** X12. The create request of a Logentries block is built exactly when
    the helper [h.getVCLLoggingAttributes] returns for the block and the
    block holds a string name, an int port, a bool TLS flag and a string
    token; otherwise [Process] panics.  The request carries the name,
    the flag and the token as they are, the logging attributes the
    helper returned, and the port converted to an unsigned 64-bit
    number: a port that is not negative is kept, a negative one wraps
    around to a large number. *)
Theorem Logentries_request_of_block :
  ∀ (R FV : Type) getVCLLoggingAttributes (uintOrDefault : FV → Z)
    h (d : ResourceData R) v (b : Block),
    let build :=
      LogentriesServiceAttributeHandler.Process_add_opts
        getVCLLoggingAttributes uintOrDefault h d v b in
    (is_Some build
     ↔ is_Some (getVCLLoggingAttributes h b)
       ∧ ∃ name port use_tls token,
           b !! "name" = Some (VString name)
           ∧ b !! "port" = Some (VInt port)
           ∧ b !! "use_tls" = Some (VBool use_tls)
           ∧ b !! "token" = Some (VString token))
    ∧ ∀ opts, build = Some opts →
        b !! "name" = Some (VString (gofastly.CreateLogentriesInput.Name opts))
        ∧ b !! "use_tls"
          = Some (VBool (gofastly.CreateLogentriesInput.UseTLS opts))
        ∧ b !! "token"
          = Some (VString (gofastly.CreateLogentriesInput.Token opts))
        ∧ 0 ≤ gofastly.CreateLogentriesInput.Port opts < 2 ^ 64
        ∧ (∃ port,
             b !! "port" = Some (VInt port)
             ∧ (0 ≤ port < 2 ^ 64 →
                gofastly.CreateLogentriesInput.Port opts = port)
             ∧ (- 2 ^ 64 ≤ port < 0 →
                gofastly.CreateLogentriesInput.Port opts = port + 2 ^ 64))
        ∧ ∃ vla,
            getVCLLoggingAttributes h b = Some vla
            ∧ gofastly.CreateLogentriesInput.Format opts = format vla
            ∧ gofastly.CreateLogentriesInput.FormatVersion opts
              = uintOrDefault (formatVersion vla)
            ∧ gofastly.CreateLogentriesInput.Placement opts = placement vla
            ∧ gofastly.CreateLogentriesInput.ResponseCondition opts
              = responseCondition vla.
Proof.
  intros R FV getVCL uod h d v b build. subst build.
  unfold LogentriesServiceAttributeHandler.Process_add_opts.
  destruct (getVCL h b) as [vla|] eqn:Hvla; simpl;
    [|split; [split; [by intros [? ?]|by intros [[? ?] _]]
             |intros opts Ho; discriminate Ho]].
  destruct (b !! "name") as [[name| | |]|] eqn:Hn; simpl;
    try (split; [split; [by intros [? ?]|by intros (_&?&?&?&?&?&?)]
                |intros opts Ho; discriminate Ho]).
  destruct (b !! "port") as [[|port| |]|] eqn:Hp; simpl;
    try (split; [split; [by intros [? ?]|by intros (_&?&?&?&?&?&?&?)]
                |intros opts Ho; discriminate Ho]).
  destruct (b !! "use_tls") as [[| | |tls]|] eqn:Ht; simpl;
    try (split; [split; [by intros [? ?]|by intros (_&?&?&?&?&?&?&?&?)]
                |intros opts Ho; discriminate Ho]).
  destruct (b !! "token") as [[token| | |]|] eqn:Hk; simpl;
    try (split; [split; [by intros [? ?]|by intros (_&?&?&?&?&?&?&?&?)]
                |intros opts Ho; discriminate Ho]).
  split.
  - split; [|by eauto]. intros _. split; [by eauto|].
    by exists name, port, tls, token.
  - intros opts [= <-]. simpl.
    split; [reflexivity|]. split; [reflexivity|]. split; [reflexivity|].
    split; [apply uint_range|]. split.
    + exists port. split; [reflexivity|].
      unfold uint. split; intros Hr.
      * by apply Z.mod_small.
      * rewrite <- (Z.mod_add port 1 (2 ^ 64)) by lia.
        apply Z.mod_small. lia.
    + exists vla. repeat split; reflexivity.
Qed.

Lemma fits_lookup {VF} (fields : gmap string (Schema VF)) (b : Block) k f :
  fits fields b = true → fields !! k = Some f → demanded f = true →
  ∃ v, b !! k = Some v ∧ hasType v (s_Type f) = true.
Proof.
  unfold fits. rewrite forallb_forall. intros H Hk Hd.
  specialize (H (k, f)). simpl in H. rewrite Hd in H.
  assert (In (k, f) (map_to_list fields)) as Hin.
  { apply list_elem_of_In. by apply elem_of_map_to_list. }
  specialize (H Hin). destruct (b !! k) as [v|]; [eauto|done].
Qed.

Lemma fits_string {VF} (fields : gmap string (Schema VF)) (b : Block) k f :
  fits fields b = true → fields !! k = Some f → demanded f = true →
  s_Type f = TypeString → is_Some (assertString (b !! k)).
Proof.
  intros Hfit Hk Hd Ht.
  destruct (fits_lookup fields b k f Hfit Hk Hd) as (v & -> & Hv).
  rewrite Ht in Hv. destruct v; simpl in *; done.
Qed.

Lemma Register_of_stores {VF} STV (vfv vp : VF) a h (s s' : Resource VF) err m attr :
  Register_of STV vfv vp a h s = Ret (s', err) →
  r_Schema s' = Some m → m !! GetKey h = Some attr →
  err = None ∧ b_Elem attr = registered_elem STV vfv vp a h
  ∧ ∃ m0, r_Schema s = Some m0 ∧ m = <[GetKey h := attr]> m0.
Proof.
  intros Hreg Hs' Hm.
  destruct a as [[|]|]; simpl in Hreg;
    unfold ACL_Register, Logentries_Register, Package_Register, setSchema in Hreg;
    destruct (r_Schema s) as [m0|] eqn:Hs; try discriminate;
    injection Hreg as <- <-; simpl in Hs'; injection Hs' as <-;
    rewrite lookup_insert_eq in Hm; injection Hm as <-; simpl; eauto.
Qed.

Lemma Logentries_required_sub {VF} STV (vfv vp : VF) h k f :
  k ∈ ["name"; "token"; "port"; "use_tls"] →
  Logentries_required !! k = Some f →
  Logentries_blockAttributes STV vfv vp h !! k = Some f.
Proof.
  intros Hk Hf. unfold Logentries_blockAttributes.
  case_decide; [|done].
  rewrite !lookup_insert_ne; [done|..];
    intros <-; repeat (apply elem_of_cons in Hk as [Hk|Hk]; [discriminate|]);
    by apply elem_of_nil in Hk.
Qed.

(** X2. A block that fits the element schema [Register] has stored for
    a set attribute (a fitting value for every field that is required or
    has a default) is one on which no type assertion in the body of
    [Process] of that handler fails: the delete and the ACL create
    request are built from it, and the Logentries create request is
    built from it exactly when the helper [h.getVCLLoggingAttributes]
    returns for it. *)
Theorem registered_blocks_are_ready :
  ∀ (VF : Type) (ServiceTypeVCL : string)
    (validateLoggingFormatVersion validateLoggingPlacement : VF)
    (R FV : Type) getVCLLoggingAttributes (uintOrDefault : FV → Z)
    (a : SetAttribute) h (d : ResourceData R) v
    (s s' : Resource VF) err m attr (b : Block),
    Register_of ServiceTypeVCL validateLoggingFormatVersion
                validateLoggingPlacement (AttrSet a) h s = Ret (s', err) →
    r_Schema s' = Some m →
    m !! GetKey h = Some attr →
    fits (b_Elem attr) b = true →
    item_ready getVCLLoggingAttributes uintOrDefault a h d v (Remove b)
    ∧ (item_ready getVCLLoggingAttributes uintOrDefault a h d v (Add b)
       ↔ match a with
         | AttrACL => True
         | AttrLogentries => is_Some (getVCLLoggingAttributes h b)
         end).
Proof.
  intros VF STV vfv vp R FV getVCL uod a h d v s s' err m attr b Hreg Hs' Hm Hfit.
  destruct (Register_of_stores STV vfv vp (AttrSet a) h s s' err m attr Hreg Hs' Hm)
    as (_ & Helem & _).
  rewrite Helem in Hfit. destruct a; simpl in *.
  - assert (is_Some (assertString (b !! "name"))) as Hn.
    { eapply fits_string; [exact Hfit|reflexivity|reflexivity|reflexivity]. }
    split; [exact Hn|]. split; [auto|intros _; exact Hn].
  - assert (∀ k f, k ∈ ["name"; "token"; "port"; "use_tls"] →
                   Logentries_required (VF:=VF) !! k = Some f →
                   demanded f = true →
                   ∃ x, b !! k = Some x ∧ hasType x (s_Type f) = true) as Hget.
    { intros k f Hk Hf Hd. eapply fits_lookup; [exact Hfit| |done].
      by apply Logentries_required_sub. }
    destruct (Hget "name" _ ltac:(set_solver) eq_refl eq_refl) as (x1 & H1 & T1).
    destruct (Hget "token" _ ltac:(set_solver) eq_refl eq_refl) as (x2 & H2 & T2).
    destruct (Hget "port" _ ltac:(set_solver) eq_refl eq_refl) as (x3 & H3 & T3).
    destruct (Hget "use_tls" _ ltac:(set_solver) eq_refl eq_refl) as (x4 & H4 & T4).
    simpl in T1, T2, T3, T4.
    destruct x1; try done. destruct x2; try done.
    destruct x3; try done. destruct x4; try done.
    split.
    + rewrite H1. simpl. eauto.
    + unfold LogentriesServiceAttributeHandler.Process_add_opts.
      rewrite H1, H2, H3, H4. simpl.
      destruct (getVCL h b) as [vla|]; simpl.
      * split; eauto.
      * split; intros [? ?]; discriminate.
Qed.

Lemma registered_blocks_are_ready_witness :
  fits (Logentries_blockAttributes "vcl" "format_version" "placement"
                                   Demo.logentriesHandler)
       Accepting.vclLogentries = true
  ∧ item_ready Demo.getVCLLoggingAttributes Demo.uintOrDefault AttrLogentries
               Demo.logentriesHandler Demo.data 3 (Add Accepting.vclLogentries).
Proof.
  assert (fits (Logentries_blockAttributes "vcl" "format_version" "placement"
                                           Demo.logentriesHandler)
               Accepting.vclLogentries = true) as Hfit
    by (vm_compute; reflexivity).
  split; [exact Hfit|].
  destruct (registered_blocks_are_ready string "vcl" "format_version"
              "placement" _ _ Demo.getVCLLoggingAttributes
              Demo.uintOrDefault AttrLogentries Demo.logentriesHandler
              Demo.data 3 Accepting.resource _ _ _ _
              Accepting.vclLogentries eq_refl eq_refl
              (lookup_insert_eq _ _ _) Hfit) as [_ [_ Hadd]].
  apply Hadd. eexists. reflexivity.
Defined.

(** ** The package handler, further *)

(** X8. The write path of the package handler returns an error exactly
    when its [UpdatePackage] call failed, and then the error of the
    client wrapped in a message with the id of the resource, not the
    error itself.  It returns nil exactly when no package block is set
    or the call succeeded.  It panics, before any call, exactly when the
    package list is set and empty or its first block has no string file
    name.  It never writes a log line or to the state sink. *)
Theorem Package_Process_outcomes :
  ∀ (R : Type) h (d : ResourceData R) v conn w,
    let Process := PackageServiceAttributeHandler.Process h d v conn in
    let declared :=
      head (d_GetOk d (GetKey h)).1 ≫= λ P, assertString (P !! "filename") in
    logs (Process w).2 = logs w
    ∧ stores (Process w).2 = stores w
    ∧ (∀ e, (Process w).1 = Ret (Some e)
            ↔ ∃ c err,
                issuedCalls Process w = [c] ∧ call_err c = Some err
                ∧ e = Errorf "Error modifying package %s: %s"
                             [ArgString (d_Id d); ArgError err])
    ∧ ((Process w).1 = Ret None
       ↔ (d_GetOk d (GetKey h)).2 = false
         ∨ ∃ c, issuedCalls Process w = [c] ∧ call_err c = None)
    ∧ ((Process w).1 = Panic
       ↔ (d_GetOk d (GetKey h)).2 = true ∧ declared = None)
    ∧ ((Process w).1 = Panic → Process w = (Panic, w)).
Proof.
  intros R h d v conn w. simpl.
  unfold issuedCalls, PackageServiceAttributeHandler.Process.
  destruct (d_GetOk d (GetKey h)) as [l ok]. simpl.
  destruct ok; simpl.
  2:{ rewrite drop_all. repeat split; try done.
      - intros (c & err & ? & _); done.
      - by left.
      - by intros [? _]. }
  unfold_M.
  destruct (head l) as [P|] eqn:Hhead; simpl.
  2:{ rewrite drop_all. repeat split; try done.
      - intros (c & err & ? & _); done.
      - intros [?|(c & ? & _)]; done. }
  destruct (P !! "filename") as [[filename| | |]|] eqn:Hf; simpl;
    try (rewrite drop_all; repeat split; try done;
         [ intros (c & err & ? & _); done
         | intros [?|(c & ? & _)]; done ]).
  destruct (client_UpdatePackage conn _ (remote w)) as [[p|e] r'] eqn:Hc; simpl;
    rewrite drop_app_length.
  - repeat split; try done.
    + intros (c & err & [= <-] & ? & _); done.
    + intros _. right. by eexists.
    + by intros [_ ?].
  - repeat split; try done.
    + intros [= <-]. by eexists _, e.
    + by intros (c & err & [= <-] & [= <-] & ->).
    + intros [?|(c & [= <-] & ?)]; done.
    + by intros [_ ?].
Qed.

(** X9. When the package list of the data obeys the schema [Register]
    of the package handler has stored (its item bounds, and blocks that
    fit its element schema), it is one block with a string file name,
    and [Process] makes exactly one [UpdatePackage] call for that file
    name and does not panic. *)
Theorem Package_schema_guards_Process :
  ∀ (VF R : Type) h (s s' : Resource VF) err m attr
    (d : ResourceData R) v conn w (l : list Block),
    let Process := PackageServiceAttributeHandler.Process h d v conn in
    Package_Register h s = Ret (s', err) →
    r_Schema s' = Some m →
    m !! GetKey h = Some attr →
    d_GetOk d (GetKey h) = (l, true) →
    s_MinItems (b_Schema attr) ≤ Z.of_nat (length l) ≤ s_MaxItems (b_Schema attr) →
    Forall (λ b, fits (b_Elem attr) b = true) l →
    ∃ P filename c,
      l = [P]
      ∧ P !! "filename" = Some (VString filename)
      ∧ issuedCalls Process w = [c]
      ∧ call_req c = gofastly.ReqUpdatePackage
                       (gofastly.UpdatePackageInput.mk (d_Id d) v filename)
      ∧ ((Process w).1 = Ret None ∨ ∃ e, (Process w).1 = Ret (Some e)).
Proof.
  intros VF R h s s' err m attr d v conn w l Process Hreg Hs' Hm Hok Hlen Hfit.
  unfold Package_Register, setSchema in Hreg.
  destruct (r_Schema s) as [m0|]; [|done].
  injection Hreg as <- <-. simpl in Hs'. injection Hs' as <-.
  rewrite lookup_insert_eq in Hm. injection Hm as <-. simpl in *.
  destruct l as [|P [|P' l]]; simpl in Hlen; try lia.
  apply Forall_cons in Hfit as [Hfit _].
  destruct (fits_lookup Package_elem P "filename" _ Hfit eq_refl eq_refl)
    as (x & Hx & Tx).
  destruct x as [filename| | |]; simpl in Tx; try discriminate Tx.
  exists P, filename. subst Process.
  unfold issuedCalls, PackageServiceAttributeHandler.Process.
  rewrite Hok. unfold_M. simpl. rewrite Hx. simpl.
  destruct (client_UpdatePackage conn _ (remote w)) as [[p|e] r'] eqn:Hc; simpl;
    rewrite drop_app_length; eexists; repeat split; eauto.
Qed.

Lemma Package_schema_guards_Process_witness :
  d_GetOk Demo.data (GetKey Demo.packageHandler)
  = ([ {[ "filename" := VString "pkg.tar.gz" ]} ], true)
  ∧ ∃ P filename c,
      [ ({[ "filename" := VString "pkg.tar.gz" ]} : Block) ] = [P]
      ∧ P !! "filename" = Some (VString filename)
      ∧ issuedCalls Demo.runPackage Demo.world = [c]
      ∧ call_req c = gofastly.ReqUpdatePackage
                       (gofastly.UpdatePackageInput.mk (d_Id Demo.data) 3 filename)
      ∧ ((Demo.runPackage Demo.world).1 = Ret None
         ∨ ∃ e, (Demo.runPackage Demo.world).1 = Ret (Some e)).
Proof.
  split; [reflexivity|].
  refine (Package_schema_guards_Process string _ Demo.packageHandler
            Accepting.resource _ _ _ _ Demo.data 3 Demo.client Demo.world
            [ {[ "filename" := VString "pkg.tar.gz" ]} ]
            eq_refl eq_refl (lookup_insert_eq _ _ _) eq_refl _ _).
  - simpl. lia.
  - constructor; [vm_compute; reflexivity|constructor].
Defined.

(** ** The read path, further *)

Section MoreReadPath.
Context {R : Type}.
Implicit Types (h : DefaultServiceAttributeHandler) (d : ResourceData R)
  (conn : Client R) (w : World R) (s : gofastly.ServiceDetail.t).

Lemma ACL_Read_error h d s conn w e r1 :
  client_ListACLs conn (gofastly.ListACLsInput.mk (d_Id d) (activeNumber s))
                  (remote w) = (Err e, r1) →
  ACLServiceAttributeHandler.Read h d s conn w
  = (Ret (Some (Errorf "[ERR] Error looking up ACLs for (%s), version (%v): %s"
                       [ArgString (d_Id d); ArgInt (activeNumber s); ArgError e])),
     mkWorld r1
       (calls w ++ [mkCall (readRequest (AttrSet AttrACL) d s) (Some e)])
       (logs w ++ [mkLog "[DEBUG] Refreshing ACLs for (%s)" [ArgString (d_Id d)]])
       (stores w)).
Proof.
  intros Hl. unfold ACLServiceAttributeHandler.Read, activeNumber in *.
  unfold_M. simpl. by rewrite Hl.
Qed.

Lemma Logentries_Read_error h d s conn w e r1 :
  client_ListLogentries conn
    (gofastly.ListLogentriesInput.mk (d_Id d) (activeNumber s)) (remote w)
  = (Err e, r1) →
  LogentriesServiceAttributeHandler.Read h d s conn w
  = (Ret (Some (Errorf
                  "[ERR] Error looking up Logentries for (%s), version (%d): %s"
                  [ArgString (d_Id d); ArgInt (activeNumber s); ArgError e])),
     mkWorld r1
       (calls w ++ [mkCall (readRequest (AttrSet AttrLogentries) d s) (Some e)])
       (logs w ++ [mkLog "[DEBUG] Refreshing Logentries for (%s)"
                         [ArgString (d_Id d)]])
       (stores w)).
Proof.
  intros Hl. unfold LogentriesServiceAttributeHandler.Read, activeNumber in *.
  unfold_M. simpl. by rewrite Hl.
Qed.

Lemma Package_Read_error h d s conn w e r1 :
  client_GetPackage conn (gofastly.GetPackageInput.mk (d_Id d) (activeNumber s))
                    (remote w) = (Err e, r1) →
  PackageServiceAttributeHandler.Read h d s conn w
  = (Ret (Some (Errorf
                  "[ERR] Error looking up Package for (%s), version (%v): %v"
                  [ArgString (d_Id d); ArgInt (activeNumber s); ArgError e])),
     mkWorld r1
       (calls w ++ [mkCall (readRequest AttrPackage d s) (Some e)])
       (logs w ++ [mkLog "[DEBUG] Refreshing package for (%s)"
                         [ArgString (d_Id d)]])
       (stores w)).
Proof.
  intros Hl. unfold PackageServiceAttributeHandler.Read, activeNumber in *.
  unfold_M. simpl. by rewrite Hl.
Qed.

Lemma Package_Read_panics h d s conn w P r1 :
  client_GetPackage conn (gofastly.GetPackageInput.mk (d_Id d) (activeNumber s))
                    (remote w) = (Ok P, r1) →
  assertString (d_Get d "package.0.filename") = None →
  PackageServiceAttributeHandler.Read h d s conn w
  = (Panic,
     mkWorld r1
       (calls w ++ [mkCall (readRequest AttrPackage d s) None])
       (logs w ++ [mkLog "[DEBUG] Refreshing package for (%s)"
                         [ArgString (d_Id d)]])
       (stores w)).
Proof.
  intros Hl Hf. unfold PackageServiceAttributeHandler.Read, activeNumber in *.
  unfold_M. simpl. rewrite Hl. simpl. by rewrite Hf.
Qed.

Local Ltac exists_debug dbg conn d s w fetch :=
  let Hl := fresh "Hl" in
  destruct fetch as [[x|e] r1] eqn:Hl.

(** The three ways a read ends: the fetch failed; the fetched data
    were written to the state sink; or, for the package only, the file
    name asked from the data is not a string. *)
Lemma Read_of_runs (a : Attribute) h d s conn w :
  ∃ r debug,
    String.prefix "[DEBUG]" debug = true
    ∧ ((∃ e fmt,
          String.prefix "[ERR]" fmt = true
          ∧ Read_of a h d s conn w
            = (Ret (Some (Errorf fmt [ArgString (d_Id d);
                                      ArgInt (activeNumber s); ArgError e])),
               mkWorld r (calls w ++ [mkCall (readRequest a d s) (Some e)])
                       (logs w ++ [mkLog debug [ArgString (d_Id d)]])
                       (stores w)))
       ∨ (∃ warn blocks err,
            String.prefix "[WARN]" warn = true
            ∧ Read_of a h d s conn w
              = (Ret None,
                 mkWorld r (calls w ++ [mkCall (readRequest a d s) None])
                         (logs w ++ readLogs debug warn d err)
                         (stores w ++ [mkStore (GetKey h) blocks err]))
            ∧ match a with
              | AttrSet AttrACL =>
                  ∃ l r1,
                    client_ListACLs conn
                      (gofastly.ListACLsInput.mk (d_Id d) (activeNumber s))
                      (remote w) = (Ok l, r1)
                    ∧ blocks = flattenACLs l
                    ∧ d_Set d (GetKey h) blocks r1 = (err, r)
              | AttrSet AttrLogentries =>
                  ∃ l r1,
                    client_ListLogentries conn
                      (gofastly.ListLogentriesInput.mk (d_Id d) (activeNumber s))
                      (remote w) = (Ok l, r1)
                    ∧ blocks = flattenLogentries l
                    ∧ d_Set d (GetKey h) blocks r1 = (err, r)
              | AttrPackage =>
                  ∃ P r1 filename,
                    client_GetPackage conn
                      (gofastly.GetPackageInput.mk (d_Id d) (activeNumber s))
                      (remote w) = (Ok P, r1)
                    ∧ d_Get d "package.0.filename" = Some (VString filename)
                    ∧ blocks = flattenPackage P filename
                    ∧ d_Set d (GetKey h) blocks r1 = (err, r)
              end)
       ∨ (a = AttrPackage
          ∧ assertString (d_Get d "package.0.filename") = None
          ∧ Read_of a h d s conn w
            = (Panic,
               mkWorld r (calls w ++ [mkCall (readRequest a d s) None])
                       (logs w ++ [mkLog debug [ArgString (d_Id d)]])
                       (stores w)))).
Proof.
  destruct a as [[|]|]; simpl.
  - exists_debug "[DEBUG] Refreshing ACLs for (%s)" conn d s w
      (client_ListACLs conn
         (gofastly.ListACLsInput.mk (d_Id d) (activeNumber s)) (remote w)).
    + destruct (d_Set d (GetKey h) (flattenACLs x) r1) as [err r2] eqn:Hs.
      exists r2, "[DEBUG] Refreshing ACLs for (%s)". split; [reflexivity|].
      right; left.
      exists "[WARN] Error setting ACLs for (%s): %s", (flattenACLs x), err.
      split; [reflexivity|]. split.
      * apply (ACL_Read_stored _ _ _ _ _ _ _ _ _ Hl Hs).
      * by exists x, r1.
    + exists r1, "[DEBUG] Refreshing ACLs for (%s)". split; [reflexivity|].
      left. eexists e, _. split; [|apply (ACL_Read_error _ _ _ _ _ _ _ Hl)].
      reflexivity.
  - exists_debug "[DEBUG] Refreshing Logentries for (%s)" conn d s w
      (client_ListLogentries conn
         (gofastly.ListLogentriesInput.mk (d_Id d) (activeNumber s)) (remote w)).
    + destruct (d_Set d (GetKey h) (flattenLogentries x) r1) as [err r2] eqn:Hs.
      exists r2, "[DEBUG] Refreshing Logentries for (%s)".
      split; [reflexivity|]. right; left.
      exists "[WARN] Error setting Logentries for (%s): %s",
        (flattenLogentries x), err.
      split; [reflexivity|]. split.
      * apply (Logentries_Read_stored _ _ _ _ _ _ _ _ _ Hl Hs).
      * by exists x, r1.
    + exists r1, "[DEBUG] Refreshing Logentries for (%s)".
      split; [reflexivity|].
      left. eexists e, _.
      split; [|apply (Logentries_Read_error _ _ _ _ _ _ _ Hl)].
      reflexivity.
  - exists_debug "[DEBUG] Refreshing package for (%s)" conn d s w
      (client_GetPackage conn
         (gofastly.GetPackageInput.mk (d_Id d) (activeNumber s)) (remote w)).
    + destruct (d_Get d "package.0.filename") as [[filename| | |]|] eqn:Hf.
      2-5: exists r1, "[DEBUG] Refreshing package for (%s)";
           (split; [reflexivity|]); right; right;
           (split; [reflexivity|]); (split; [reflexivity|]);
           apply (Package_Read_panics _ _ _ _ _ _ _ Hl); by rewrite Hf.
      destruct (d_Set d (GetKey h) (flattenPackage x filename) r1)
        as [err r2] eqn:Hs.
      exists r2, "[DEBUG] Refreshing package for (%s)".
      split; [reflexivity|]. right; left.
      exists "[WARN] Error setting Package for (%s): %s",
        (flattenPackage x filename), err.
      split; [reflexivity|]. split.
      * apply (Package_Read_stored _ _ _ _ _ _ _ _ _ _ Hl Hf Hs).
      * by exists x, r1, filename.
    + exists r1, "[DEBUG] Refreshing package for (%s)". split; [reflexivity|].
      left. eexists e, _. split; [|apply (Package_Read_error _ _ _ _ _ _ _ Hl)].
      reflexivity.
Qed.

End MoreReadPath.

Lemma readRequest_scope {R} a (d : ResourceData R) s :
  req_scope (readRequest a d s) = (d_Id d, activeNumber s).
Proof. by destruct a as [[|]|]. Qed.

(** X5. Whatever happens in it, a read makes exactly one remote call:
    the list (or get) of its kind, scoped to the id of the resource and
    to the number of the active version; it never issues a delete, a
    create or an update. *)
Theorem Read_fetches_once :
  ∀ (R : Type) (a : Attribute) h (d : ResourceData R) s conn w,
    ∃ c,
      issuedCalls (Read_of a h d s conn) w = [c]
      ∧ call_req c = readRequest a d s
      ∧ req_scope (call_req c) = (d_Id d, activeNumber s)
      ∧ is_delete c = false ∧ is_create c = false ∧ is_update c = false.
Proof.
  intros R a h d s conn w.
  destruct (Read_of_runs a h d s conn w)
    as (r & debug & _ & [(e & fmt & _ & Hrun)
                        |[(warn & blocks & err & _ & Hrun & _)
                         |(_ & _ & Hrun)]]);
    unfold issuedCalls; rewrite Hrun; simpl; rewrite drop_app_length;
    eexists; (split; [reflexivity|]); simpl;
    (split; [reflexivity|]); (split; [apply readRequest_scope|]);
    by destruct a as [[|]|].
Qed.

(** X6. When the fetch of a read fails with [e], the read returns an
    error that wraps [e] with the id of the resource and the number of
    the active version; it writes nothing to the state sink and logs
    only its debug line. *)
Theorem Read_fetch_failure :
  ∀ (R : Type) (a : Attribute) h (d : ResourceData R) s conn w
    (c : Call) (e : error),
    let Read := Read_of a h d s conn in
    issuedCalls Read w = [c] →
    call_err c = Some e →
    ∃ fmt debug,
      (Read w).1
      = Ret (Some (Errorf fmt [ArgString (d_Id d); ArgInt (activeNumber s);
                               ArgError e]))
      ∧ String.prefix "[ERR]" fmt = true
      ∧ newStores Read w = []
      ∧ newLogs Read w = [mkLog debug [ArgString (d_Id d)]]
      ∧ String.prefix "[DEBUG]" debug = true.
Proof.
  intros R a h d s conn w c e Read Hc He.
  destruct (Read_of_runs a h d s conn w)
    as (r & debug & Hdebug & [(e' & fmt & Hfmt & Hrun)
                             |[(warn & blocks & err & _ & Hrun & _)
                              |(_ & _ & Hrun)]]);
    fold Read in Hrun; unfold issuedCalls, newStores, newLogs in *;
    rewrite Hrun in *; simpl in *; rewrite drop_app_length in Hc;
    injection Hc as <-; simpl in He; try discriminate He.
  injection He as ->. exists fmt, debug.
  rewrite drop_all, drop_app_length. auto.
Qed.

Lemma Read_fetch_failure_witness :
  issuedCalls Outage.readACLs Demo.world = [Outage.listCall]
  ∧ call_err Outage.listCall = Some Outage.unavailable
  ∧ ∃ fmt debug,
      (Outage.readACLs Demo.world).1
      = Ret (Some (Errorf fmt [ArgString (d_Id Demo.data);
                               ArgInt (activeNumber Demo.detail);
                               ArgError Outage.unavailable]))
      ∧ String.prefix "[ERR]" fmt = true
      ∧ newStores Outage.readACLs Demo.world = []
      ∧ newLogs Outage.readACLs Demo.world
        = [mkLog debug [ArgString (d_Id Demo.data)]]
      ∧ String.prefix "[DEBUG]" debug = true.
Proof.
  assert (issuedCalls Outage.readACLs Demo.world = [Outage.listCall]) as H1
    by (vm_compute; reflexivity).
  split; [exact H1|]. split; [reflexivity|].
  exact (Read_fetch_failure _ (AttrSet AttrACL) Demo.aclHandler Demo.data
           Demo.detail Outage.client Demo.world Outage.listCall
           Outage.unavailable H1 eq_refl).
Defined.

(** X7. Whenever a read writes to the state sink, it writes once,
    under the key of the handler, the normalization of exactly what the
    client returned (for the package, with the declared file name), and
    it returns nil; when the write is accepted, its debug line is the
    only line it logs. *)
Theorem Read_stores_normalized :
  ∀ (R : Type) (a : Attribute) h (d : ResourceData R) s conn w (st : Store),
    let Read := Read_of a h d s conn in
    newStores Read w = [st] →
    (Read w).1 = Ret None
    ∧ store_key st = GetKey h
    ∧ match a with
      | AttrSet AttrACL =>
          ∃ l r1,
            client_ListACLs conn
              (gofastly.ListACLsInput.mk (d_Id d) (activeNumber s)) (remote w)
            = (Ok l, r1)
            ∧ store_value st = flattenACLs l
      | AttrSet AttrLogentries =>
          ∃ l r1,
            client_ListLogentries conn
              (gofastly.ListLogentriesInput.mk (d_Id d) (activeNumber s))
              (remote w)
            = (Ok l, r1)
            ∧ store_value st = flattenLogentries l
      | AttrPackage =>
          ∃ P r1 filename,
            client_GetPackage conn
              (gofastly.GetPackageInput.mk (d_Id d) (activeNumber s)) (remote w)
            = (Ok P, r1)
            ∧ d_Get d "package.0.filename" = Some (VString filename)
            ∧ store_value st = flattenPackage P filename
      end
    ∧ (store_err st = None →
       ∃ debug, newLogs Read w = [mkLog debug [ArgString (d_Id d)]]
                ∧ String.prefix "[DEBUG]" debug = true).
Proof.
  intros R a h d s conn w st Read Hst.
  destruct (Read_of_runs a h d s conn w)
    as (r & debug & Hdebug & [(e' & fmt & Hfmt & Hrun)
                             |[(warn & blocks & err & _ & Hrun & Hfetch)
                              |(_ & _ & Hrun)]]);
    fold Read in Hrun; unfold newStores, newLogs in *;
    rewrite Hrun in *; simpl in *;
    try (rewrite drop_all in Hst; discriminate Hst).
  rewrite drop_app_length in Hst. injection Hst as <-. simpl.
  split; [done|]. split; [done|]. split.
  - destruct a as [[|]|].
    + destruct Hfetch as (l & r1 & ? & ? & _). by exists l, r1.
    + destruct Hfetch as (l & r1 & ? & ? & _). by exists l, r1.
    + destruct Hfetch as (P & r1 & fn & ? & ? & ? & _). by exists P, r1, fn.
  - intros ->. exists debug. by rewrite drop_app_length.
Qed.

Lemma Read_stores_normalized_witness :
  newStores Accepting.readACLs Demo.world = [Accepting.acceptedStore]
  ∧ (Accepting.readACLs Demo.world).1 = Ret None.
Proof.
  assert (newStores Accepting.readACLs Demo.world = [Accepting.acceptedStore])
    as H1 by (vm_compute; reflexivity).
  split; [exact H1|].
  exact (proj1 (Read_stores_normalized _ (AttrSet AttrACL) Demo.aclHandler
                  Accepting.data Demo.detail Demo.client Demo.world
                  Accepting.acceptedStore H1)).
Defined.

(** ** The normalizers, further *)

Lemma pruneEmpty_Forall (m : Block) (names : list string) :
  (∀ k, is_Some (m !! k) → k ∈ names) →
  map_Forall (λ k v, v ≠ VString EmptyString ∧ k ∈ names) (pruneEmpty m).
Proof.
  intros Hnames k v Hk. rewrite lookup_pruneEmpty in Hk.
  destruct (m !! k) as [x|] eqn:Hx; [|done].
  destruct (isEmptyString x) eqn:He; [done|]. injection Hk as <-. split.
  - intros ->. by simpl in He.
  - apply Hnames. by rewrite Hx.
Qed.

Lemma ACL_fields_keys acl k :
  is_Some (ACL_fields acl !! k) → k ∈ ["acl_id"; "name"].
Proof.
  unfold ACL_fields. rewrite <- elem_of_dom, dom_insert_L, dom_singleton_L.
  set_solver.
Qed.

Lemma Logentries_fields_keys le k :
  is_Some (Logentries_fields le !! k) →
  k ∈ ["name"; "port"; "use_tls"; "token"; "format"; "format_version";
       "response_condition"; "placement"].
Proof.
  unfold Logentries_fields.
  rewrite <- elem_of_dom, !dom_insert_L, dom_singleton_L.
  set_solver.
Qed.

(** X10. No block a list normalizer returns holds an empty string, and
    the keys of its blocks are among the field names of the map the
    normalizer builds: two for an ACL, eight for a Logentries
    endpoint. *)
Theorem flatten_holds_no_empty_string :
  (∀ l,
     Forall (map_Forall (λ k v, v ≠ VString EmptyString
                                ∧ k ∈ ["acl_id"; "name"]))
            (flattenACLs l))
  ∧ (∀ l,
       Forall (map_Forall
                 (λ k v, v ≠ VString EmptyString
                         ∧ k ∈ ["name"; "port"; "use_tls"; "token"; "format";
                                "format_version"; "response_condition";
                                "placement"]))
              (flattenLogentries l)).
Proof.
  split; intros l.
  - rewrite flattenACLs_fmap, Forall_fmap. apply Forall_true. intros acl.
    apply pruneEmpty_Forall, ACL_fields_keys.
  - rewrite flattenLogentries_fmap, Forall_fmap. apply Forall_true. intros le.
    apply pruneEmpty_Forall, Logentries_fields_keys.
Qed.

Lemma normalized_ACL_name acl :
  assertString (pruneEmpty (ACL_fields acl) !! "name")
  = if decide (gofastly.ACL.Name acl = EmptyString) then None
    else Some (gofastly.ACL.Name acl).
Proof.
  rewrite lookup_pruneEmpty.
  change (ACL_fields acl !! "name") with (Some (VString (gofastly.ACL.Name acl))).
  simpl. case_bool_decide; by case_decide.
Qed.

Lemma normalized_Logentries_name le :
  assertString (pruneEmpty (Logentries_fields le) !! "name")
  = if decide (gofastly.Logentries.Name le = EmptyString) then None
    else Some (gofastly.Logentries.Name le).
Proof.
  rewrite lookup_pruneEmpty.
  change (Logentries_fields le !! "name")
    with (Some (VString (gofastly.Logentries.Name le))).
  simpl. case_bool_decide; by case_decide.
Qed.

(** X11. The block a normalizer returns for a remote ACL or Logentries
    endpoint, handed to the removal loop of the same handler, makes it
    issue the delete for the name of that remote object when the name
    is not empty; for an empty name the name key is pruned and the
    removal panics without a call. *)
Theorem normalized_block_removal :
  ∀ (R : Type) (d : ResourceData R) v conn w,
    (∀ acl,
       let remove :=
         ACLServiceAttributeHandler.Process_remove d v conn
           (pruneEmpty (ACL_fields acl)) in
       if decide (gofastly.ACL.Name acl = EmptyString)
       then remove w = (Panic, w)
       else ∃ c,
           issuedCalls remove w = [c]
           ∧ call_req c = gofastly.ReqDeleteACL
                            (gofastly.DeleteACLInput.mk (d_Id d) v
                               (gofastly.ACL.Name acl))
           ∧ (remove w).1 ≠ Panic)
    ∧ (∀ le,
         let remove :=
           LogentriesServiceAttributeHandler.Process_remove d v conn
             (pruneEmpty (Logentries_fields le)) in
         if decide (gofastly.Logentries.Name le = EmptyString)
         then remove w = (Panic, w)
         else ∃ c,
             issuedCalls remove w = [c]
             ∧ call_req c = gofastly.ReqDeleteLogentries
                              (gofastly.DeleteLogentriesInput.mk (d_Id d) v
                                 (gofastly.Logentries.Name le))
             ∧ (remove w).1 ≠ Panic).
Proof.
  intros R d v conn w. split.
  - intros acl. simpl.
    unfold issuedCalls, ACLServiceAttributeHandler.Process_remove. unfold_M.
    rewrite normalized_ACL_name. case_decide; simpl; [done|].
    destruct (client_DeleteACL conn _ (remote w)) as [[[sc| |]|] r]; simpl;
      try case_decide; simpl; rewrite drop_app_length;
      eexists; (split; [reflexivity|]); split; [reflexivity|discriminate
                                               |reflexivity|discriminate
                                               |reflexivity|discriminate
                                               |reflexivity|discriminate
                                               |reflexivity|discriminate].
  - intros le. simpl.
    unfold issuedCalls, LogentriesServiceAttributeHandler.Process_remove.
    unfold_M.
    rewrite normalized_Logentries_name. case_decide; simpl; [done|].
    destruct (client_DeleteLogentries conn _ (remote w)) as [[[sc| |]|] r];
      simpl; try case_decide; simpl; rewrite drop_app_length;
      eexists; (split; [reflexivity|]); split; [reflexivity|discriminate
                                               |reflexivity|discriminate
                                               |reflexivity|discriminate
                                               |reflexivity|discriminate
                                               |reflexivity|discriminate].
Qed.

Local Ltac in_list :=
  repeat first [apply list_elem_of_here | apply list_elem_of_further].

(** X13. The element schema [Register] of the Logentries handler
    builds has the fields name, token, port and use_tls, and, for a
    service of the VCL type only, also format, format_version,
    response_condition and placement.  For a VCL service every key of a
    normalized Logentries block is a field of that schema; for any other
    service the normalizer still emits format_version, which the schema
    does not have.  Every key of a normalized ACL or package block is a
    field of the schema its handler registers. *)
Theorem normalized_keys_and_schema :
  ∀ (VF : Type) (ServiceTypeVCL : string)
    (validateLoggingFormatVersion validateLoggingPlacement : VF) h,
    let fields :=
      Logentries_blockAttributes ServiceTypeVCL validateLoggingFormatVersion
                                 validateLoggingPlacement h in
    let vcl := bool_decide (serviceType (GetServiceMetadata h) = ServiceTypeVCL) in
    (∀ k, is_Some (fields !! k)
          ↔ k ∈ ["name"; "token"; "port"; "use_tls"]
            ∨ (vcl = true
               ∧ k ∈ ["format"; "format_version"; "response_condition";
                      "placement"]))
    ∧ (∀ le,
         if vcl
         then map_Forall (λ k _, is_Some (fields !! k))
                         (pruneEmpty (Logentries_fields le))
         else is_Some (pruneEmpty (Logentries_fields le) !! "format_version")
              ∧ fields !! "format_version" = None)
    ∧ (∀ acl,
         map_Forall (λ k _, is_Some (ACL_elem (VF:=VF) !! k))
                    (pruneEmpty (ACL_fields acl)))
    ∧ (∀ P filename,
         Forall (map_Forall (λ k _, is_Some (Package_elem (VF:=VF) !! k)))
                (flattenPackage P filename)).
Proof.
  intros VF STV vfv vp h fields vcl.
  assert (∀ k, is_Some (fields !! k)
               ↔ k ∈ ["name"; "token"; "port"; "use_tls"]
                 ∨ (vcl = true
                    ∧ k ∈ ["format"; "format_version"; "response_condition";
                           "placement"])) as Hfields.
  { intros k. subst fields vcl.
    unfold Logentries_blockAttributes, Logentries_required.
    case_bool_decide as Hv; [rewrite decide_True by done
                            |rewrite decide_False by done];
      rewrite <- elem_of_dom, !dom_insert_L, dom_singleton_L; set_solver. }
  split; [exact Hfields|]. split; [|split].
  - intros le. destruct vcl eqn:Hv.
    + intros k x Hk. apply Hfields.
      assert (is_Some (Logentries_fields le !! k)) as Hin.
      { rewrite lookup_pruneEmpty in Hk.
        destruct (Logentries_fields le !! k); [eauto|done]. }
      apply Logentries_fields_keys in Hin.
      repeat (apply elem_of_cons in Hin as [->|Hin]);
        try (apply elem_of_nil in Hin; destruct Hin);
        first [ left; solve [in_list]
              | right; split; [reflexivity|solve [in_list]] ].
    + split.
      * rewrite lookup_pruneEmpty. by eexists.
      * apply eq_None_not_Some. rewrite Hfields. intros [H|[H _]]; [|done].
        repeat (apply elem_of_cons in H as [H|H]; [discriminate H|]).
        apply elem_of_nil in H. destruct H.
  - intros acl k x Hk.
    assert (is_Some (ACL_fields acl !! k)) as Hin.
    { rewrite lookup_pruneEmpty in Hk.
      destruct (ACL_fields acl !! k); [eauto|done]. }
    apply ACL_fields_keys in Hin.
    repeat (apply elem_of_cons in Hin as [->|Hin]);
      try (apply elem_of_nil in Hin; destruct Hin);
      eexists; reflexivity.
  - intros P filename. unfold flattenPackage. simpl.
    repeat constructor. intros k x Hk.
    assert (k ∈ dom ({[ "source_code_hash" :=
                          VString (gofastly.PackageMetadata.HashSum
                                     (gofastly.Package.Metadata P));
                        "filename" := VString filename ]} : Block)) as Hin
      by (apply elem_of_dom; eauto).
    rewrite dom_insert_L, dom_singleton_L, elem_of_union, !elem_of_singleton
      in Hin.
    destruct Hin as [->| ->]; eexists; reflexivity.
Qed.

(** ** Registration *)

Lemma New_of_key_inj a a' sa sa' :
  GetKey (New_of a sa) = GetKey (New_of a' sa') → a = a'.
Proof. by destruct a as [[|]|], a' as [[|]|]. Qed.

(** X15. The handlers the three constructors build register under
    three different keys.  So when one of them has registered and then
    a handler of another kind registers on the resulting resource, both
    return a nil error and the resource still holds, under the key of
    the first, the schema the first one stored, with the element schema
    of its kind. *)
Theorem Register_keeps_other_handlers :
  ∀ (VF : Type) (ServiceTypeVCL : string)
    (validateLoggingFormatVersion validateLoggingPlacement : VF)
    (a a' : Attribute) (sa sa' : ServiceMetadata)
    (s s1 s2 : Resource VF) (e1 e2 : option error),
    let Register :=
      Register_of ServiceTypeVCL validateLoggingFormatVersion
                  validateLoggingPlacement in
    a ≠ a' →
    Register a (New_of a sa) s = Ret (s1, e1) →
    Register a' (New_of a' sa') s1 = Ret (s2, e2) →
    e1 = None ∧ e2 = None
    ∧ ∃ m1 m2 attr,
        r_Schema s1 = Some m1 ∧ r_Schema s2 = Some m2
        ∧ m1 !! GetKey (New_of a sa) = Some attr
        ∧ m2 !! GetKey (New_of a sa) = Some attr
        ∧ b_Elem attr
          = registered_elem ServiceTypeVCL validateLoggingFormatVersion
                            validateLoggingPlacement a (New_of a sa)
        ∧ is_Some (m2 !! GetKey (New_of a' sa')).
Proof.
  intros VF STV vfv vp a a' sa sa' s s1 s2 e1 e2 Register Hne H1 H2.
  assert (∀ b hb (t t' : Resource VF) e,
            Register b hb t = Ret (t', e) →
            e = None
            ∧ ∃ m attr, r_Schema t = Some m
                ∧ r_Schema t' = Some (<[GetKey hb := attr]> m)
                ∧ b_Elem attr = registered_elem STV vfv vp b hb) as Hreg.
  { intros b hb t t' e Hb. subst Register.
    destruct b as [[|]|]; simpl in Hb;
      unfold ACL_Register, Logentries_Register, Package_Register, setSchema in Hb;
      destruct (r_Schema t) as [m|]; try discriminate;
      injection Hb as <- <-; (split; [reflexivity|]);
      eexists m, _; (split; [reflexivity|]); split; reflexivity. }
  destruct (Hreg _ _ _ _ _ H1) as (-> & m0 & attr & Hs & Hs1 & Helem).
  destruct (Hreg _ _ _ _ _ H2) as (-> & m1' & attr' & Hs1' & Hs2 & _).
  rewrite Hs1 in Hs1'. injection Hs1' as <-.
  split; [done|]. split; [done|].
  eexists _, _, attr. split; [exact Hs1|]. split; [exact Hs2|].
  split; [apply lookup_insert_eq|]. split.
  - rewrite lookup_insert_ne; [apply lookup_insert_eq|].
    intros Heq. apply Hne. symmetry. by eapply New_of_key_inj.
  - split; [exact Helem|]. rewrite lookup_insert_eq. eauto.
Qed.

Lemma Register_keeps_other_handlers_witness :
  AttrSet AttrACL ≠ AttrPackage
  ∧ ∃ s1 s2,
      Register_of "vcl" "format_version" "placement" (AttrSet AttrACL)
                  (New_of (AttrSet AttrACL) (mkServiceMetadata "vcl"))
                  Accepting.resource = Ret (s1, None)
      ∧ Register_of "vcl" "format_version" "placement" AttrPackage
                    (New_of AttrPackage (mkServiceMetadata "vcl")) s1
        = Ret (s2, None)
      ∧ ∃ m2 attr,
          r_Schema s2 = Some m2
          ∧ m2 !! "acl" = Some attr
          ∧ b_Elem attr = ACL_elem.
Proof.
  split; [discriminate|].
  eexists _, _. split; [reflexivity|]. split; [reflexivity|].
  destruct (Register_keeps_other_handlers string "vcl" "format_version"
              "placement" (AttrSet AttrACL) AttrPackage
              (mkServiceMetadata "vcl") (mkServiceMetadata "vcl")
              Accepting.resource _ _ None None
              ltac:(discriminate) eq_refl eq_refl)
    as (_ & _ & m1 & m2 & attr & _ & H2 & _ & H4 & H5 & _).
  exists m2, attr. split; [exact H2|]. split; [exact H4|exact H5].
Defined.

(** A Logentries block whose format is not a string: the helper of the
    demo panics on it, so no request is built although the name, port,
    TLS flag and token are well typed, and the loop body panics without
    a call. *)
Example Demo_bad_format_panics :
  LogentriesServiceAttributeHandler.Process_add_opts
    Demo.getVCLLoggingAttributes Demo.uintOrDefault Demo.logentriesHandler
    Demo.data 3 Demo.badFormat = None
  ∧ LogentriesServiceAttributeHandler.Process_add
      Demo.getVCLLoggingAttributes Demo.uintOrDefault Demo.logentriesHandler
      Demo.data 3 Demo.client Demo.badFormat Demo.world
    = (Panic, Demo.world).
Proof. split; reflexivity. Qed.
